(** * Declarative plotting: the two figure builders of
      [qualibration_libs/plotting/standard_plotter.py]

    A shallow embedding of [create_plotly_figure] and
    [create_matplotlib_figure].  Python exceptions are values of an error
    monad, dictionaries are finite maps, and the figure under construction
    is threaded explicitly through every loop.

    The plotting backends are recorders of the calls made on them: a
    figure is what [make_subplots], [add_trace], [ax.plot] and the like
    were given.  What plotly and matplotlib check on their own arguments
    is outside this file; the exceptions modelled are those of the Python
    of the builders themselves (lookups, indexing, division, repeated
    keyword arguments) and the shape check of [np.stack]. *)

From Stdlib Require Import ZArith String List Bool Lia.
From stdpp Require Import base option list gmap strings fin_maps.

Local Open Scope string_scope.
Local Open Scope list_scope.
Local Open Scope Z_scope.

(** ** Exceptions and the error monad *)

Inductive exn : Type :=
  | KeyError
  | IndexError
  | ZeroDivisionError
  | TypeError
  | ValueError.

Inductive result (A : Type) : Type :=
  | Ok (a : A)
  | Raise (e : exn).
Arguments Ok {A} a.
Arguments Raise {A} e.

#[global] Instance result_ret : MRet result := fun A a => Ok a.
#[global] Instance result_bind : MBind result := fun A B f r =>
  match r with
  | Ok a => f a
  | Raise e => Raise e
  end.
#[global] Instance result_fmap : FMap result := fun A B f r =>
  match r with
  | Ok a => Ok (f a)
  | Raise e => Raise e
  end.

(** A [for] statement whose body updates the state [s] and may raise;
    [continue] is a body that returns the state unchanged. *)
Fixpoint for_each {A S : Type} (xs : list A) (body : A -> S -> result S)
    (s : S) : result S :=
  match xs with
  | [] => Ok s
  | x :: rest => s' ← body x s; for_each rest body s'
  end.

(** A list comprehension [[f(x) for x in xs]] whose element expression may
    raise: elements are evaluated left to right and the first exception
    escapes. *)
Fixpoint comprehension {A B : Type} (f : A -> result B) (xs : list A)
    : result (list B) :=
  match xs with
  | [] => Ok []
  | x :: rest => y ← f x; ys ← comprehension f rest; Ok (y :: ys)
  end.

(** ** Python values used by the builders *)

(** Truthiness of a [str] and of an [Optional[str]]. *)
Definition str_truthy (s : string) : bool := bool_decide (s ≠ "").
Definition opt_str_truthy (o : option string) : bool :=
  match o with
  | Some s => str_truthy s
  | None => false
  end.

(** The values held by the open [style] and [legend] dictionaries. *)
Inductive StyleValue : Type :=
  | SStr (s : string)
  | SInt (n : Z).

#[global] Instance StyleValue_eq_dec : EqDecision StyleValue.
Proof. solve_decision. Defined.

Abbreviation Dict := (gmap string StyleValue).

(** [d.get(k, default)] on a dictionary with string keys. *)
Definition dict_get {V : Type} (d : gmap string V) (k : string) (dflt : V) : V :=
  default dflt (d !! k).

(** ** Labelled data: numpy arrays and xarray datasets *)

(** An array is its shape and its elements in row-major order.  The
    builders never compute on the elements, they pass them on. *)
Record ndarray : Type := NdArray {
  shape : list nat;
  flat : list Z
}.

#[global] Instance ndarray_eq_dec : EqDecision ndarray.
Proof. solve_decision. Defined.

(** [np.stack(arrs, axis=-1)]: every array must have the shape of the
    first one; the new axis is the trailing one. *)
Definition np_stack_last (arrs : list ndarray) : result ndarray :=
  match arrs with
  | [] => Raise ValueError
  | a0 :: _ =>
      if forallb (fun a => bool_decide (shape a = shape a0)) arrs then
        Ok {| shape := shape a0 ++ [length arrs];
              flat := flat_map (fun i => map (fun a => nth i (flat a) 0) arrs)
                               (seq 0 (length (flat a0))) |}
      else Raise ValueError
  end.

(** A dataset after [.sel(qubit=...)]: its data variables and its
    coordinates, both looked up by name. *)
Record Slice : Type := {
  data_vars : gmap string ndarray;
  coords : gmap string ndarray
}.

(** [key in ds]: the key names a data variable or a coordinate. *)
Definition ds_contains (ds : Slice) (key : string) : bool :=
  bool_decide (is_Some (data_vars ds !! key))
  || bool_decide (is_Some (coords ds !! key)).

(** [ds[key].values]; a key that names nothing raises [KeyError], and so
    does the key [None]. *)
Definition ds_getitem (ds : Slice) (key : option string) : result ndarray :=
  match key with
  | None => Raise KeyError
  | Some k =>
      match data_vars ds !! k with
      | Some a => Ok a
      | None =>
          match coords ds !! k with
          | Some a => Ok a
          | None => Raise KeyError
          end
      end
  end.

(** [bool(ds)]: a dataset is truthy when it has at least one data
    variable. *)
Definition ds_bool (ds : Slice) : bool :=
  negb (bool_decide (data_vars ds = ∅)).

(** A dataset with a [qubit] dimension, seen through its per-qubit
    selections. *)
Record Dataset : Type := {
  qubit_slices : gmap string Slice
}.

(** [ds.sel(qubit=qubit_id)] *)
Definition ds_sel (ds : Dataset) (qubit_id : string) : result Slice :=
  match qubit_slices ds !! qubit_id with
  | Some s => Ok s
  | None => Raise KeyError
  end.

(** ** Configuration objects *)

Inductive PlotType : Type :=
  | scatter
  | heatmap
  | line.

#[global] Instance PlotType_eq_dec : EqDecision PlotType.
Proof. solve_decision. Defined.

Record TraceConfig : Type := {
  plot_type : PlotType;
  x_source : string;
  y_source : string;
  z_source : option string;
  name : string;
  mode : option string;
  style : Dict;
  hover_template : option string;
  custom_data_sources : list string;
  visible : bool
}.

#[global] Instance TraceConfig_eq_dec : EqDecision TraceConfig.
Proof. solve_decision. Defined.

Record LayoutConfig : Type := {
  title : string;
  x_axis_title : string;
  y_axis_title : string;
  legend : Dict
}.

Record PlotConfig : Type := {
  layout : LayoutConfig;
  traces : list TraceConfig;
  fit_traces : list TraceConfig
}.

(** The part of a qubit object the builders read. *)
Record AnyTransmon : Type := {
  qubit_name : string;
  grid_location : string
}.

(** A name mapping such as [{"qubit": "q1"}], in insertion order. *)
Abbreviation NameDict := (list (string * string)).

(** [list(name_dict.values())[0]] *)
Definition first_value (name_dict : NameDict) : result string :=
  match name_dict with
  | [] => Raise IndexError
  | (_, v) :: _ => Ok v
  end.

(** ** Integer division as Python has it *)

(** [a // b] and [a % b] round towards minus infinity, as [Z.div] and
    [Z.modulo] do, and raise on a zero divisor. *)
Definition py_floordiv (a b : Z) : result Z :=
  if b =? 0 then Raise ZeroDivisionError else Ok (a / b).
Definition py_mod (a b : Z) : result Z :=
  if b =? 0 then Raise ZeroDivisionError else Ok (a mod b).

(** ** The interactive backend *)

(** The two plotting libraries are not part of this repository.  Their
    objects are recorded by the calls the builders make on them, each with
    its arguments.  What the library goes on to do with a call is not in
    the record: plotly refuses a cell outside the subplot grid and a
    keyword it does not know, matplotlib a colour it does not know and x
    and y values of different lengths.  The properties below speak of the
    figures the builders return, and of the calls made to obtain them. *)

(** The keyword arguments shared by every primitive ([trace_props]). *)
Record TraceProps : Type := {
  tp_name : string;
  tp_hovertemplate : option string;
  tp_customdata : option ndarray;
  tp_legendgroup : string;
  tp_showlegend : bool
}.

(** [go.Heatmap(...)] and [go.Scatter(...)], by their arguments. *)
Inductive GoTrace : Type :=
  | Heatmap (x y z : ndarray) (props : TraceProps) (style_kwargs : Dict)
  | Scatter (x y : ndarray) (mode_arg : option string) (line_arg : Dict)
            (props : TraceProps).

Definition trace_props_of (t : GoTrace) : TraceProps :=
  match t with
  | Heatmap _ _ _ p _ => p
  | Scatter _ _ _ _ p => p
  end.

(** What [make_subplots] was asked for. *)
Record SubplotGrid : Type := {
  sg_rows : Z;
  sg_cols : Z;
  sg_subplot_titles : list string;
  sg_horizontal_spacing : string;
  sg_vertical_spacing : string
}.

(** A [go.Figure]: the subplot grid, the primitives with the cell each was
    added to, the axis titles per cell and the figure-wide layout. *)
Record GoFigure : Type := {
  fig_grid : option SubplotGrid;
  fig_data : list (GoTrace * Z * Z);
  fig_xaxis_titles : gmap (Z * Z) string;
  fig_yaxis_titles : gmap (Z * Z) string;
  fig_title_text : option string;
  fig_legend : option Dict;
  fig_height : option Z;
  fig_width : option Z
}.

(** [go.Figure()] *)
Definition go_Figure : GoFigure :=
  {| fig_grid := None; fig_data := []; fig_xaxis_titles := ∅;
     fig_yaxis_titles := ∅; fig_title_text := None; fig_legend := None;
     fig_height := None; fig_width := None |}.

Definition make_subplots (rows cols : Z) (subplot_titles : list string)
    (horizontal_spacing vertical_spacing : string) : GoFigure :=
  {| fig_grid := Some {| sg_rows := rows; sg_cols := cols;
                         sg_subplot_titles := subplot_titles;
                         sg_horizontal_spacing := horizontal_spacing;
                         sg_vertical_spacing := vertical_spacing |};
     fig_data := []; fig_xaxis_titles := ∅; fig_yaxis_titles := ∅;
     fig_title_text := None; fig_legend := None;
     fig_height := None; fig_width := None |}.

Definition add_trace (fig : GoFigure) (t : GoTrace) (row col : Z) : GoFigure :=
  {| fig_grid := fig_grid fig;
     fig_data := fig_data fig ++ [(t, row, col)];
     fig_xaxis_titles := fig_xaxis_titles fig;
     fig_yaxis_titles := fig_yaxis_titles fig;
     fig_title_text := fig_title_text fig; fig_legend := fig_legend fig;
     fig_height := fig_height fig; fig_width := fig_width fig |}.

Definition update_xaxes (fig : GoFigure) (title_text : string) (row col : Z)
    : GoFigure :=
  {| fig_grid := fig_grid fig; fig_data := fig_data fig;
     fig_xaxis_titles := <[(row, col) := title_text]> (fig_xaxis_titles fig);
     fig_yaxis_titles := fig_yaxis_titles fig;
     fig_title_text := fig_title_text fig; fig_legend := fig_legend fig;
     fig_height := fig_height fig; fig_width := fig_width fig |}.

Definition update_yaxes (fig : GoFigure) (title_text : string) (row col : Z)
    : GoFigure :=
  {| fig_grid := fig_grid fig; fig_data := fig_data fig;
     fig_xaxis_titles := fig_xaxis_titles fig;
     fig_yaxis_titles := <[(row, col) := title_text]> (fig_yaxis_titles fig);
     fig_title_text := fig_title_text fig; fig_legend := fig_legend fig;
     fig_height := fig_height fig; fig_width := fig_width fig |}.

Definition update_layout (fig : GoFigure) (title_text : string)
    (legend_arg : Dict) (height width : Z) : GoFigure :=
  {| fig_grid := fig_grid fig; fig_data := fig_data fig;
     fig_xaxis_titles := fig_xaxis_titles fig;
     fig_yaxis_titles := fig_yaxis_titles fig;
     fig_title_text := Some title_text; fig_legend := Some legend_arg;
     fig_height := Some height; fig_width := Some width |}.

(** The grid object of the interactive backend, as far as the builder
    reads it. *)
Record PlotlyGrid : Type := {
  n_rows : Z;
  n_cols : Z;
  name_dicts : list NameDict
}.

(** Keyword names already bound in the [go.Heatmap] call; spreading a
    [style] that repeats one of them is a [TypeError]. *)
Definition heatmap_bound_kwargs : list string :=
  ["x"; "y"; "z"; "name"; "hovertemplate"; "customdata"; "legendgroup";
   "showlegend"].

(** Lines 81-125: one pass of the trace loop up to the primitive it
    builds; [None] is [continue]. *)
Definition build_trace (i : Z) (config : PlotConfig) (ds_qubit_raw : Slice)
    (ds_qubit_fit : option Slice) (trace_config : TraceConfig)
    : result (option GoTrace) :=
  if negb (visible trace_config) then Ok None else
  let is_fit_trace := bool_decide (trace_config ∈ fit_traces config) in
  let ds_source := if is_fit_trace then ds_qubit_fit else Some ds_qubit_raw in
  match ds_source with
  | None => Ok None
  | Some ds_source =>
      let required_sources :=
        [x_source trace_config; y_source trace_config]
        ++ (if opt_str_truthy (z_source trace_config)
            then [default "" (z_source trace_config)] else []) in
      if negb (forallb (ds_contains ds_source) required_sources) then Ok None
      else
        custom_data ←
          (match custom_data_sources trace_config with
           | [] => Ok None
           | srcs =>
               arrs ← comprehension (fun src => ds_getitem ds_source (Some src)) srcs;
               stacked ← np_stack_last arrs;
               Ok (Some stacked)
           end);
        let trace_props :=
          {| tp_name := name trace_config;
             tp_hovertemplate := hover_template trace_config;
             tp_customdata := custom_data;
             tp_legendgroup := name trace_config;
             tp_showlegend := (i =? 0) |} in
        match plot_type trace_config with
        | heatmap =>
            x ← ds_getitem ds_source (Some (x_source trace_config));
            y ← ds_getitem ds_source (Some (y_source trace_config));
            z ← ds_getitem ds_source (z_source trace_config);
            if forallb (fun k => bool_decide (style trace_config !! k = None))
                       heatmap_bound_kwargs
            then Ok (Some (Heatmap x y z trace_props (style trace_config)))
            else Raise TypeError
        | _ =>
            x ← ds_getitem ds_source (Some (x_source trace_config));
            y ← ds_getitem ds_source (Some (y_source trace_config));
            Ok (Some (Scatter x y (mode trace_config) (style trace_config)
                              trace_props))
        end
  end.

(** The body of the trace loop: build the primitive, then
    [fig.add_trace(trace, row=row, col=col)]. *)
Definition plotly_trace_body (i row col : Z) (config : PlotConfig)
    (ds_qubit_raw : Slice) (ds_qubit_fit : option Slice)
    (trace_config : TraceConfig) (fig : GoFigure) : result GoFigure :=
  t ← build_trace i config ds_qubit_raw ds_qubit_fit trace_config;
  match t with
  | None => Ok fig
  | Some trace => Ok (add_trace fig trace row col)
  end.

(** Lines 73-129: the body of the loop over grid cells. *)
Definition plotly_cell_body (grid : PlotlyGrid) (config : PlotConfig)
    (ds_raw : Dataset) (ds_fit : option Dataset) (cell : Z * NameDict)
    (fig : GoFigure) : result GoFigure :=
  let '(i, name_dict) := cell in
  q ← py_floordiv i (n_cols grid);
  let row := q + 1 in
  r ← py_mod i (n_cols grid);
  let col := r + 1 in
  qubit_id ← first_value name_dict;
  ds_qubit_raw ← ds_sel ds_raw qubit_id;
  ds_qubit_fit ←
    (match ds_fit with
     | Some ds => s ← ds_sel ds qubit_id; Ok (Some s)
     | None => Ok None
     end);
  fig ← for_each (traces config ++ fit_traces config)
         (plotly_trace_body i row col config ds_qubit_raw ds_qubit_fit) fig;
  let fig := update_xaxes fig (x_axis_title (layout config)) row col in
  let fig := update_yaxes fig (y_axis_title (layout config)) row col in
  Ok fig.

(** ** The static backend *)

(** One [ax.plot(x, y, ...)] call, by its arguments. *)
Record Line2D : Type := {
  line_x : ndarray;
  line_y : ndarray;
  line_marker : option string;
  line_linestyle : string;
  line_label : string;
  line_color : option StyleValue
}.

(** The state of one axes object. *)
Record Axes : Type := {
  ax_lines : list Line2D;
  ax_xlabel : option string;
  ax_ylabel : option string;
  ax_title : option string
}.

Definition blank_axes : Axes :=
  {| ax_lines := []; ax_xlabel := None; ax_ylabel := None; ax_title := None |}.

(** A matplotlib figure: the axes objects live in a store keyed by their
    handle, so that two handles to one axes see the same lines. *)
Record MplFigure : Type := {
  mpl_suptitle : option string;
  mpl_axes : gmap nat Axes;
  mpl_legend : bool;
  mpl_tight_layout_rect : option (list string)
}.

(** [fig, _ = plt.subplots()]: one blank axes. *)
Definition plt_subplots : MplFigure :=
  {| mpl_suptitle := None; mpl_axes := {[ 0%nat := blank_axes ]};
     mpl_legend := false; mpl_tight_layout_rect := None |}.

Definition with_axes (fig : MplFigure) (ax : nat) (f : Axes -> Axes)
    : MplFigure :=
  {| mpl_suptitle := mpl_suptitle fig;
     mpl_axes := <[ax := f (default blank_axes (mpl_axes fig !! ax))]>
                   (mpl_axes fig);
     mpl_legend := mpl_legend fig;
     mpl_tight_layout_rect := mpl_tight_layout_rect fig |}.

(** [ax.plot(...)] *)
Definition ax_plot (fig : MplFigure) (ax : nat) (l : Line2D) : MplFigure :=
  with_axes fig ax (fun a =>
    {| ax_lines := ax_lines a ++ [l]; ax_xlabel := ax_xlabel a;
       ax_ylabel := ax_ylabel a; ax_title := ax_title a |}).

Definition ax_set_xlabel (fig : MplFigure) (ax : nat) (s : string) : MplFigure :=
  with_axes fig ax (fun a =>
    {| ax_lines := ax_lines a; ax_xlabel := Some s;
       ax_ylabel := ax_ylabel a; ax_title := ax_title a |}).

Definition ax_set_ylabel (fig : MplFigure) (ax : nat) (s : string) : MplFigure :=
  with_axes fig ax (fun a =>
    {| ax_lines := ax_lines a; ax_xlabel := ax_xlabel a;
       ax_ylabel := Some s; ax_title := ax_title a |}).

Definition ax_set_title (fig : MplFigure) (ax : nat) (s : string) : MplFigure :=
  with_axes fig ax (fun a =>
    {| ax_lines := ax_lines a; ax_xlabel := ax_xlabel a;
       ax_ylabel := ax_ylabel a; ax_title := Some s |}).

Definition fig_suptitle (fig : MplFigure) (s : string) : MplFigure :=
  {| mpl_suptitle := Some s; mpl_axes := mpl_axes fig;
     mpl_legend := mpl_legend fig;
     mpl_tight_layout_rect := mpl_tight_layout_rect fig |}.

Definition fig_legend_call (fig : MplFigure) : MplFigure :=
  {| mpl_suptitle := mpl_suptitle fig; mpl_axes := mpl_axes fig;
     mpl_legend := true;
     mpl_tight_layout_rect := mpl_tight_layout_rect fig |}.

Definition fig_tight_layout (fig : MplFigure) (rect : list string) : MplFigure :=
  {| mpl_suptitle := mpl_suptitle fig; mpl_axes := mpl_axes fig;
     mpl_legend := mpl_legend fig; mpl_tight_layout_rect := Some rect |}.

(** The grid object of the static backend: the builder reads its figure;
    the panels (axes handle and name mapping) are for the iteration
    helper. *)
Record MplGrid : Type := {
  grid_fig : MplFigure;
  grid_panels : list (nat * NameDict)
}.

(** Line 177, the translation table from plotly dash styles. *)
Definition linestyle_map : gmap string string :=
  <["solid" := "-"]> (<["dot" := ":"]> (<["dash" := "--"]>
  (<["longdash" := "-."]> (<["dashdot" := "-."]> ∅)))).

(** [linestyle_map.get(trace_config.style.get("dash"), "--")]: the key is
    whatever the style holds under ["dash"], or [None]. *)
Definition linestyle_of (st : Dict) : string :=
  match st !! "dash" with
  | Some (SStr d) => dict_get linestyle_map d "--"
  | Some (SInt _) => "--"
  | None => "--"
  end.

(** [label=trace_config.name if i == 0 else ""] *)
Definition label_of (i : nat) (trace_config : TraceConfig) : string :=
  if (i =? 0)%nat then name trace_config else "".

(** The series of lines 165-170: marker ['.'], linestyle ['-'], no
    colour given. *)
Definition raw_line (i : nat) (x y : ndarray) (trace_config : TraceConfig)
    : Line2D :=
  {| line_x := x; line_y := y; line_marker := Some ".";
     line_linestyle := "-"; line_label := label_of i trace_config;
     line_color := None |}.

(** The series of lines 178-186: the translated linestyle, and
    [color=trace_config.style.get("color", "red")]. *)
Definition fit_line (i : nat) (x y : ndarray) (trace_config : TraceConfig)
    : Line2D :=
  let linestyle := linestyle_of (style trace_config) in
  {| line_x := x; line_y := y; line_marker := None;
     line_linestyle := linestyle;
     line_label := label_of i trace_config;
     line_color := Some (dict_get (style trace_config) "color" (SStr "red")) |}.

(** Lines 164-170: the body of the raw-trace loop. *)
Definition mpl_raw_trace_body (i ax : nat) (ds_qubit_raw : Slice)
    (trace_config : TraceConfig) (fig : MplFigure) : result MplFigure :=
  if visible trace_config
     && forallb (ds_contains ds_qubit_raw)
                [x_source trace_config; y_source trace_config]
  then
    x ← ds_getitem ds_qubit_raw (Some (x_source trace_config));
    y ← ds_getitem ds_qubit_raw (Some (y_source trace_config));
    Ok (ax_plot fig ax (raw_line i x y trace_config))
  else Ok fig.

(** Lines 175-186: the body of the fit-trace loop. *)
Definition mpl_fit_trace_body (i ax : nat) (ds_qubit_fit : Slice)
    (trace_config : TraceConfig) (fig : MplFigure) : result MplFigure :=
  if visible trace_config
     && forallb (ds_contains ds_qubit_fit)
                [x_source trace_config; y_source trace_config]
  then
    x ← ds_getitem ds_qubit_fit (Some (x_source trace_config));
    y ← ds_getitem ds_qubit_fit (Some (y_source trace_config));
    Ok (ax_plot fig ax (fit_line i x y trace_config))
  else Ok fig.

(** Lines 158-190: the body of the loop over [enumerate(grid_iter(grid))];
    [if ds_qubit_fit:] asks that the slice is there and truthy. *)
Definition mpl_cell_body (config : PlotConfig) (ds_raw : Dataset)
    (ds_fit : option Dataset) (cell : nat * (nat * NameDict))
    (fig : MplFigure) : result MplFigure :=
  let '(i, (ax, name_dict)) := cell in
  qubit_id ← first_value name_dict;
  ds_qubit_raw ← ds_sel ds_raw qubit_id;
  ds_qubit_fit ←
    (match ds_fit with
     | Some ds => s ← ds_sel ds qubit_id; Ok (Some s)
     | None => Ok None
     end);
  fig ← for_each (traces config) (mpl_raw_trace_body i ax ds_qubit_raw) fig;
  fig ←
    (match ds_qubit_fit with
     | Some s =>
         if ds_bool s
         then for_each (fit_traces config) (mpl_fit_trace_body i ax s) fig
         else Ok fig
     | None => Ok fig
     end);
  let fig := ax_set_xlabel fig ax (x_axis_title (layout config)) in
  let fig := ax_set_ylabel fig ax (y_axis_title (layout config)) in
  let fig := ax_set_title fig ax ("Qubit " +:+ qubit_id) in
  Ok fig.

(** [enumerate(xs)] *)
Definition enumerate {A : Type} (xs : list A) : list (nat * A) :=
  combine (seq 0 (length xs)) xs.

Section Builders.

(** The grid layout providers live in [qualibration_libs.plotting.grids];
    the builders only construct them and iterate over them. *)
Variable PlotlyQubitGrid : Dataset -> list string -> result PlotlyGrid.
Variable plotly_grid_iter : PlotlyGrid -> list (Z * NameDict).

Definition create_plotly_figure (ds_raw : Dataset) (qubits : list AnyTransmon)
    (plot_configs : list PlotConfig) (ds_fit : option Dataset)
    : result GoFigure :=
  match plot_configs with
  | [] => Ok go_Figure
  | config :: _ =>
      grid ← PlotlyQubitGrid ds_raw (map grid_location qubits);
      subplot_titles ←
        comprehension (fun nd => v ← first_value nd; Ok ("Qubit " +:+ v))
                      (name_dicts grid);
      let fig := make_subplots (n_rows grid) (n_cols grid) subplot_titles
                               "0.1" "0.2" in
      fig ← for_each (plotly_grid_iter grid)
             (plotly_cell_body grid config ds_raw ds_fit) fig;
      Ok (update_layout fig (title (layout config)) (legend (layout config))
                        (350 * n_rows grid)
                        (Z.max 800 (350 * n_cols grid)))
  end.

Variable QubitGrid : Dataset -> list string -> result MplGrid.
Variable grid_iter : MplGrid -> list (nat * NameDict).

Definition create_matplotlib_figure (ds_raw : Dataset)
    (qubits : list AnyTransmon) (plot_configs : list PlotConfig)
    (ds_fit : option Dataset) : result MplFigure :=
  match plot_configs with
  | [] => Ok plt_subplots
  | config :: _ =>
      grid ← QubitGrid ds_raw (map grid_location qubits);
      let fig := fig_suptitle (grid_fig grid) (title (layout config)) in
      fig ← for_each (enumerate (grid_iter grid))
             (mpl_cell_body config ds_raw ds_fit) fig;
      let fig :=
        if existsb (fun t => str_truthy (name t))
                   (traces config ++ fit_traces config)
        then fig_legend_call fig else fig in
      Ok (fig_tight_layout fig ["0"; "0.03"; "1"; "0.95"])
  end.

End Builders.

(** ** A small chip used to run the builders *)

Definition arr1 (l : list Z) : ndarray := NdArray [length l] l.

(** Raw data: [x] and [y] per qubit. *)
Definition ex_raw_slice : Slice :=
  {| data_vars := <["x" := arr1 [1; 2]]> (<["y" := arr1 [3; 4]]> ∅);
     coords := ∅ |}.

(** Fit data: the same field names, other values. *)
Definition ex_fit_slice : Slice :=
  {| data_vars := <["x" := arr1 [10; 20]]> (<["y" := arr1 [30; 40]]> ∅);
     coords := ∅ |}.

(** A fit slice that has coordinates and no data variable. *)
Definition ex_coords_only_slice : Slice :=
  {| data_vars := ∅;
     coords := <["x" := arr1 [10; 20]]> (<["y" := arr1 [30; 40]]> ∅) |}.

Definition ex_qubit_ids : list string := ["q0"; "q1"; "q2"; "q3"; "q4"; "q5"].

Definition ex_dataset (s : Slice) : Dataset :=
  {| qubit_slices := list_to_map (map (fun q => (q, s)) ex_qubit_ids) |}.

Definition ex_ds_raw : Dataset := ex_dataset ex_raw_slice.
Definition ex_ds_fit : Dataset := ex_dataset ex_fit_slice.
Definition ex_ds_fit_coords_only : Dataset := ex_dataset ex_coords_only_slice.

Definition ex_qubits : list AnyTransmon :=
  [ {| qubit_name := "q0"; grid_location := "0,1" |};
    {| qubit_name := "q1"; grid_location := "1,1" |};
    {| qubit_name := "q2"; grid_location := "2,1" |};
    {| qubit_name := "q3"; grid_location := "0,0" |};
    {| qubit_name := "q4"; grid_location := "1,0" |};
    {| qubit_name := "q5"; grid_location := "2,0" |} ].

(** A layout provider for this chip: two rows of three panels, one name
    mapping per panel in row-major order, iterated with its index. *)
Definition ex_plotly_grid : PlotlyGrid :=
  {| n_rows := 2; n_cols := 3;
     name_dicts := map (fun q => [("qubit", q)]) ex_qubit_ids |}.

Definition ex_PlotlyQubitGrid (ds : Dataset) (locations : list string)
    : result PlotlyGrid :=
  Ok ex_plotly_grid.

Definition ex_plotly_grid_iter (grid : PlotlyGrid) : list (Z * NameDict) :=
  combine (map Z.of_nat (seq 0 (length (name_dicts grid)))) (name_dicts grid).

Definition ex_mpl_grid : MplGrid :=
  {| grid_fig :=
       {| mpl_suptitle := None;
          mpl_axes := list_to_map (map (fun h => (h, blank_axes)) (seq 0 6));
          mpl_legend := false; mpl_tight_layout_rect := None |};
     grid_panels := combine (seq 0 6)
                            (map (fun q => [("qubit", q)]) ex_qubit_ids) |}.

Definition ex_QubitGrid (ds : Dataset) (locations : list string)
    : result MplGrid :=
  Ok ex_mpl_grid.

Definition ex_grid_iter (grid : MplGrid) : list (nat * NameDict) :=
  grid_panels grid.

Definition ex_layout : LayoutConfig :=
  {| title := "Resonator spectroscopy"; x_axis_title := "Frequency";
     y_axis_title := "Amplitude"; legend := ∅ |}.

(** A plain scatter trace over [x] and [y]. *)
Definition ex_trace : TraceConfig :=
  {| plot_type := scatter; x_source := "x"; y_source := "y";
     z_source := None; name := "T"; mode := Some "lines+markers";
     style := ∅; hover_template := None; custom_data_sources := [];
     visible := true |}.

(** The same trace with a fit style. *)
Definition ex_fit_trace : TraceConfig :=
  {| plot_type := line; x_source := "x"; y_source := "y";
     z_source := None; name := "Fit"; mode := Some "lines";
     style := <["dash" := SStr "dash"]> (<["color" := SStr "blue"]> ∅);
     hover_template := None; custom_data_sources := []; visible := true |}.

(** A scatter trace that also names a [z_source] the data does not have. *)
Definition ex_trace_with_z : TraceConfig :=
  {| plot_type := scatter; x_source := "x"; y_source := "y";
     z_source := Some "z"; name := "T"; mode := Some "lines+markers";
     style := ∅; hover_template := None; custom_data_sources := [];
     visible := true |}.

(** A scatter trace whose tooltip asks for a field the data does not have. *)
Definition ex_trace_with_custom : TraceConfig :=
  {| plot_type := scatter; x_source := "x"; y_source := "y";
     z_source := None; name := "T"; mode := Some "lines+markers";
     style := ∅; hover_template := Some "%{customdata[0]}";
     custom_data_sources := ["detuning"]; visible := true |}.

Definition ex_config (raw fit : list TraceConfig) : PlotConfig :=
  {| layout := ex_layout; traces := raw; fit_traces := fit |}.

(** A raw trace and a fit trace. *)
Definition ex_config_raw_fit : PlotConfig := ex_config [ex_trace] [ex_fit_trace].

(** The fit list repeats the raw trace field for field. *)
Definition ex_config_same : PlotConfig := ex_config [ex_trace] [ex_trace].

(** The two builders on this chip, with raw and fit data. *)
Definition ex_plotly_figure : result GoFigure :=
  create_plotly_figure ex_PlotlyQubitGrid ex_plotly_grid_iter
    ex_ds_raw ex_qubits [ex_config_raw_fit] (Some ex_ds_fit).

Definition ex_matplotlib_figure : result MplFigure :=
  create_matplotlib_figure ex_QubitGrid ex_grid_iter
    ex_ds_raw ex_qubits [ex_config_raw_fit] (Some ex_ds_fit).

Definition ex_go_fig : GoFigure :=
  Eval vm_compute in
    match ex_plotly_figure with Ok f => f | Raise _ => go_Figure end.

Definition ex_mpl_fig : MplFigure :=
  Eval vm_compute in
    match ex_matplotlib_figure with Ok f => f | Raise _ => plt_subplots end.

(** The series drawn on the first axes for the raw and for the fit trace. *)
Definition ex_raw_line0 : Line2D :=
  raw_line 0 (arr1 [1; 2]) (arr1 [3; 4]) ex_trace.
Definition ex_fit_line0 : Line2D :=
  fit_line 0 (arr1 [10; 20]) (arr1 [30; 40]) ex_fit_trace.
Definition ex_axes0 : Axes :=
  {| ax_lines := [ex_raw_line0; ex_fit_line0];
     ax_xlabel := Some "Frequency"; ax_ylabel := Some "Amplitude";
     ax_title := Some "Qubit q0" |}.

(** The primitive of the first cell for the raw trace. *)
Definition ex_scatter0 : GoTrace :=
  Scatter (arr1 [1; 2]) (arr1 [3; 4]) (Some "lines+markers") ∅
    {| tp_name := "T"; tp_hovertemplate := None; tp_customdata := None;
       tp_legendgroup := "T"; tp_showlegend := true |}.

(** A heatmap trace over fields the raw slice has, whose style repeats the
    keyword [name]. *)
Definition ex_heatmap_named_style : TraceConfig :=
  {| plot_type := heatmap; x_source := "x"; y_source := "y";
     z_source := Some "y"; name := "H"; mode := None;
     style := <["name" := SStr "other"]> ∅;
     hover_template := None; custom_data_sources := []; visible := true |}.


(** A fit trace asking for a dotted green line. *)
Definition ex_fit_trace_dot : TraceConfig :=
  {| plot_type := line; x_source := "x"; y_source := "y";
     z_source := None; name := "Fit"; mode := Some "lines";
     style := <["dash" := SStr "dot"]> (<["color" := SStr "green"]> ∅);
     hover_template := None; custom_data_sources := []; visible := true |}.

Definition ex_config_dot : PlotConfig := ex_config [ex_trace] [ex_fit_trace_dot].

Definition ex_mpl_fig_dot : MplFigure :=
  Eval vm_compute in
    match create_matplotlib_figure ex_QubitGrid ex_grid_iter ex_ds_raw
            ex_qubits [ex_config_dot] (Some ex_ds_fit) with
    | Ok f => f
    | Raise _ => plt_subplots
    end.

(** The series of the dotted fit trace on the fourth axes. *)
Definition ex_fit_line_dot3 : Line2D :=
  fit_line 3 (arr1 [10; 20]) (arr1 [30; 40]) ex_fit_trace_dot.

(** The series of the raw trace on the fourth axes. *)
Definition ex_raw_line3 : Line2D :=
  raw_line 3 (arr1 [1; 2]) (arr1 [3; 4]) ex_trace.

(** The primitive of a later cell for the raw trace: no legend entry. *)
Definition ex_scatter4 : GoTrace :=
  Scatter (arr1 [1; 2]) (arr1 [3; 4]) (Some "lines+markers") ∅
    {| tp_name := "T"; tp_hovertemplate := None; tp_customdata := None;
       tp_legendgroup := "T"; tp_showlegend := false |}.

(** A grid whose figure has a seventh axes, titled by the provider, that
    is no panel of a qubit and is not yielded. *)
Definition ex_spare_axes : Axes :=
  {| ax_lines := []; ax_xlabel := None; ax_ylabel := None;
     ax_title := Some "Chip layout" |}.

Definition ex_mpl_grid_spare : MplGrid :=
  {| grid_fig :=
       {| mpl_suptitle := None;
          mpl_axes := <[6%nat := ex_spare_axes]>
                        (list_to_map (map (fun h => (h, blank_axes))
                                          (seq 0 6)));
          mpl_legend := false; mpl_tight_layout_rect := None |};
     grid_panels := combine (seq 0 6)
                            (map (fun q => [("qubit", q)]) ex_qubit_ids) |}.

Definition ex_QubitGrid_spare (ds : Dataset) (locations : list string)
    : result MplGrid :=
  Ok ex_mpl_grid_spare.

Definition ex_mpl_fig_spare : MplFigure :=
  Eval vm_compute in
    match create_matplotlib_figure ex_QubitGrid_spare ex_grid_iter ex_ds_raw
            ex_qubits [ex_config_raw_fit] (Some ex_ds_fit) with
    | Ok f => f
    | Raise _ => plt_subplots
    end.



(** The x values of a primitive. *)
Definition trace_x (t : GoTrace) : ndarray :=
  match t with
  | Heatmap x _ _ _ _ => x
  | Scatter x _ _ _ _ => x
  end.

(** All the lines of a static figure, over all its axes. *)
Definition all_lines (fig : MplFigure) : list Line2D :=
  flat_map (fun p => ax_lines (snd p)) (map_to_list (mpl_axes fig)).

(** ** Reading the finished figures *)

(** The configuration [config] with its fit list emptied. *)
Definition raw_only (config : PlotConfig) : PlotConfig :=
  {| layout := layout config; traces := traces config; fit_traces := [] |}.

(** The dash table as the specification words it: the five named styles,
    and ['--'] for a missing or any other value. *)
Definition spec_linestyle (dash : option StyleValue) : string :=
  match dash with
  | Some (SStr d) =>
      if decide (d = "solid") then "-"
      else if decide (d = "dot") then ":"
      else if decide (d = "dash") then "--"
      else if decide (d = "longdash") then "-."
      else if decide (d = "dashdot") then "-."
      else "--"
  | _ => "--"
  end.

(** ** What the loops amount to *)

(** [ds_fit.sel(qubit=qubit_id) if ds_fit is not None else None] *)
Definition sel_fit (ds_fit : option Dataset) (qubit_id : string)
    : result (option Slice) :=
  match ds_fit with
  | Some ds => s ← ds_sel ds qubit_id; Ok (Some s)
  | None => Ok None
  end.

(** The y and z values of a primitive. *)
Definition trace_y (t : GoTrace) : ndarray :=
  match t with
  | Heatmap _ y _ _ _ => y
  | Scatter _ y _ _ _ => y
  end.

Definition trace_z (t : GoTrace) : option ndarray :=
  match t with
  | Heatmap _ _ z _ _ => Some z
  | Scatter _ _ _ _ _ => None
  end.

Definition is_heatmap (t : GoTrace) : bool :=
  match t with
  | Heatmap _ _ _ _ _ => true
  | Scatter _ _ _ _ _ => false
  end.

(** The primitives one pass of the trace loop adds for the traces [tcs],
    in order: one for each trace that [build_trace] does not skip. *)
Definition trace_entries (i row col : Z) (config : PlotConfig) (raw : Slice)
    (fit : option Slice) (tcs : list TraceConfig) : list (GoTrace * Z * Z) :=
  flat_map (fun tc =>
              match build_trace i config raw fit tc with
              | Ok (Some t) => [(t, row, col)]
              | _ => []
              end) tcs.

(** The primitives of one grid cell: raw list first, then fit list. *)
Definition cell_entries (grid : PlotlyGrid) (config : PlotConfig)
    (ds_raw : Dataset) (ds_fit : option Dataset) (cell : Z * NameDict)
    : list (GoTrace * Z * Z) :=
  match first_value cell.2 with
  | Ok q =>
      match ds_sel ds_raw q, sel_fit ds_fit q with
      | Ok raw, Ok fit =>
          trace_entries cell.1 (cell.1 / n_cols grid + 1)
            (cell.1 mod n_cols grid + 1) config raw fit
            (traces config ++ fit_traces config)
      | _, _ => []
      end
  | Raise _ => []
  end.

(** The state of the axes behind a handle. *)
Definition axes_at (fig : MplFigure) (ax : nat) : Axes :=
  default blank_axes (mpl_axes fig !! ax).

(** The test of lines 164 and 175 on a trace and a slice. *)
Definition drawable (s : Slice) (tc : TraceConfig) : bool :=
  visible tc && forallb (ds_contains s) [x_source tc; y_source tc].

(** The series the raw loop draws: one for each visible trace whose x and
    y sources are in the raw slice, in order. *)
Definition drawn_raw_lines (i : nat) (raw : Slice) (tcs : list TraceConfig)
    : list Line2D :=
  flat_map (fun tc =>
              if drawable raw tc
              then
                match ds_getitem raw (Some (x_source tc)),
                      ds_getitem raw (Some (y_source tc)) with
                | Ok x, Ok y => [raw_line i x y tc]
                | _, _ => []
                end
              else []) tcs.

(** The series the fit loop draws, when the fit slice is there and
    truthy. *)
Definition drawn_fit_lines (i : nat) (fit : option Slice)
    (tcs : list TraceConfig) : list Line2D :=
  match fit with
  | Some s =>
      if ds_bool s then
        flat_map (fun tc =>
                    if drawable s tc
                    then
                      match ds_getitem s (Some (x_source tc)),
                            ds_getitem s (Some (y_source tc)) with
                      | Ok x, Ok y => [fit_line i x y tc]
                      | _, _ => []
                      end
                    else []) tcs
      else []
  | None => []
  end.

(** The axes of a grid cell after the builder has gone through it. *)
Definition drawn_axes (before : Axes) (i : nat) (q : string)
    (config : PlotConfig) (raw : Slice) (fit : option Slice) : Axes :=
  {| ax_lines := ax_lines before
                 ++ drawn_raw_lines i raw (traces config)
                 ++ drawn_fit_lines i fit (fit_traces config);
     ax_xlabel := Some (x_axis_title (layout config));
     ax_ylabel := Some (y_axis_title (layout config));
     ax_title := Some ("Qubit " +:+ q) |}.

(** A qubit can be selected in the raw dataset, and in the fit dataset
    when there is one. *)
Definition selectable (ds_raw : Dataset) (ds_fit : option Dataset)
    (nd : NameDict) : Prop :=
  exists q, first_value nd = Ok q
            /\ is_Some (qubit_slices ds_raw !! q)
            /\ forall ds, ds_fit = Some ds -> is_Some (qubit_slices ds !! q).

(** The figure [fig] with its primitives replaced by [d]. *)
Definition with_data (fig : GoFigure) (d : list (GoTrace * Z * Z))
    : GoFigure :=
  {| fig_grid := fig_grid fig; fig_data := d;
     fig_xaxis_titles := fig_xaxis_titles fig;
     fig_yaxis_titles := fig_yaxis_titles fig;
     fig_title_text := fig_title_text fig; fig_legend := fig_legend fig;
     fig_height := fig_height fig; fig_width := fig_width fig |}.

(** Lines 73-74: the row and the column of the cell of index [i]. *)
Definition cell_position (grid : PlotlyGrid) (i : Z) : Z * Z :=
  (i / n_cols grid + 1, i mod n_cols grid + 1).

(** [m] with the value [v] put under each key of [ks]. *)
Definition insert_all {K : Type} `{Countable K} {V : Type} (v : V)
    (ks : list K) (m : gmap K V) : gmap K V :=
  foldl (fun acc k => <[k := v]> acc) m ks.

(** Several [ax.plot] calls in a row on one axes. *)
Definition plot_all (fig : MplFigure) (ax : nat) (ls : list Line2D)
    : MplFigure :=
  foldl (fun f l => ax_plot f ax l) fig ls.

(** The axes [a] with the series [ls] added. *)
Definition add_lines (a : Axes) (ls : list Line2D) : Axes :=
  {| ax_lines := ax_lines a ++ ls; ax_xlabel := ax_xlabel a;
     ax_ylabel := ax_ylabel a; ax_title := ax_title a |}.

(** The trace [tc] with everything the static builder does not read set
    to a fixed value. *)
Definition static_part (tc : TraceConfig) : TraceConfig :=
  {| plot_type := scatter; x_source := x_source tc; y_source := y_source tc;
     z_source := None; name := name tc; mode := None; style := style tc;
     hover_template := None; custom_data_sources := [];
     visible := visible tc |}.

Definition static_config (config : PlotConfig) : PlotConfig :=
  {| layout := layout config; traces := map static_part (traces config);
     fit_traces := map static_part (fit_traces config) |}.

(** ** Traces drawn, panel by panel *)

(** Lines 91-93: the sources the presence check asks for. *)
Definition required_sources (tc : TraceConfig) : list string :=
  [x_source tc; y_source tc]
  ++ (if opt_str_truthy (z_source tc) then [default "" (z_source tc)] else []).

(** The slices of the dataset have the same fields and the same truth
    value, as the selections of one xarray dataset along its qubit
    dimension do. *)
Definition same_fields (ds : Dataset) : Prop :=
  forall q q' s s',
    qubit_slices ds !! q = Some s -> qubit_slices ds !! q' = Some s' ->
    ds_bool s = ds_bool s' /\ forall k, ds_contains s k = ds_contains s' k.

(** In the cell [c], with the slices of its qubit, the trace loop of the
    interactive builder builds the primitive [t] for the trace [tc]. *)
Definition primitive_of_trace (ds_raw : Dataset) (ds_fit : option Dataset)
    (config : PlotConfig) (c : Z * NameDict) (tc : TraceConfig)
    (t : GoTrace) : Prop :=
  exists q raw fit,
    first_value c.2 = Ok q /\ ds_sel ds_raw q = Ok raw
    /\ sel_fit ds_fit q = Ok fit
    /\ build_trace c.1 config raw fit tc = Ok (Some t).

(** On the panel [nd] of enumeration index [i], the raw loop of the static
    builder draws the series [l] for the trace [tc]: the trace passes the
    test of line 164 on the raw slice of the panel's qubit, and [l] is the
    [ax.plot] call of lines 165-170 on the trace's own x and y values. *)
Definition series_of_raw_trace (ds_raw : Dataset) (i : nat) (nd : NameDict)
    (tc : TraceConfig) (l : Line2D) : Prop :=
  exists q raw x y,
    first_value nd = Ok q /\ ds_sel ds_raw q = Ok raw
    /\ drawable raw tc = true
    /\ ds_getitem raw (Some (x_source tc)) = Ok x
    /\ ds_getitem raw (Some (y_source tc)) = Ok y
    /\ l = raw_line i x y tc.

(** The same for the fit loop: there is a fit slice for the panel's qubit,
    it is truthy, the trace passes the test of line 175 on it, and [l] is
    the [ax.plot] call of lines 180-186 on the trace's own values. *)
Definition series_of_fit_trace (ds_fit : option Dataset) (i : nat)
    (nd : NameDict) (tc : TraceConfig) (l : Line2D) : Prop :=
  exists q s x y,
    first_value nd = Ok q /\ sel_fit ds_fit q = Ok (Some s)
    /\ ds_bool s = true
    /\ drawable s tc = true
    /\ ds_getitem s (Some (x_source tc)) = Ok x
    /\ ds_getitem s (Some (y_source tc)) = Ok y
    /\ l = fit_line i x y tc.

(** The series [l] is drawn for the trace [tc], of the raw or of the fit
    list. *)
Definition series_of_trace (ds_raw : Dataset) (ds_fit : option Dataset)
    (config : PlotConfig) (i : nat) (nd : NameDict) (tc : TraceConfig)
    (l : Line2D) : Prop :=
  (tc ∈ traces config /\ series_of_raw_trace ds_raw i nd tc l)
  \/ (tc ∈ fit_traces config /\ series_of_fit_trace ds_fit i nd tc l).

(** [label=trace_config.name if i == 0 else ""], read on the series. *)
Definition labelled_on_first_axes (i : nat) (tc : TraceConfig) (l : Line2D)
    : Prop :=
  (i = 0%nat -> line_label l = name tc)
  /\ (i <> 0%nat -> line_label l = "")
  /\ (name tc <> "" -> (line_label l = name tc <-> i = 0%nat)).

(** The linestyle and the colour of the series [l] are those the style of
    the trace [tc] asks for: the five entries of the dash table, ['--'] for
    no entry or another value, and the colour, red when there is none. *)
Definition styled_as_fit_trace (tc : TraceConfig) (l : Line2D) : Prop :=
  line_linestyle l = spec_linestyle (style tc !! "dash")
  /\ (style tc !! "dash" = Some (SStr "solid") -> line_linestyle l = "-")
  /\ (style tc !! "dash" = Some (SStr "dot") -> line_linestyle l = ":")
  /\ (style tc !! "dash" = Some (SStr "dash") -> line_linestyle l = "--")
  /\ (style tc !! "dash" = Some (SStr "longdash") -> line_linestyle l = "-.")
  /\ (style tc !! "dash" = Some (SStr "dashdot") -> line_linestyle l = "-.")
  /\ (style tc !! "dash" = None -> line_linestyle l = "--")
  /\ (forall v, style tc !! "dash" = Some v ->
        v ∉ [SStr "solid"; SStr "dot"; SStr "dash"; SStr "longdash";
             SStr "dashdot"] ->
        line_linestyle l = "--")
  /\ (forall c, style tc !! "color" = Some c -> line_color l = Some c)
  /\ (style tc !! "color" = None -> line_color l = Some (SStr "red")).

(** * Properties *)

(** ** The error monad and the loops *)

Lemma bind_Ok_inv {A B : Type} (m : result A) (f : A -> result B) (b : B) :
  m ≫= f = Ok b -> exists a, m = Ok a /\ f a = Ok b.
Proof.
  destruct m as [a|e]; cbn; intros H; [eauto | discriminate].
Qed.

Lemma bind_Ok {A B : Type} (a : A) (f : A -> result B) :
  Ok a ≫= f = f a.
Proof. reflexivity. Qed.

(** Inverts a hypothesis [x ← m; k = Ok r] into [m = Ok a] and [k a = Ok r]. *)
Ltac bind_inv H :=
  let a := fresh "a" in
  let Ha := fresh "Ha" in
  apply bind_Ok_inv in H as (a & Ha & H); cbn beta in H.

(** Two bodies that agree on every element run the same loop. *)
Lemma for_each_ext {A S : Type} (xs : list A) (f g : A -> S -> result S) :
  (forall x s, x ∈ xs -> f x s = g x s) ->
  forall s, for_each xs f s = for_each xs g s.
Proof.
  induction xs as [|x rest IH]; intros Hfg s; cbn; [reflexivity|].
  rewrite (Hfg x s (list_elem_of_here _ _)).
  destruct (g x s) as [s1|e]; cbn; [|reflexivity].
  apply IH. intros y t Hy. apply Hfg. by apply list_elem_of_further.
Qed.

Lemma for_each_app {A S : Type} (xs ys : list A) (body : A -> S -> result S)
    (s : S) :
  for_each (xs ++ ys) body s = for_each xs body s ≫= for_each ys body.
Proof.
  revert s. induction xs as [|x rest IH]; intros s; cbn; [reflexivity|].
  destruct (body x s) as [s1|e]; cbn; [apply IH | reflexivity].
Qed.

(** A loop whose body skips every element leaves the state as it was. *)
Lemma for_each_skip {A S : Type} (xs : list A) (body : A -> S -> result S) :
  (forall x s, x ∈ xs -> body x s = Ok s) ->
  forall s, for_each xs body s = Ok s.
Proof.
  induction xs as [|x rest IH]; intros Hskip s; cbn; [reflexivity|].
  rewrite (Hskip x s (list_elem_of_here _ _)). cbn.
  apply IH. intros y t Hy. apply Hskip. by apply list_elem_of_further.
Qed.

(** ** What one pass of the interactive trace loop builds *)

Lemma build_trace_props (i : Z) (config : PlotConfig) (raw : Slice)
    (fit : option Slice) (tc : TraceConfig) (t : GoTrace) :
  build_trace i config raw fit tc = Ok (Some t) ->
  visible tc = true
  /\ tp_name (trace_props_of t) = name tc
  /\ tp_legendgroup (trace_props_of t) = name tc
  /\ tp_showlegend (trace_props_of t) = (i =? 0).
Proof.
  unfold build_trace. destruct (visible tc); cbn [negb]; [|discriminate].
  destruct (if bool_decide _ then fit else Some raw) as [src|]; [|discriminate].
  destruct (forallb (ds_contains src) _); cbn [negb]; [|discriminate].
  intros H. bind_inv H.
  destruct (plot_type tc).
  - bind_inv H. bind_inv H. injection H as <-. cbn. auto.
  - bind_inv H. bind_inv H. bind_inv H.
    destruct (forallb _ heatmap_bound_kwargs); [|discriminate].
    injection H as <-. cbn. auto.
  - bind_inv H. bind_inv H. injection H as <-. cbn. auto.
Qed.

Lemma linestyle_of_spec (st : Dict) :
  linestyle_of st = spec_linestyle (st !! "dash").
Proof.
  unfold linestyle_of, spec_linestyle.
  destruct (st !! "dash") as [[d|n]|]; try reflexivity.
  unfold dict_get, linestyle_map.
  repeat (case_decide; [subst d; reflexivity|]).
  rewrite !lookup_insert_ne by congruence. reflexivity.
Qed.

(** ** Presence checks and lookups *)

Lemma ds_contains_getitem (s : Slice) (k : string) :
  ds_contains s k = true -> exists a, ds_getitem s (Some k) = Ok a.
Proof.
  unfold ds_contains, ds_getitem. intros H.
  apply orb_true_iff in H as [H|H]; apply bool_decide_eq_true in H as [a Ha].
  - rewrite Ha. by exists a.
  - destruct (data_vars s !! k) as [b|]; [by exists b|].
    rewrite Ha. by exists a.
Qed.

Lemma ds_getitem_absent (s : Slice) (k : string) :
  ds_contains s k = false -> ds_getitem s (Some k) = Raise KeyError.
Proof.
  unfold ds_contains, ds_getitem. intros H.
  apply orb_false_iff in H as [H1 H2].
  apply bool_decide_eq_false in H1. apply bool_decide_eq_false in H2.
  destruct (data_vars s !! k) as [a|]; [exfalso; apply H1; eauto|].
  destruct (coords s !! k) as [a|]; [exfalso; apply H2; eauto|].
  reflexivity.
Qed.

Lemma ds_bool_no_data_vars (s : Slice) :
  data_vars s = ∅ <-> ds_bool s = false.
Proof.
  unfold ds_bool. rewrite negb_false_iff, bool_decide_eq_true. reflexivity.
Qed.

(** ** The static cell loop and the fit slice *)

(** A fit slice without data variables leaves the cell as it is drawn
    without a fit dataset. *)
Lemma mpl_cell_body_falsy_fit_slice (config : PlotConfig) (ds_raw : Dataset)
    (ds_fit : Dataset) (i ax : nat) (nd : NameDict) (q : string) (s : Slice)
    (fig : MplFigure) :
  first_value nd = Ok q ->
  ds_sel ds_fit q = Ok s ->
  data_vars s = ∅ ->
  mpl_cell_body config ds_raw (Some ds_fit) (i, (ax, nd)) fig
  = mpl_cell_body config ds_raw None (i, (ax, nd)) fig.
Proof.
  intros Hq Hs Hempty. apply ds_bool_no_data_vars in Hempty.
  unfold mpl_cell_body. rewrite Hq, !bind_Ok.
  destruct (ds_sel ds_raw q) as [raw|e]; [|reflexivity].
  rewrite Hs, !bind_Ok, Hempty. reflexivity.
Qed.

(** ** Absent fields in the interactive builder *)

(** A visible trace whose [x_source] or [y_source] is not in its slice is
    skipped. *)
Lemma build_trace_skips_absent_required (i : Z) (config : PlotConfig)
    (raw : Slice) (fit : option Slice) (tc : TraceConfig) (src : Slice) :
  (if bool_decide (tc ∈ fit_traces config) then fit else Some raw)
    = Some src ->
  ds_contains src (x_source tc) = false
  \/ ds_contains src (y_source tc) = false ->
  build_trace i config raw fit tc = Ok None.
Proof.
  intros Hsrc Habs. unfold build_trace.
  destruct (visible tc); cbn [negb]; [|reflexivity].
  rewrite Hsrc. cbn [app forallb].
  destruct Habs as [-> | ->]; [reflexivity|].
  by rewrite andb_false_r.
Qed.

(** Looking up a list of fields of which one is absent raises. *)
Lemma comprehension_getitem_absent (src : Slice) (srcs : list string) :
  (exists k, k ∈ srcs /\ ds_contains src k = false) ->
  comprehension (fun k => ds_getitem src (Some k)) srcs = Raise KeyError.
Proof.
  induction srcs as [|k0 rest IH]; intros (k & Hin & Habs).
  - by apply elem_of_nil in Hin.
  - cbn [comprehension].
    destruct (ds_contains src k0) eqn:Hk0.
    + destruct (ds_contains_getitem src k0 Hk0) as [a ->]. rewrite bind_Ok.
      apply elem_of_cons in Hin as [-> | Hin]; [congruence|].
      rewrite IH; [reflexivity | by exists k].
    + by rewrite (ds_getitem_absent src k0 Hk0).
Qed.

(** A visible trace that passes the presence check and names a custom data
    source its slice does not have raises [KeyError]. *)
Lemma build_trace_absent_custom_source (i : Z) (config : PlotConfig)
    (raw : Slice) (fit : option Slice) (tc : TraceConfig) (src : Slice)
    (k : string) :
  visible tc = true ->
  (if bool_decide (tc ∈ fit_traces config) then fit else Some raw)
    = Some src ->
  forallb (ds_contains src)
          ([x_source tc; y_source tc]
           ++ (if opt_str_truthy (z_source tc)
               then [default "" (z_source tc)] else [])) = true ->
  k ∈ custom_data_sources tc ->
  ds_contains src k = false ->
  build_trace i config raw fit tc = Raise KeyError.
Proof.
  intros Hvis Hsrc Hreq Hin Habs. unfold build_trace.
  rewrite Hvis, Hsrc, Hreq. cbn [negb].
  destruct (custom_data_sources tc) as [|k0 rest] eqn:Hc.
  - by apply elem_of_nil in Hin.
  - rewrite (comprehension_getitem_absent src (k0 :: rest));
      [reflexivity | by exists k].
Qed.

(** ** The interactive cell loop without a fit dataset *)

Lemma build_trace_fit_list_without_fit_dataset (i : Z) (config : PlotConfig)
    (raw : Slice) (tc : TraceConfig) :
  tc ∈ fit_traces config -> build_trace i config raw None tc = Ok None.
Proof.
  intros Hin. unfold build_trace.
  destruct (visible tc); cbn [negb]; [|reflexivity].
  by rewrite bool_decide_eq_true_2.
Qed.

Lemma build_trace_outside_fit_list (i : Z) (config config' : PlotConfig)
    (raw : Slice) (fit fit' : option Slice) (tc : TraceConfig) :
  tc ∉ fit_traces config -> tc ∉ fit_traces config' ->
  build_trace i config raw fit tc = build_trace i config' raw fit' tc.
Proof.
  intros Hnot Hnot'. unfold build_trace.
  by rewrite !bool_decide_eq_false_2.
Qed.

(** When no raw trace equals a fit trace, a cell drawn without a fit
    dataset is the cell drawn for the raw traces alone. *)
Lemma plotly_cell_body_without_fit_dataset (grid : PlotlyGrid)
    (config : PlotConfig) (ds_raw : Dataset) (cell : Z * NameDict)
    (fig : GoFigure) :
  (forall tc, tc ∈ traces config -> tc ∉ fit_traces config) ->
  plotly_cell_body grid config ds_raw None cell fig
  = plotly_cell_body grid (raw_only config) ds_raw None cell fig.
Proof.
  intros Hdistinct. destruct cell as [i nd]. unfold plotly_cell_body.
  destruct (py_floordiv i (n_cols grid)) as [q|e];
    [rewrite !bind_Ok | reflexivity].
  destruct (py_mod i (n_cols grid)) as [r|e];
    [rewrite !bind_Ok | reflexivity].
  destruct (first_value nd) as [qubit_id|e];
    [rewrite !bind_Ok | reflexivity].
  destruct (ds_sel ds_raw qubit_id) as [raw|e];
    [rewrite !bind_Ok | reflexivity].
  cbn [raw_only traces fit_traces layout].
  rewrite app_nil_r, for_each_app.
  rewrite (for_each_ext (traces config)
             (plotly_trace_body i (q + 1) (r + 1) config raw None)
             (plotly_trace_body i (q + 1) (r + 1) (raw_only config) raw None)).
  - destruct (for_each (traces config) _ fig) as [f|e]; [|reflexivity].
    rewrite bind_Ok, for_each_skip; [reflexivity|].
    intros tc f' Htc. unfold plotly_trace_body.
    by rewrite build_trace_fit_list_without_fit_dataset.
  - intros tc f Htc. unfold plotly_trace_body.
    rewrite (build_trace_outside_fit_list i config (raw_only config)
               raw None None tc); [reflexivity | by apply Hdistinct |].
    cbn. apply not_elem_of_nil.
Qed.

Section Properties.

Variable PlotlyQubitGrid : Dataset -> list string -> result PlotlyGrid.
Variable plotly_grid_iter : PlotlyGrid -> list (Z * NameDict).
Variable QubitGrid : Dataset -> list string -> result MplGrid.
Variable grid_iter : MplGrid -> list (nat * NameDict).

Local Abbreviation plotly_figure :=
  (create_plotly_figure PlotlyQubitGrid plotly_grid_iter).
Local Abbreviation matplotlib_figure :=
  (create_matplotlib_figure QubitGrid grid_iter).

(** ** Empty configuration list *)

(** C5: with an empty [plot_configs] the interactive builder returns the
    empty figure [go.Figure()] and the static builder returns the blank
    single-axes figure of [plt.subplots()]; neither raises, whatever the
    datasets and the qubit list are. *)
Theorem empty_plot_configs_give_blank_figures
    (ds_raw : Dataset) (qubits : list AnyTransmon) (ds_fit : option Dataset) :
  plotly_figure ds_raw qubits [] ds_fit = Ok go_Figure
  /\ fig_data go_Figure = [] /\ fig_grid go_Figure = None
  /\ matplotlib_figure ds_raw qubits [] ds_fit = Ok plt_subplots
  /\ map_to_list (mpl_axes plt_subplots) = [(0%nat, blank_axes)]
  /\ all_lines plt_subplots = [].
Proof.
  repeat split; try reflexivity.
Qed.

(** ** Only the first configuration counts *)

(** C9: for a non-empty [plot_configs], both builders return what they
    return on the list cut down to its first element. *)
Theorem only_first_plot_config_is_honored
    (ds_raw : Dataset) (qubits : list AnyTransmon) (config : PlotConfig)
    (rest : list PlotConfig) (ds_fit : option Dataset) :
  plotly_figure ds_raw qubits (config :: rest) ds_fit
    = plotly_figure ds_raw qubits (take 1 (config :: rest)) ds_fit
  /\ matplotlib_figure ds_raw qubits (config :: rest) ds_fit
    = matplotlib_figure ds_raw qubits (take 1 (config :: rest)) ds_fit.
Proof.
  split; reflexivity.
Qed.

(** ** Dimensions of the interactive figure *)

(** C8: for a non-empty [plot_configs], the figure the interactive
    builder returns has height [350 * n_rows] and width
    [max(800, 350 * n_cols)] for the grid of the layout provider; a grid
    of 2 rows and 3 columns gives height 700 and width 1050. *)
Theorem plotly_figure_height_and_width
    (ds_raw : Dataset) (qubits : list AnyTransmon) (config : PlotConfig)
    (rest : list PlotConfig) (ds_fit : option Dataset)
    (grid : PlotlyGrid) (fig : GoFigure) :
  PlotlyQubitGrid ds_raw (map grid_location qubits) = Ok grid ->
  plotly_figure ds_raw qubits (config :: rest) ds_fit = Ok fig ->
  fig_height fig = Some (350 * n_rows grid)
  /\ fig_width fig = Some (Z.max 800 (350 * n_cols grid))
  /\ (n_rows grid = 2 -> n_cols grid = 3 ->
      fig_height fig = Some 700 /\ fig_width fig = Some 1050).
Proof.
  intros Hgrid Hfig. unfold create_plotly_figure in Hfig.
  rewrite Hgrid, bind_Ok in Hfig.
  bind_inv Hfig. bind_inv Hfig.
  injection Hfig as <-. cbn.
  split; [reflexivity|]. split; [reflexivity|].
  intros -> ->. split; reflexivity.
Qed.

(** ** Fit traces and the truth value of the fit slice *)

(** X18: when every qubit of the grid has a fit slice without data
    variables, the whole static figure is the one drawn without a fit
    dataset. *)
Lemma matplotlib_figure_falsy_fit_dataset
    (ds_raw ds_fit : Dataset) (qubits : list AnyTransmon)
    (plot_configs : list PlotConfig) :
  (forall grid ax nd,
     QubitGrid ds_raw (map grid_location qubits) = Ok grid ->
     (ax, nd) ∈ grid_iter grid ->
     exists q s, first_value nd = Ok q /\ ds_sel ds_fit q = Ok s
                 /\ data_vars s = ∅) ->
  matplotlib_figure ds_raw qubits plot_configs (Some ds_fit)
  = matplotlib_figure ds_raw qubits plot_configs None.
Proof.
  intros Hall. destruct plot_configs as [|config rest]; [reflexivity|].
  unfold create_matplotlib_figure.
  destruct (QubitGrid ds_raw (map grid_location qubits)) as [grid|e] eqn:Hg;
    [|reflexivity].
  rewrite !bind_Ok.
  rewrite (for_each_ext _ (mpl_cell_body config ds_raw (Some ds_fit))
                          (mpl_cell_body config ds_raw None));
    [reflexivity|].
  intros [i [ax nd]] f Hcell.
  assert (Hin : (ax, nd) ∈ grid_iter grid).
  { unfold enumerate in Hcell.
    apply list_elem_of_In in Hcell. apply in_combine_r in Hcell.
    by apply list_elem_of_In. }
  destruct (Hall grid ax nd eq_refl Hin) as (q & s & Hq & Hs & Hempty).
  by apply (mpl_cell_body_falsy_fit_slice config ds_raw ds_fit i ax nd q s).
Qed.

(** ** Without a fit dataset *)

(** X19: when no raw trace equals a fit trace, the interactive figure
    built without a fit dataset is the figure of the raw traces alone. *)
Lemma plotly_figure_without_fit_dataset
    (ds_raw : Dataset) (qubits : list AnyTransmon) (config : PlotConfig)
    (rest : list PlotConfig) :
  (forall tc, tc ∈ traces config -> tc ∉ fit_traces config) ->
  plotly_figure ds_raw qubits (config :: rest) None
  = plotly_figure ds_raw qubits [raw_only config] None.
Proof.
  intros Hdistinct. unfold create_plotly_figure.
  destruct (PlotlyQubitGrid ds_raw (map grid_location qubits)) as [grid|e];
    [|reflexivity].
  rewrite !bind_Ok.
  destruct (comprehension _ (name_dicts grid)) as [titles|e]; [|reflexivity].
  rewrite !bind_Ok.
  rewrite (for_each_ext _ (plotly_cell_body grid config ds_raw None)
                          (plotly_cell_body grid (raw_only config) ds_raw None));
    [reflexivity|].
  intros cell f _. by apply plotly_cell_body_without_fit_dataset.
Qed.

(** The static builder draws each cell without a fit dataset as it draws
    it for the raw traces alone. *)
Lemma mpl_cell_body_without_fit_dataset (config : PlotConfig)
    (ds_raw : Dataset) (cell : nat * (nat * NameDict)) (fig : MplFigure) :
  mpl_cell_body config ds_raw None cell fig
  = mpl_cell_body (raw_only config) ds_raw None cell fig.
Proof. reflexivity. Qed.

End Properties.

(** * Further behaviour of the builders *)

(** ** Loops that end well, and loops that cannot fail *)

Lemma for_each_all_ok {A S : Type} (xs : list A) (body : A -> S -> result S) :
  forall s s', for_each xs body s = Ok s' ->
  forall x, x ∈ xs -> exists s1 s2, body x s1 = Ok s2.
Proof.
  induction xs as [|x0 rest IH]; intros s s' Hrun x Hx.
  - by apply elem_of_nil in Hx.
  - cbn in Hrun. bind_inv Hrun.
    apply elem_of_cons in Hx as [-> | Hx]; [by exists s, a|].
    by apply (IH a s').
Qed.

Lemma comprehension_Forall2 {A B : Type} (f : A -> result B) (xs : list A) :
  forall ys, comprehension f xs = Ok ys ->
  Forall2 (fun x y => f x = Ok y) xs ys.
Proof.
  induction xs as [|x rest IH]; intros ys H; cbn in H.
  - injection H as <-. constructor.
  - bind_inv H. bind_inv H. injection H as <-.
    constructor; [exact Ha | by apply IH].
Qed.

(** ** Maps filled key by key *)

Lemma insert_all_lookup {K : Type} `{Countable K} {V : Type} (v : V)
    (ks : list K) (m : gmap K V) (k : K) :
  insert_all v ks m !! k = if decide (k ∈ ks) then Some v else m !! k.
Proof.
  unfold insert_all. revert m.
  induction ks as [|k0 rest IH]; intros m; cbn [foldl].
  - case_decide as Hin; [by apply elem_of_nil in Hin | reflexivity].
  - rewrite IH. destruct (decide (k ∈ rest)) as [Hrest|Hrest].
    + rewrite decide_True; [reflexivity | by apply list_elem_of_further].
    + destruct (decide (k = k0)) as [->|Hne].
      * rewrite lookup_insert_eq, decide_True;
          [reflexivity | apply list_elem_of_here].
      * rewrite lookup_insert_ne by congruence.
        rewrite decide_False; [reflexivity|].
        intros Hin. apply elem_of_cons in Hin as [?|?]; congruence.
Qed.

(** ** The interactive loops, pass by pass *)

Lemma with_data_same (fig : GoFigure) : with_data fig (fig_data fig) = fig.
Proof. by destruct fig. Qed.

Lemma plotly_trace_loop_exact (i row col : Z) (config : PlotConfig)
    (raw : Slice) (fit : option Slice) (tcs : list TraceConfig) :
  forall fig fig',
    for_each tcs (plotly_trace_body i row col config raw fit) fig = Ok fig' ->
    fig' = with_data fig (fig_data fig
                          ++ trace_entries i row col config raw fit tcs)
    /\ forall tc, tc ∈ tcs ->
         exists r, build_trace i config raw fit tc = Ok r.
Proof.
  induction tcs as [|tc rest IH]; intros fig fig' H; cbn in H.
  - injection H as <-. split.
    + cbn. by rewrite app_nil_r, with_data_same.
    + intros tc Htc. by apply elem_of_nil in Htc.
  - bind_inv H. unfold plotly_trace_body in Ha. bind_inv Ha.
    destruct (IH a fig' H) as [-> Hall]. split.
    + unfold trace_entries. cbn [flat_map]. rewrite Ha0.
      destruct a0 as [t|]; injection Ha as <-; cbn.
      * unfold with_data. cbn. by rewrite <- app_assoc.
      * reflexivity.
    + intros tc' Htc'. apply elem_of_cons in Htc' as [-> | Htc'];
        [by exists a0 | by apply Hall].
Qed.

Lemma plotly_cell_body_exact (grid : PlotlyGrid) (config : PlotConfig)
    (ds_raw : Dataset) (ds_fit : option Dataset) (i : Z) (nd : NameDict)
    (fig fig' : GoFigure) :
  plotly_cell_body grid config ds_raw ds_fit (i, nd) fig = Ok fig' ->
  n_cols grid <> 0
  /\ (exists q raw fit,
        first_value nd = Ok q /\ ds_sel ds_raw q = Ok raw
        /\ sel_fit ds_fit q = Ok fit
        /\ forall tc, tc ∈ traces config ++ fit_traces config ->
             exists r, build_trace i config raw fit tc = Ok r)
  /\ fig_data fig'
     = fig_data fig ++ cell_entries grid config ds_raw ds_fit (i, nd)
  /\ fig_xaxis_titles fig'
     = <[cell_position grid i := x_axis_title (layout config)]>
         (fig_xaxis_titles fig)
  /\ fig_yaxis_titles fig'
     = <[cell_position grid i := y_axis_title (layout config)]>
         (fig_yaxis_titles fig)
  /\ fig_grid fig' = fig_grid fig
  /\ fig_title_text fig' = fig_title_text fig
  /\ fig_legend fig' = fig_legend fig
  /\ fig_height fig' = fig_height fig
  /\ fig_width fig' = fig_width fig.
Proof.
  intros H. unfold plotly_cell_body in H.
  bind_inv H. bind_inv H. bind_inv H. bind_inv H. bind_inv H. bind_inv H.
  injection H as <-.
  unfold py_floordiv in Ha. unfold py_mod in Ha0.
  destruct (Z.eqb_spec (n_cols grid) 0) as [|Hn]; [discriminate|].
  injection Ha as <-. injection Ha0 as <-.
  apply plotly_trace_loop_exact in Ha4 as [-> Hall].
  split; [exact Hn|]. split.
  { exists a1, a2, a3. repeat split; assumption. }
  unfold cell_entries, cell_position. cbn [fst snd].
  change (match ds_fit with
          | Some ds => ds_sel ds a1 ≫= λ s, Ok (Some s)
          | None => Ok None
          end) with (sel_fit ds_fit a1) in Ha3.
  rewrite Ha1, Ha2, Ha3. cbn. repeat split; reflexivity.
Qed.

Lemma plotly_cell_loop_exact (grid : PlotlyGrid) (config : PlotConfig)
    (ds_raw : Dataset) (ds_fit : option Dataset)
    (cells : list (Z * NameDict)) :
  forall fig fig',
    for_each cells (plotly_cell_body grid config ds_raw ds_fit) fig = Ok fig' ->
    fig_data fig'
    = fig_data fig ++ flat_map (cell_entries grid config ds_raw ds_fit) cells
    /\ fig_xaxis_titles fig'
       = insert_all (x_axis_title (layout config))
           (map (fun c => cell_position grid c.1) cells) (fig_xaxis_titles fig)
    /\ fig_yaxis_titles fig'
       = insert_all (y_axis_title (layout config))
           (map (fun c => cell_position grid c.1) cells) (fig_yaxis_titles fig)
    /\ fig_grid fig' = fig_grid fig
    /\ fig_title_text fig' = fig_title_text fig
    /\ fig_legend fig' = fig_legend fig
    /\ fig_height fig' = fig_height fig
    /\ fig_width fig' = fig_width fig.
Proof.
  induction cells as [|[i nd] rest IH]; intros fig fig' H; cbn in H.
  - injection H as <-. cbn. rewrite app_nil_r. repeat split; reflexivity.
  - bind_inv H.
    apply plotly_cell_body_exact in Ha
      as (_ & _ & Hd & Hx & Hy & Hg & Ht & Hl & Hh & Hw).
    destruct (IH a fig' H) as (Hd' & Hx' & Hy' & Hg' & Ht' & Hl' & Hh' & Hw').
    rewrite Hd', Hx', Hy', Hg', Ht', Hl', Hh', Hw'.
    rewrite Hd, Hx, Hy, Hg, Ht, Hl, Hh, Hw.
    cbn [flat_map map insert_all foldl fst]. rewrite <- app_assoc.
    repeat split; reflexivity.
Qed.

(** ** What a primitive is made of *)

Lemma build_trace_content (i : Z) (config : PlotConfig) (raw : Slice)
    (fit : option Slice) (tc : TraceConfig) (t : GoTrace) :
  build_trace i config raw fit tc = Ok (Some t) ->
  exists src,
    (if bool_decide (tc ∈ fit_traces config) then fit else Some raw) = Some src
    /\ visible tc = true
    /\ ds_getitem src (Some (x_source tc)) = Ok (trace_x t)
    /\ ds_getitem src (Some (y_source tc)) = Ok (trace_y t)
    /\ is_heatmap t = bool_decide (plot_type tc = heatmap)
    /\ (forall z, trace_z t = Some z -> ds_getitem src (z_source tc) = Ok z)
    /\ tp_name (trace_props_of t) = name tc
    /\ tp_hovertemplate (trace_props_of t) = hover_template tc
    /\ (tp_customdata (trace_props_of t) = None
        <-> custom_data_sources tc = [])
    /\ match t with
       | Heatmap _ _ _ _ st => st = style tc
       | Scatter _ _ m ln _ => m = mode tc /\ ln = style tc
       end.
Proof.
  unfold build_trace. destruct (visible tc); cbn [negb]; [|discriminate].
  destruct (if bool_decide _ then fit else Some raw) as [src|]; [|discriminate].
  destruct (forallb (ds_contains src) _); cbn [negb]; [|discriminate].
  intros H. bind_inv H. exists src.
  assert (Hcustom : a = None <-> custom_data_sources tc = []).
  { destruct (custom_data_sources tc) as [|k rest].
    - injection Ha as <-. done.
    - bind_inv Ha. bind_inv Ha. injection Ha as <-. split; discriminate. }
  destruct (plot_type tc).
  - bind_inv H. bind_inv H. injection H as <-. cbn.
    repeat split; try done; try apply Hcustom.
  - bind_inv H. bind_inv H. bind_inv H.
    destruct (forallb _ heatmap_bound_kwargs); [|discriminate].
    injection H as <-. cbn.
    repeat split; try done; try apply Hcustom.
    intros z [= <-]. done.
  - bind_inv H. bind_inv H. injection H as <-. cbn.
    repeat split; try done; try apply Hcustom.
Qed.

(** ** Heatmap traces that raise *)

(** X7: a visible heatmap trace that passes the presence check and has no
    custom data sources raises [TypeError] when its style repeats a keyword
    the [go.Heatmap] call already binds ([x], [y], [z], [name],
    [hovertemplate], [customdata], [legendgroup], [showlegend]). *)
Theorem heatmap_style_repeating_keyword_raises
    (i : Z) (config : PlotConfig) (raw : Slice) (fit : option Slice)
    (tc : TraceConfig) (src : Slice) (z k : string) :
  visible tc = true ->
  (if bool_decide (tc ∈ fit_traces config) then fit else Some raw)
    = Some src ->
  plot_type tc = heatmap ->
  custom_data_sources tc = [] ->
  ds_contains src (x_source tc) = true ->
  ds_contains src (y_source tc) = true ->
  z_source tc = Some z -> ds_contains src z = true ->
  k ∈ heatmap_bound_kwargs -> is_Some (style tc !! k) ->
  build_trace i config raw fit tc = Raise TypeError.
Proof.
  intros Hvis Hsrc Hpt Hcustom Hx Hy Hz Hzin Hk Hstyle. unfold build_trace.
  rewrite Hvis, Hsrc, Hz. cbn [negb opt_str_truthy default from_option].
  unfold id.
  assert (Hreq : forallb (ds_contains src)
            ([x_source tc; y_source tc]
             ++ (if str_truthy z then [z] else [])) = true).
  { destruct (str_truthy z); cbn; by rewrite Hx, Hy, ?Hzin. }
  rewrite Hreq, Hcustom, Hpt. cbn [negb]. rewrite bind_Ok.
  destruct (ds_contains_getitem src _ Hx) as [xv ->].
  destruct (ds_contains_getitem src _ Hy) as [yv ->].
  destruct (ds_contains_getitem src _ Hzin) as [zv ->].
  rewrite !bind_Ok.
  destruct (forallb _ heatmap_bound_kwargs) eqn:Hall; [|reflexivity].
  rewrite forallb_forall in Hall.
  apply list_elem_of_In in Hk. specialize (Hall k Hk).
  apply bool_decide_eq_true in Hall. rewrite Hall in Hstyle.
  by destruct Hstyle.
Qed.


Lemma trace_entries_length (i row col : Z) (config : PlotConfig)
    (raw : Slice) (fit : option Slice) (tcs : list TraceConfig) :
  (length (trace_entries i row col config raw fit tcs) <= length tcs)%nat.
Proof.
  unfold trace_entries. induction tcs as [|tc rest IH]; cbn; [lia|].
  rewrite length_app.
  destruct (build_trace i config raw fit tc) as [[t|]|e]; cbn; lia.
Qed.

Lemma cell_entries_length (grid : PlotlyGrid) (config : PlotConfig)
    (ds_raw : Dataset) (ds_fit : option Dataset) (cell : Z * NameDict) :
  (length (cell_entries grid config ds_raw ds_fit cell)
   <= length (traces config ++ fit_traces config))%nat.
Proof.
  unfold cell_entries. destruct (first_value cell.2); [|cbn; lia].
  destruct (ds_sel ds_raw a); [|cbn; lia].
  destruct (sel_fit ds_fit a); [|cbn; lia].
  apply trace_entries_length.
Qed.

Lemma elem_of_trace_entries (i row col : Z) (config : PlotConfig)
    (raw : Slice) (fit : option Slice) (tcs : list TraceConfig)
    (e : GoTrace * Z * Z) :
  e ∈ trace_entries i row col config raw fit tcs ->
  exists tc, tc ∈ tcs /\ build_trace i config raw fit tc = Ok (Some e.1.1)
             /\ e.1.2 = row /\ e.2 = col.
Proof.
  unfold trace_entries. intros He.
  apply list_elem_of_In, in_flat_map in He as (tc & Htc & He).
  exists tc. split; [by apply list_elem_of_In|].
  destruct (build_trace i config raw fit tc) as [[t|]|err]; cbn in He;
    try contradiction.
  destruct He as [<- | []]. done.
Qed.

(** ** Primitives and the traces they are built for *)

Lemma ds_sel_Ok (ds : Dataset) (q : string) (s : Slice) :
  ds_sel ds q = Ok s <-> qubit_slices ds !! q = Some s.
Proof.
  unfold ds_sel. destruct (qubit_slices ds !! q); split; congruence.
Qed.

Lemma sel_fit_Some (ds_fit : option Dataset) (q : string) (s : Slice) :
  sel_fit ds_fit q = Ok (Some s) <->
  exists ds, ds_fit = Some ds /\ ds_sel ds q = Ok s.
Proof.
  unfold sel_fit. destruct ds_fit as [ds|]; split.
  - intros H. exists ds. split; [reflexivity|].
    destruct (ds_sel ds q) as [s'|]; cbn in H; congruence.
  - intros (ds' & [= <-] & ->). reflexivity.
  - discriminate.
  - intros (ds' & Hds & _). discriminate.
Qed.

Lemma build_trace_drawn_inv (i : Z) (config : PlotConfig) (raw : Slice)
    (fit : option Slice) (tc : TraceConfig) (t : GoTrace) :
  build_trace i config raw fit tc = Ok (Some t) ->
  visible tc = true
  /\ exists src,
       (if bool_decide (tc ∈ fit_traces config) then fit else Some raw)
         = Some src
       /\ forallb (ds_contains src) (required_sources tc) = true.
Proof.
  unfold build_trace, required_sources.
  destruct (visible tc); cbn [negb]; [|discriminate].
  destruct (if bool_decide _ then fit else Some raw) as [src|]; [|discriminate].
  destruct (forallb (ds_contains src) _) eqn:Hreq; cbn [negb]; [|discriminate].
  intros _. split; [reflexivity|]. by exists src.
Qed.

Lemma build_trace_skip_inv (i : Z) (config : PlotConfig) (raw : Slice)
    (fit : option Slice) (tc : TraceConfig) :
  build_trace i config raw fit tc = Ok None ->
  visible tc = false
  \/ (if bool_decide (tc ∈ fit_traces config) then fit else Some raw) = None
  \/ exists src,
       (if bool_decide (tc ∈ fit_traces config) then fit else Some raw)
         = Some src
       /\ forallb (ds_contains src) (required_sources tc) = false.
Proof.
  unfold build_trace, required_sources.
  destruct (visible tc); cbn [negb]; [|by left].
  destruct (if bool_decide _ then fit else Some raw) as [src|];
    [|by right; left].
  destruct (forallb (ds_contains src) _) eqn:Hreq; cbn [negb];
    [|intros _; right; right; by exists src].
  intros H. bind_inv H.
  destruct (plot_type tc).
  - bind_inv H. bind_inv H. discriminate.
  - bind_inv H. bind_inv H. bind_inv H.
    destruct (forallb _ heatmap_bound_kwargs); discriminate.
  - bind_inv H. bind_inv H. discriminate.
Qed.

Lemma forallb_contains_same_fields (s s' : Slice) (ks : list string) :
  (forall k, ds_contains s k = ds_contains s' k) ->
  forallb (ds_contains s) ks = forallb (ds_contains s') ks.
Proof.
  intros H. induction ks as [|k rest IH]; [reflexivity|].
  cbn. by rewrite H, IH.
Qed.

(** A trace drawn in one cell is not skipped in another cell whose qubit
    can be selected, when the slices of each dataset share their fields. *)
Lemma build_trace_on_other_cell (ds_raw : Dataset) (ds_fit : option Dataset)
    (config : PlotConfig) (c : Z * NameDict) (tc : TraceConfig) (t : GoTrace)
    (i0 : Z) (q0 : string) (raw0 : Slice) (fit0 : option Slice) :
  same_fields ds_raw ->
  (forall ds, ds_fit = Some ds -> same_fields ds) ->
  primitive_of_trace ds_raw ds_fit config c tc t ->
  ds_sel ds_raw q0 = Ok raw0 ->
  sel_fit ds_fit q0 = Ok fit0 ->
  build_trace i0 config raw0 fit0 tc <> Ok None.
Proof.
  intros Hsame_raw Hsame_fit (q & raw & fit & Hq & Hraw & Hfit & Hbuild)
         Hraw0 Hfit0 Hskip.
  apply build_trace_drawn_inv in Hbuild as (Hvis & src & Hsrc & Hreq).
  apply build_trace_skip_inv in Hskip
    as [Hinv | [Hnone | (src0 & Hsrc0 & Hreq0)]].
  - congruence.
  - destruct (bool_decide (tc ∈ fit_traces config)); [|discriminate].
    subst fit fit0. apply sel_fit_Some in Hfit as (ds & -> & Hs).
    cbn in Hfit0. destruct (ds_sel ds q0); discriminate.
  - assert (Hfields : forall k, ds_contains src k = ds_contains src0 k).
    { destruct (bool_decide (tc ∈ fit_traces config)).
      - subst fit fit0. apply sel_fit_Some in Hfit as (ds & -> & Hs).
        apply sel_fit_Some in Hfit0 as (ds' & [= <-] & Hs0).
        apply ds_sel_Ok in Hs. apply ds_sel_Ok in Hs0.
        by destruct (Hsame_fit ds eq_refl q q0 src src0 Hs Hs0).
      - injection Hsrc as <-. injection Hsrc0 as <-.
        apply ds_sel_Ok in Hraw. apply ds_sel_Ok in Hraw0.
        by destruct (Hsame_raw q q0 raw raw0 Hraw Hraw0). }
    rewrite (forallb_contains_same_fields src src0 (required_sources tc)
               Hfields) in Hreq.
    congruence.
Qed.

Lemma elem_of_trace_entries_intro (i row col : Z) (config : PlotConfig)
    (raw : Slice) (fit : option Slice) (tcs : list TraceConfig)
    (tc : TraceConfig) (t : GoTrace) :
  tc ∈ tcs ->
  build_trace i config raw fit tc = Ok (Some t) ->
  (t, row, col) ∈ trace_entries i row col config raw fit tcs.
Proof.
  intros Htc Hbuild. unfold trace_entries.
  apply list_elem_of_In, in_flat_map. exists tc.
  split; [by apply list_elem_of_In|]. rewrite Hbuild. by left.
Qed.

Lemma elem_of_cell_entries_intro (grid : PlotlyGrid) (config : PlotConfig)
    (ds_raw : Dataset) (ds_fit : option Dataset) (c : Z * NameDict)
    (tc : TraceConfig) (t : GoTrace) :
  tc ∈ traces config ++ fit_traces config ->
  primitive_of_trace ds_raw ds_fit config c tc t ->
  (t, (cell_position grid c.1).1, (cell_position grid c.1).2)
    ∈ cell_entries grid config ds_raw ds_fit c.
Proof.
  intros Htc (q & raw & fit & Hq & Hraw & Hfit & Hbuild).
  unfold cell_entries, cell_position. rewrite Hq, Hraw, Hfit. cbn [fst snd].
  by apply (elem_of_trace_entries_intro _ _ _ _ _ _ _ tc).
Qed.

Section InteractiveBuilder.

Variable PlotlyQubitGrid : Dataset -> list string -> result PlotlyGrid.
Variable plotly_grid_iter : PlotlyGrid -> list (Z * NameDict).

Local Abbreviation plotly_figure :=
  (create_plotly_figure PlotlyQubitGrid plotly_grid_iter).

(** The pieces of a successful run. *)
Lemma plotly_figure_run
    (ds_raw : Dataset) (qubits : list AnyTransmon) (config : PlotConfig)
    (rest : list PlotConfig) (ds_fit : option Dataset)
    (grid : PlotlyGrid) (fig : GoFigure) :
  PlotlyQubitGrid ds_raw (map grid_location qubits) = Ok grid ->
  plotly_figure ds_raw qubits (config :: rest) ds_fit = Ok fig ->
  exists titles fig0,
    comprehension (fun nd => v ← first_value nd; Ok ("Qubit " +:+ v))
                  (name_dicts grid) = Ok titles
    /\ for_each (plotly_grid_iter grid)
         (plotly_cell_body grid config ds_raw ds_fit)
         (make_subplots (n_rows grid) (n_cols grid) titles "0.1" "0.2")
       = Ok fig0
    /\ fig = update_layout fig0 (title (layout config))
               (legend (layout config)) (350 * n_rows grid)
               (Z.max 800 (350 * n_cols grid)).
Proof.
  intros Hgrid Hfig. unfold create_plotly_figure in Hfig.
  rewrite Hgrid, bind_Ok in Hfig. bind_inv Hfig. bind_inv Hfig.
  injection Hfig as <-. by exists a, a0.
Qed.

(** X1: the figure the interactive builder returns has the grid of the
    layout provider, one subplot title ["Qubit <id>"] per name mapping in
    the provider's order (the id being the first value of the mapping),
    the spacings 0.1 and 0.2, and the title and the legend style of the
    layout configuration. *)
Theorem plotly_figure_grid_titles_and_layout
    (ds_raw : Dataset) (qubits : list AnyTransmon) (config : PlotConfig)
    (rest : list PlotConfig) (ds_fit : option Dataset)
    (grid : PlotlyGrid) (fig : GoFigure) :
  PlotlyQubitGrid ds_raw (map grid_location qubits) = Ok grid ->
  plotly_figure ds_raw qubits (config :: rest) ds_fit = Ok fig ->
  exists titles,
    fig_grid fig = Some {| sg_rows := n_rows grid; sg_cols := n_cols grid;
                           sg_subplot_titles := titles;
                           sg_horizontal_spacing := "0.1";
                           sg_vertical_spacing := "0.2" |}
    /\ Forall2 (fun nd t => exists q, first_value nd = Ok q
                                      /\ t = "Qubit " +:+ q)
               (name_dicts grid) titles
    /\ fig_title_text fig = Some (title (layout config))
    /\ fig_legend fig = Some (legend (layout config)).
Proof.
  intros Hgrid Hfig.
  destruct (plotly_figure_run _ _ _ _ _ _ _ Hgrid Hfig)
    as (titles & fig0 & Htitles & Hloop & ->).
  apply plotly_cell_loop_exact in Hloop as (_ & _ & _ & Hg & _).
  exists titles. cbn. rewrite Hg. split; [reflexivity|].
  split; [|done].
  apply comprehension_Forall2 in Htitles.
  eapply Forall2_impl; [exact Htitles|].
  intros nd t Ht. cbn in Ht. bind_inv Ht. injection Ht as <-. by exists a.
Qed.

(** The primitives of the returned figure, cell by cell. *)
Lemma plotly_figure_data_exact
    (ds_raw : Dataset) (qubits : list AnyTransmon) (config : PlotConfig)
    (rest : list PlotConfig) (ds_fit : option Dataset)
    (grid : PlotlyGrid) (fig : GoFigure) :
  PlotlyQubitGrid ds_raw (map grid_location qubits) = Ok grid ->
  plotly_figure ds_raw qubits (config :: rest) ds_fit = Ok fig ->
  fig_data fig
  = flat_map (cell_entries grid config ds_raw ds_fit) (plotly_grid_iter grid).
Proof.
  intros Hgrid Hfig.
  destruct (plotly_figure_run _ _ _ _ _ _ _ Hgrid Hfig)
    as (titles & fig0 & _ & Hloop & ->).
  apply plotly_cell_loop_exact in Hloop as (Hd & _). exact Hd.
Qed.

(** X2: the primitives of the returned figure are, cell after cell in the
    order of the iteration helper, those of the raw traces followed by
    those of the fit traces that the trace loop does not skip; there is at
    most one per cell and configured trace. *)
Theorem plotly_figure_primitives_in_order
    (ds_raw : Dataset) (qubits : list AnyTransmon) (config : PlotConfig)
    (rest : list PlotConfig) (ds_fit : option Dataset)
    (grid : PlotlyGrid) (fig : GoFigure) :
  PlotlyQubitGrid ds_raw (map grid_location qubits) = Ok grid ->
  plotly_figure ds_raw qubits (config :: rest) ds_fit = Ok fig ->
  fig_data fig
  = flat_map (cell_entries grid config ds_raw ds_fit) (plotly_grid_iter grid)
  /\ (length (fig_data fig)
      <= length (plotly_grid_iter grid)
         * (length (traces config) + length (fit_traces config)))%nat.
Proof.
  intros Hgrid Hfig.
  rewrite (plotly_figure_data_exact _ _ _ _ _ _ _ Hgrid Hfig).
  split; [reflexivity|]. clear Hfig.
  induction (plotly_grid_iter grid) as [|cell cells IH]; cbn; [lia|].
  rewrite length_app.
  pose proof (cell_entries_length grid config ds_raw ds_fit cell) as Hlen.
  rewrite length_app in Hlen. lia.
Qed.

(** X3: when the grid has at least one column and every yielded cell
    index lies in [0, n_rows * n_cols), the position of every yielded cell
    is a subplot of the grid and carries the x and y axis titles of the
    layout configuration, the same in every cell; the builder sets an axis
    title at no other position. *)
Theorem plotly_figure_axis_titles
    (ds_raw : Dataset) (qubits : list AnyTransmon) (config : PlotConfig)
    (rest : list PlotConfig) (ds_fit : option Dataset)
    (grid : PlotlyGrid) (fig : GoFigure) :
  PlotlyQubitGrid ds_raw (map grid_location qubits) = Ok grid ->
  plotly_figure ds_raw qubits (config :: rest) ds_fit = Ok fig ->
  0 < n_cols grid ->
  (forall c, c ∈ plotly_grid_iter grid -> 0 <= c.1 < n_rows grid * n_cols grid) ->
  forall pos,
    (pos ∈ map (fun c => cell_position grid c.1) (plotly_grid_iter grid) ->
       1 <= pos.1 <= n_rows grid /\ 1 <= pos.2 <= n_cols grid
       /\ fig_xaxis_titles fig !! pos = Some (x_axis_title (layout config))
       /\ fig_yaxis_titles fig !! pos = Some (y_axis_title (layout config)))
    /\ (pos ∉ map (fun c => cell_position grid c.1) (plotly_grid_iter grid) ->
       fig_xaxis_titles fig !! pos = None
       /\ fig_yaxis_titles fig !! pos = None).
Proof.
  intros Hgrid Hfig Hcols Hrange pos.
  destruct (plotly_figure_run _ _ _ _ _ _ _ Hgrid Hfig)
    as (titles & fig0 & _ & Hloop & ->).
  apply plotly_cell_loop_exact in Hloop as (_ & Hx & Hy & _). cbn in *.
  rewrite Hx, Hy, !insert_all_lookup.
  split; intros Hpos.
  - rewrite !decide_True by exact Hpos.
    apply list_elem_of_fmap in Hpos as (c & -> & Hc).
    specialize (Hrange c Hc). unfold cell_position. cbn [fst snd].
    pose proof (Z.mod_pos_bound c.1 (n_cols grid) Hcols) as Hmod.
    assert (0 <= c.1 / n_cols grid) by (apply Z.div_pos; lia).
    assert (c.1 / n_cols grid < n_rows grid)
      by (apply Z.div_lt_upper_bound; lia).
    repeat split; lia || reflexivity.
  - by rewrite !decide_False.
Qed.

(** X4: when the grid has at least one column and every yielded cell
    index lies in [0, n_rows * n_cols), every primitive of the returned
    figure sits in a subplot of the grid (row in [1, n_rows], column in
    [1, n_cols]), at the row-major position of its cell index; two cell
    indices never share a subplot. *)
Theorem plotly_primitives_within_grid
    (ds_raw : Dataset) (qubits : list AnyTransmon) (config : PlotConfig)
    (rest : list PlotConfig) (ds_fit : option Dataset)
    (grid : PlotlyGrid) (fig : GoFigure) :
  PlotlyQubitGrid ds_raw (map grid_location qubits) = Ok grid ->
  plotly_figure ds_raw qubits (config :: rest) ds_fit = Ok fig ->
  0 < n_cols grid ->
  (forall c, c ∈ plotly_grid_iter grid -> 0 <= c.1 < n_rows grid * n_cols grid) ->
  (forall e, e ∈ fig_data fig ->
     1 <= e.1.2 <= n_rows grid /\ 1 <= e.2 <= n_cols grid
     /\ exists c, c ∈ plotly_grid_iter grid
                  /\ (e.1.2 - 1) * n_cols grid + (e.2 - 1) = c.1)
  /\ (forall i j, cell_position grid i = cell_position grid j -> i = j).
Proof.
  intros Hgrid Hfig Hcols Hrange.
  pose proof (plotly_figure_data_exact _ _ _ _ _ _ _ Hgrid Hfig) as Hd.
  split.
  - intros e He. rewrite Hd in He.
    apply list_elem_of_In, in_flat_map in He as (c & Hc & He).
    apply list_elem_of_In in Hc. apply list_elem_of_In in He.
    unfold cell_entries in He.
    destruct (first_value c.2) as [q|]; [|by apply elem_of_nil in He].
    destruct (ds_sel ds_raw q) as [raw|]; [|by apply elem_of_nil in He].
    destruct (sel_fit ds_fit q) as [fit|]; [|by apply elem_of_nil in He].
    apply elem_of_trace_entries in He as (tc & _ & _ & -> & ->).
    specialize (Hrange c Hc).
    pose proof (Z.div_mod c.1 (n_cols grid) ltac:(lia)) as Hdm.
    pose proof (Z.mod_pos_bound c.1 (n_cols grid) Hcols) as Hmod.
    assert (0 <= c.1 / n_cols grid) by (apply Z.div_pos; lia).
    assert (c.1 / n_cols grid < n_rows grid)
      by (apply Z.div_lt_upper_bound; lia).
    repeat split; try lia.
    exists c. split; [exact Hc | lia].
  - intros i j Hpos. unfold cell_position in Hpos.
    injection Hpos as Hq Hr.
    rewrite (Z.div_mod i (n_cols grid)), (Z.div_mod j (n_cols grid)) by lia.
    assert (i / n_cols grid = j / n_cols grid) as -> by lia.
    assert (i mod n_cols grid = j mod n_cols grid) as -> by lia.
    reflexivity.
Qed.

(** X5: the interactive builder returns a figure only if the grid has a
    column count other than zero as soon as a cell is yielded, every name
    mapping of the grid and every yielded one is non-empty, and the qubit
    of every yielded cell can be selected in the raw dataset and, when a
    fit dataset is given, in the fit dataset, whether or not the
    configuration has fit traces. *)
Theorem plotly_figure_needs_selectable_qubits
    (ds_raw : Dataset) (qubits : list AnyTransmon) (config : PlotConfig)
    (rest : list PlotConfig) (ds_fit : option Dataset)
    (grid : PlotlyGrid) (fig : GoFigure) :
  PlotlyQubitGrid ds_raw (map grid_location qubits) = Ok grid ->
  plotly_figure ds_raw qubits (config :: rest) ds_fit = Ok fig ->
  (forall nd, nd ∈ name_dicts grid -> nd <> [])
  /\ forall c, c ∈ plotly_grid_iter grid ->
       n_cols grid <> 0 /\ selectable ds_raw ds_fit c.2.
Proof.
  intros Hgrid Hfig.
  destruct (plotly_figure_run _ _ _ _ _ _ _ Hgrid Hfig)
    as (titles & fig0 & Htitles & Hloop & _).
  split.
  - intros nd Hnd ->. apply comprehension_Forall2 in Htitles.
    apply list_elem_of_lookup in Hnd as [k Hk].
    destruct (Forall2_lookup_l _ _ _ k [] Htitles Hk) as (t & _ & Ht).
    discriminate.
  - intros [i nd] Hc.
    destruct (for_each_all_ok _ _ _ _ Hloop (i, nd) Hc) as (f1 & f2 & Hbody).
    apply plotly_cell_body_exact in Hbody
      as (Hn & (q & raw & fit & Hq & Hraw & Hfit & _) & _).
    split; [exact Hn|]. exists q. split; [exact Hq|]. split.
    + unfold ds_sel in Hraw. by destruct (qubit_slices ds_raw !! q).
    + intros ds ->. cbn in Hfit. unfold ds_sel in Hfit.
      by destruct (qubit_slices ds !! q).
Qed.

(** Every primitive of the returned figure was built by the trace loop for
    a yielded cell and a configured trace, from the slices of the cell's
    qubit. *)
Lemma plotly_entry_provenance
    (ds_raw : Dataset) (qubits : list AnyTransmon) (config : PlotConfig)
    (rest : list PlotConfig) (ds_fit : option Dataset)
    (grid : PlotlyGrid) (fig : GoFigure) (e : GoTrace * Z * Z) :
  PlotlyQubitGrid ds_raw (map grid_location qubits) = Ok grid ->
  plotly_figure ds_raw qubits (config :: rest) ds_fit = Ok fig ->
  e ∈ fig_data fig ->
  exists c tc q raw fit,
    c ∈ plotly_grid_iter grid
    /\ tc ∈ traces config ++ fit_traces config
    /\ first_value c.2 = Ok q
    /\ ds_sel ds_raw q = Ok raw
    /\ sel_fit ds_fit q = Ok fit
    /\ build_trace c.1 config raw fit tc = Ok (Some e.1.1)
    /\ (e.1.2, e.2) = cell_position grid c.1.
Proof.
  intros Hgrid Hfig He.
  pose proof (plotly_figure_data_exact _ _ _ _ _ _ _ Hgrid Hfig) as Hd.
  rewrite Hd in He.
  apply list_elem_of_In, in_flat_map in He as (c & Hc & He).
  apply list_elem_of_In in Hc. apply list_elem_of_In in He.
  unfold cell_entries in He.
  destruct (first_value c.2) as [q|] eqn:Hq; [|by apply elem_of_nil in He].
  destruct (ds_sel ds_raw q) as [raw|] eqn:Hraw;
    [|by apply elem_of_nil in He].
  destruct (sel_fit ds_fit q) as [fit|] eqn:Hfit;
    [|by apply elem_of_nil in He].
  apply elem_of_trace_entries in He as (tc & Htc & Hbuild & Hrow & Hcol).
  exists c, tc, q, raw, fit. repeat split; try assumption.
  unfold cell_position. by rewrite Hrow, Hcol.
Qed.

(** X6: every primitive of the returned figure holds the values of the
    [x_source] and [y_source] fields (and of the [z_source] field, for a
    heatmap) of one slice of its cell's qubit: the slice of the raw dataset
    when the trace equals no trace of the fit list, the slice of the fit
    dataset otherwise. *)
Theorem plotly_primitive_data_source
    (ds_raw : Dataset) (qubits : list AnyTransmon) (config : PlotConfig)
    (rest : list PlotConfig) (ds_fit : option Dataset)
    (grid : PlotlyGrid) (fig : GoFigure) (e : GoTrace * Z * Z) :
  PlotlyQubitGrid ds_raw (map grid_location qubits) = Ok grid ->
  plotly_figure ds_raw qubits (config :: rest) ds_fit = Ok fig ->
  e ∈ fig_data fig ->
  exists c tc q src,
    c ∈ plotly_grid_iter grid
    /\ tc ∈ traces config ++ fit_traces config
    /\ first_value c.2 = Ok q
    /\ (e.1.2, e.2) = cell_position grid c.1
    /\ (tc ∉ fit_traces config -> ds_sel ds_raw q = Ok src)
    /\ (tc ∈ fit_traces config ->
        exists ds, ds_fit = Some ds /\ ds_sel ds q = Ok src)
    /\ ds_getitem src (Some (x_source tc)) = Ok (trace_x e.1.1)
    /\ ds_getitem src (Some (y_source tc)) = Ok (trace_y e.1.1)
    /\ (forall z, trace_z e.1.1 = Some z ->
          ds_getitem src (z_source tc) = Ok z).
Proof.
  intros Hgrid Hfig He.
  destruct (plotly_entry_provenance _ _ _ _ _ _ _ _ Hgrid Hfig He)
    as (c & tc & q & raw & fit & Hc & Htc & Hq & Hraw & Hfit & Hbuild & Hpos).
  apply build_trace_content in Hbuild
    as (src & Hsrc & _ & Hx & Hy & _ & Hz & _).
  exists c, tc, q, src. repeat split; try assumption.
  - intros Hnot. rewrite bool_decide_eq_false_2 in Hsrc by exact Hnot.
    by injection Hsrc as <-.
  - intros Hin. rewrite bool_decide_eq_true_2 in Hsrc by exact Hin.
    subst fit. destruct ds_fit as [ds|]; cbn in Hfit; [|discriminate].
    exists ds. split; [reflexivity|].
    by destruct (ds_sel ds q) as [s|]; cbn in Hfit; [injection Hfit as <-|].
Qed.

(** X9: every primitive of the returned figure belongs to a visible trace
    of the configuration and takes from it its kind (a heatmap for plot
    type [heatmap], a scatter primitive for [scatter] and for [line]), its
    name, its hover template, its mode and its style; it carries custom
    data exactly when the trace lists custom data sources.  A configuration
    whose traces are all invisible gives a figure without primitives. *)
Theorem plotly_primitive_follows_trace_config
    (ds_raw : Dataset) (qubits : list AnyTransmon) (config : PlotConfig)
    (rest : list PlotConfig) (ds_fit : option Dataset)
    (grid : PlotlyGrid) (fig : GoFigure) :
  PlotlyQubitGrid ds_raw (map grid_location qubits) = Ok grid ->
  plotly_figure ds_raw qubits (config :: rest) ds_fit = Ok fig ->
  (forall e, e ∈ fig_data fig ->
     exists tc,
       tc ∈ traces config ++ fit_traces config
       /\ visible tc = true
       /\ is_heatmap e.1.1 = bool_decide (plot_type tc = heatmap)
       /\ tp_name (trace_props_of e.1.1) = name tc
       /\ tp_hovertemplate (trace_props_of e.1.1) = hover_template tc
       /\ (tp_customdata (trace_props_of e.1.1) = None
           <-> custom_data_sources tc = [])
       /\ match e.1.1 with
          | Heatmap _ _ _ _ st => st = style tc
          | Scatter _ _ m ln _ => m = mode tc /\ ln = style tc
          end)
  /\ ((forall tc, tc ∈ traces config ++ fit_traces config ->
         visible tc = false) ->
      fig_data fig = []).
Proof.
  intros Hgrid Hfig.
  assert (Hall : forall e, e ∈ fig_data fig ->
            exists tc,
              tc ∈ traces config ++ fit_traces config
              /\ visible tc = true
              /\ is_heatmap e.1.1 = bool_decide (plot_type tc = heatmap)
              /\ tp_name (trace_props_of e.1.1) = name tc
              /\ tp_hovertemplate (trace_props_of e.1.1) = hover_template tc
              /\ (tp_customdata (trace_props_of e.1.1) = None
                  <-> custom_data_sources tc = [])
              /\ match e.1.1 with
                 | Heatmap _ _ _ _ st => st = style tc
                 | Scatter _ _ m ln _ => m = mode tc /\ ln = style tc
                 end).
  { intros e He.
    destruct (plotly_entry_provenance _ _ _ _ _ _ _ _ Hgrid Hfig He)
      as (c & tc & q & raw & fit & _ & Htc & _ & _ & _ & Hbuild & _).
    apply build_trace_content in Hbuild
      as (src & _ & Hvis & _ & _ & Hkind & _ & Hname & Hhover & Hcd & Hst).
    exists tc. repeat split; try assumption; apply Hcd. }
  split; [exact Hall|].
  intros Hinvisible.
  destruct (fig_data fig) as [|e l] eqn:Hd; [reflexivity|].
  destruct (Hall e (list_elem_of_here _ _)) as (tc & Htc & Hvis & _).
  rewrite (Hinvisible tc Htc) in Hvis. discriminate.
Qed.

(** The legend entries of the primitives of the interactive figure. *)
Lemma plotly_legend_entries
    (ds_raw : Dataset) (qubits : list AnyTransmon) (config : PlotConfig)
    (rest : list PlotConfig) (ds_fit : option Dataset)
    (grid : PlotlyGrid) (fig : GoFigure) :
  PlotlyQubitGrid ds_raw (map grid_location qubits) = Ok grid ->
  plotly_figure ds_raw qubits (config :: rest) ds_fit = Ok fig ->
  (forall e, e ∈ fig_data fig ->
     exists c tc,
       c ∈ plotly_grid_iter grid
       /\ tc ∈ traces config ++ fit_traces config
       /\ primitive_of_trace ds_raw ds_fit config c tc e.1.1
       /\ (e.1.2, e.2) = cell_position grid c.1
       /\ tp_legendgroup (trace_props_of e.1.1) = name tc
       /\ (tp_showlegend (trace_props_of e.1.1) = true <-> c.1 = 0))
  /\ (forall c tc t,
        c ∈ plotly_grid_iter grid ->
        tc ∈ traces config ++ fit_traces config ->
        primitive_of_trace ds_raw ds_fit config c tc t ->
        (t, (cell_position grid c.1).1, (cell_position grid c.1).2)
          ∈ fig_data fig
        /\ tp_legendgroup (trace_props_of t) = name tc
        /\ (tp_showlegend (trace_props_of t) = true <-> c.1 = 0))
  /\ (same_fields ds_raw ->
      (forall ds, ds_fit = Some ds -> same_fields ds) ->
      forall c c0 tc t,
        c ∈ plotly_grid_iter grid ->
        c0 ∈ plotly_grid_iter grid -> c0.1 = 0 ->
        tc ∈ traces config ++ fit_traces config ->
        primitive_of_trace ds_raw ds_fit config c tc t ->
        exists t0,
          primitive_of_trace ds_raw ds_fit config c0 tc t0
          /\ (t0, (cell_position grid c0.1).1, (cell_position grid c0.1).2)
               ∈ fig_data fig
          /\ tp_showlegend (trace_props_of t0) = true
          /\ tp_legendgroup (trace_props_of t0) = name tc).
Proof.
  intros Hgrid Hfig.
  pose proof (plotly_figure_data_exact _ _ _ _ _ _ _ Hgrid Hfig) as Hd.
  assert (Hentry : forall c tc t,
            primitive_of_trace ds_raw ds_fit config c tc t ->
            tp_legendgroup (trace_props_of t) = name tc
            /\ (tp_showlegend (trace_props_of t) = true <-> c.1 = 0)).
  { intros c tc t (q & raw & fit & _ & _ & _ & Hbuild).
    apply build_trace_props in Hbuild as (_ & _ & Hgroup & Hshow).
    split; [exact Hgroup|]. rewrite Hshow. apply Z.eqb_eq. }
  assert (Hmember : forall c tc t,
            c ∈ plotly_grid_iter grid ->
            tc ∈ traces config ++ fit_traces config ->
            primitive_of_trace ds_raw ds_fit config c tc t ->
            (t, (cell_position grid c.1).1, (cell_position grid c.1).2)
              ∈ fig_data fig).
  { intros c tc t Hc Htc Hp. rewrite Hd.
    apply list_elem_of_In, in_flat_map. exists c.
    split; [by apply list_elem_of_In|].
    apply list_elem_of_In.
    by apply (elem_of_cell_entries_intro grid config ds_raw ds_fit c tc). }
  split; [|split].
  - intros e He.
    destruct (plotly_entry_provenance _ _ _ _ _ _ _ _ Hgrid Hfig He)
      as (c & tc & q & raw & fit & Hc & Htc & Hq & Hraw & Hfit & Hbuild & Hpos).
    exists c, tc.
    assert (Hp : primitive_of_trace ds_raw ds_fit config c tc e.1.1)
      by (by exists q, raw, fit).
    repeat split; try assumption; by apply (Hentry c tc e.1.1 Hp).
  - intros c tc t Hc Htc Hp.
    split; [by apply (Hmember c tc t)|]. by apply (Hentry c tc t).
  - intros Hsame_raw Hsame_fit c [i0 nd0] tc t Hc Hc0 Hi0 Htc Hp.
    cbn in Hi0. subst i0.
    destruct (plotly_figure_run _ _ _ _ _ _ _ Hgrid Hfig)
      as (titles & fig0 & _ & Hloop & _).
    destruct (for_each_all_ok _ _ _ _ Hloop _ Hc0) as (f1 & f2 & Hbody).
    apply plotly_cell_body_exact in Hbody
      as (_ & (q0 & raw0 & fit0 & Hq0 & Hraw0 & Hfit0 & Hall) & _).
    destruct (Hall tc Htc) as [r0 Hr0].
    destruct r0 as [t0|].
    + exists t0.
      assert (Hp0 : primitive_of_trace ds_raw ds_fit config (0, nd0) tc t0)
        by (by exists q0, raw0, fit0).
      split; [exact Hp0|]. split; [by apply (Hmember (0, nd0) tc t0)|].
      destruct (Hentry _ _ _ Hp0) as [Hgroup Hshow].
      split; [by apply Hshow | exact Hgroup].
    + exfalso.
      by apply (build_trace_on_other_cell ds_raw ds_fit config c tc t 0 q0
                  raw0 fit0 Hsame_raw Hsame_fit Hp Hraw0 Hfit0).
Qed.

End InteractiveBuilder.

(** ** The static loops, pass by pass *)

Lemma add_lines_nil (a : Axes) : add_lines a [] = a.
Proof. destruct a. unfold add_lines. cbn. by rewrite app_nil_r. Qed.

Lemma add_lines_app (a : Axes) (ls ls' : list Line2D) :
  add_lines (add_lines a ls) ls' = add_lines a (ls ++ ls').
Proof. unfold add_lines. cbn. by rewrite app_assoc. Qed.

Lemma with_axes_lookup_eq (fig : MplFigure) (ax : nat) (f : Axes -> Axes) :
  mpl_axes (with_axes fig ax f) !! ax = Some (f (axes_at fig ax)).
Proof. unfold with_axes, axes_at. cbn. by rewrite lookup_insert_eq. Qed.

Lemma with_axes_lookup_ne (fig : MplFigure) (ax ax' : nat)
    (f : Axes -> Axes) :
  ax' <> ax -> mpl_axes (with_axes fig ax f) !! ax' = mpl_axes fig !! ax'.
Proof. intros Hne. unfold with_axes. cbn. by rewrite lookup_insert_ne. Qed.

Lemma axes_at_with_axes (fig : MplFigure) (ax : nat) (f : Axes -> Axes) :
  axes_at (with_axes fig ax f) ax = f (axes_at fig ax).
Proof. unfold axes_at at 1. by rewrite with_axes_lookup_eq. Qed.

Lemma plot_all_spec (ax : nat) (ls : list Line2D) :
  forall fig,
    axes_at (plot_all fig ax ls) ax = add_lines (axes_at fig ax) ls
    /\ (forall ax', ax' <> ax ->
          mpl_axes (plot_all fig ax ls) !! ax' = mpl_axes fig !! ax')
    /\ mpl_suptitle (plot_all fig ax ls) = mpl_suptitle fig
    /\ mpl_legend (plot_all fig ax ls) = mpl_legend fig
    /\ mpl_tight_layout_rect (plot_all fig ax ls) = mpl_tight_layout_rect fig.
Proof.
  unfold plot_all. induction ls as [|l rest IH]; intros fig; cbn [foldl].
  - rewrite add_lines_nil. repeat split; reflexivity.
  - destruct (IH (ax_plot fig ax l)) as (Hat & Hne & Hs & Hl & Hr).
    rewrite Hat, Hs, Hl, Hr. unfold ax_plot at 1.
    rewrite axes_at_with_axes.
    split; [by rewrite <- (add_lines_app _ [l] rest)|].
    split; [|done].
    intros ax' Hax'. rewrite Hne by done. unfold ax_plot.
    by rewrite with_axes_lookup_ne.
Qed.

Lemma plot_all_app (fig : MplFigure) (ax : nat) (ls ls' : list Line2D) :
  plot_all fig ax (ls ++ ls') = plot_all (plot_all fig ax ls) ax ls'.
Proof. unfold plot_all. apply foldl_app. Qed.

Lemma mpl_raw_trace_body_exact (i ax : nat) (raw : Slice)
    (tc : TraceConfig) (fig : MplFigure) :
  mpl_raw_trace_body i ax raw tc fig
  = Ok (plot_all fig ax (drawn_raw_lines i raw [tc])).
Proof.
  unfold mpl_raw_trace_body, drawn_raw_lines, drawable. cbn [flat_map].
  rewrite app_nil_r.
  destruct (visible tc && forallb (ds_contains raw) _) eqn:Hd;
    [|reflexivity].
  apply andb_true_iff in Hd as [_ Hd]. cbn [forallb] in Hd.
  apply andb_true_iff in Hd as [Hx Hy].
  apply andb_true_iff in Hy as [Hy _].
  destruct (ds_contains_getitem raw _ Hx) as [x ->].
  destruct (ds_contains_getitem raw _ Hy) as [y ->].
  reflexivity.
Qed.

Lemma mpl_fit_trace_body_exact (i ax : nat) (s : Slice)
    (tc : TraceConfig) (fig : MplFigure) :
  ds_bool s = true ->
  mpl_fit_trace_body i ax s tc fig
  = Ok (plot_all fig ax (drawn_fit_lines i (Some s) [tc])).
Proof.
  intros Hb. unfold mpl_fit_trace_body, drawn_fit_lines, drawable.
  rewrite Hb. cbn [flat_map]. rewrite app_nil_r.
  destruct (visible tc && forallb (ds_contains s) _) eqn:Hd;
    [|reflexivity].
  apply andb_true_iff in Hd as [_ Hd]. cbn [forallb] in Hd.
  apply andb_true_iff in Hd as [Hx Hy].
  apply andb_true_iff in Hy as [Hy _].
  destruct (ds_contains_getitem s _ Hx) as [x ->].
  destruct (ds_contains_getitem s _ Hy) as [y ->].
  reflexivity.
Qed.

Lemma drawn_raw_lines_cons (i : nat) (raw : Slice) (tc : TraceConfig)
    (rest : list TraceConfig) :
  drawn_raw_lines i raw (tc :: rest)
  = drawn_raw_lines i raw [tc] ++ drawn_raw_lines i raw rest.
Proof. unfold drawn_raw_lines. cbn [flat_map]. by rewrite app_nil_r. Qed.

Lemma drawn_fit_lines_cons (i : nat) (fit : option Slice) (tc : TraceConfig)
    (rest : list TraceConfig) :
  drawn_fit_lines i fit (tc :: rest)
  = drawn_fit_lines i fit [tc] ++ drawn_fit_lines i fit rest.
Proof.
  unfold drawn_fit_lines. destruct fit as [s|]; [|reflexivity].
  destruct (ds_bool s); [|reflexivity].
  cbn [flat_map]. by rewrite app_nil_r.
Qed.

Lemma mpl_raw_loop_exact (i ax : nat) (raw : Slice) (tcs : list TraceConfig) :
  forall fig,
    for_each tcs (mpl_raw_trace_body i ax raw) fig
    = Ok (plot_all fig ax (drawn_raw_lines i raw tcs)).
Proof.
  induction tcs as [|tc rest IH]; intros fig; cbn [for_each]; [reflexivity|].
  rewrite mpl_raw_trace_body_exact, bind_Ok, IH.
  by rewrite (drawn_raw_lines_cons i raw tc rest), plot_all_app.
Qed.

Lemma mpl_fit_loop_exact (i ax : nat) (s : Slice) (tcs : list TraceConfig) :
  ds_bool s = true ->
  forall fig,
    for_each tcs (mpl_fit_trace_body i ax s) fig
    = Ok (plot_all fig ax (drawn_fit_lines i (Some s) tcs)).
Proof.
  intros Hb.
  induction tcs as [|tc rest IH]; intros fig; cbn [for_each].
  - unfold drawn_fit_lines. by rewrite Hb.
  - rewrite mpl_fit_trace_body_exact, bind_Ok, IH by exact Hb.
    by rewrite (drawn_fit_lines_cons i (Some s) tc rest), plot_all_app.
Qed.

(** One pass of the cell loop, when the qubit can be selected: the axes of
    the cell get the series of the raw and fit traces, the labels and the
    title; nothing else changes. *)
Lemma mpl_cell_body_run (config : PlotConfig) (ds_raw : Dataset)
    (ds_fit : option Dataset) (i ax : nat) (nd : NameDict) (fig : MplFigure)
    (q : string) (raw : Slice) (fit : option Slice) :
  first_value nd = Ok q ->
  ds_sel ds_raw q = Ok raw ->
  sel_fit ds_fit q = Ok fit ->
  exists fig',
    mpl_cell_body config ds_raw ds_fit (i, (ax, nd)) fig = Ok fig'
    /\ mpl_axes fig' !! ax
       = Some (drawn_axes (axes_at fig ax) i q config raw fit)
    /\ (forall ax', ax' <> ax -> mpl_axes fig' !! ax' = mpl_axes fig !! ax')
    /\ mpl_suptitle fig' = mpl_suptitle fig
    /\ mpl_legend fig' = mpl_legend fig
    /\ mpl_tight_layout_rect fig' = mpl_tight_layout_rect fig.
Proof.
  intros Hq Hraw Hfit. unfold mpl_cell_body.
  rewrite Hq, bind_Ok, Hraw, bind_Ok.
  change (match ds_fit with
          | Some ds => ds_sel ds q ≫= λ s, Ok (Some s)
          | None => Ok None
          end) with (sel_fit ds_fit q).
  rewrite Hfit, bind_Ok, mpl_raw_loop_exact, bind_Ok.
  set (f1 := plot_all fig ax (drawn_raw_lines i raw (traces config))).
  assert (Hfitloop :
            match fit with
            | Some s =>
                if ds_bool s
                then for_each (fit_traces config) (mpl_fit_trace_body i ax s) f1
                else Ok f1
            | None => Ok f1
            end
            = Ok (plot_all f1 ax (drawn_fit_lines i fit (fit_traces config)))).
  { destruct fit as [s|]; [|reflexivity].
    destruct (ds_bool s) eqn:Hb; [by apply mpl_fit_loop_exact|].
    unfold drawn_fit_lines. by rewrite Hb. }
  rewrite Hfitloop, bind_Ok.
  set (f2 := plot_all f1 ax (drawn_fit_lines i fit (fit_traces config))).
  destruct (plot_all_spec ax (drawn_raw_lines i raw (traces config)) fig)
    as (Hat1 & Hne1 & Hs1 & Hl1 & Hr1).
  destruct (plot_all_spec ax (drawn_fit_lines i fit (fit_traces config)) f1)
    as (Hat2 & Hne2 & Hs2 & Hl2 & Hr2).
  fold f1 in Hat1, Hne1, Hs1, Hl1, Hr1. fold f2 in Hat2, Hne2, Hs2, Hl2, Hr2.
  eexists. split; [reflexivity|].
  split.
  - unfold ax_set_title. rewrite with_axes_lookup_eq.
    unfold ax_set_ylabel. rewrite axes_at_with_axes.
    unfold ax_set_xlabel. rewrite axes_at_with_axes.
    rewrite Hat2, Hat1. unfold drawn_axes, add_lines. cbn.
    by rewrite <- app_assoc.
  - split.
    + intros ax' Hax'.
      unfold ax_set_title, ax_set_ylabel, ax_set_xlabel.
      rewrite !with_axes_lookup_ne by done.
      by rewrite Hne2, Hne1.
    + cbn. by rewrite Hs2, Hs1, Hl2, Hl1, Hr2, Hr1.
Qed.

(** A pass of the cell loop ends well only if the qubit can be selected. *)
Lemma mpl_cell_body_ok_inv (config : PlotConfig) (ds_raw : Dataset)
    (ds_fit : option Dataset) (i ax : nat) (nd : NameDict)
    (fig fig' : MplFigure) :
  mpl_cell_body config ds_raw ds_fit (i, (ax, nd)) fig = Ok fig' ->
  exists q raw fit,
    first_value nd = Ok q /\ ds_sel ds_raw q = Ok raw
    /\ sel_fit ds_fit q = Ok fit.
Proof.
  intros H. unfold mpl_cell_body in H. bind_inv H. bind_inv H. bind_inv H.
  by exists a, a0, a1.
Qed.

Lemma selectable_iff (ds_raw : Dataset) (ds_fit : option Dataset)
    (nd : NameDict) :
  selectable ds_raw ds_fit nd
  <-> exists q raw fit,
        first_value nd = Ok q /\ ds_sel ds_raw q = Ok raw
        /\ sel_fit ds_fit q = Ok fit.
Proof.
  unfold selectable, sel_fit, ds_sel. split.
  - intros (q & Hq & [raw Hraw] & Hfit). exists q, raw.
    destruct ds_fit as [ds|].
    + destruct (Hfit ds eq_refl) as [s Hs]. exists (Some s).
      by rewrite Hraw, Hs.
    + exists None. by rewrite Hraw.
  - intros (q & raw & fit & Hq & Hraw & Hfit). exists q.
    split; [exact Hq|]. split.
    + by destruct (qubit_slices ds_raw !! q).
    + intros ds ->. by destruct (qubit_slices ds !! q).
Qed.

Lemma mpl_cell_loop_exact (config : PlotConfig) (ds_raw : Dataset)
    (ds_fit : option Dataset) (cells : list (nat * (nat * NameDict))) :
  forall fig fig',
    for_each cells (mpl_cell_body config ds_raw ds_fit) fig = Ok fig' ->
    mpl_suptitle fig' = mpl_suptitle fig
    /\ mpl_legend fig' = mpl_legend fig
    /\ mpl_tight_layout_rect fig' = mpl_tight_layout_rect fig
    /\ (forall ax, ax ∉ map (fun c => c.2.1) cells ->
          mpl_axes fig' !! ax = mpl_axes fig !! ax)
    /\ (NoDup (map (fun c => c.2.1) cells) ->
        forall c, c ∈ cells ->
          exists q raw fit,
            first_value c.2.2 = Ok q /\ ds_sel ds_raw q = Ok raw
            /\ sel_fit ds_fit q = Ok fit
            /\ mpl_axes fig' !! c.2.1
               = Some (drawn_axes (axes_at fig c.2.1) c.1 q config raw fit)).
Proof.
  induction cells as [|[i [ax nd]] rest IH]; intros fig fig' H;
    cbn [for_each] in H.
  - injection H as <-. repeat split; try reflexivity.
    intros _ c Hc. by apply elem_of_nil in Hc.
  - bind_inv H.
    destruct (mpl_cell_body_ok_inv _ _ _ _ _ _ _ _ Ha)
      as (q & raw & fit & Hq & Hraw & Hfit).
    destruct (mpl_cell_body_run config ds_raw ds_fit i ax nd fig q raw fit
                Hq Hraw Hfit) as (f1 & Hrun & Hat & Hne & Hs & Hl & Hr).
    rewrite Hrun in Ha. injection Ha as <-.
    destruct (IH f1 fig' H) as (Hs' & Hl' & Hr' & Hother & Hcells).
    rewrite Hs', Hl', Hr', Hs, Hl, Hr.
    split; [reflexivity|]. split; [reflexivity|]. split; [reflexivity|].
    split.
    + intros ax' Hax'. cbn in Hax'.
      apply not_elem_of_cons in Hax' as [Hne' Hrest].
      rewrite Hother by exact Hrest. by apply Hne.
    + intros Hnodup c Hc. cbn in Hnodup.
      apply NoDup_cons in Hnodup as [Hfresh Hnodup].
      apply elem_of_cons in Hc as [-> | Hc].
      * exists q, raw, fit. cbn.
        rewrite Hother by exact Hfresh. done.
      * destruct (Hcells Hnodup c Hc)
          as (q' & raw' & fit' & Hq' & Hraw' & Hfit' & Hlook).
        exists q', raw', fit'. repeat split; try assumption.
        rewrite Hlook. do 2 f_equal. unfold axes_at.
        rewrite Hne; [reflexivity|].
        intros Heq. apply Hfresh. rewrite <- Heq.
        apply list_elem_of_fmap. by exists c.
Qed.

Lemma enumerate_snd {A : Type} (xs : list A) : map snd (enumerate xs) = xs.
Proof.
  unfold enumerate. generalize 0%nat.
  induction xs as [|x rest IH]; intros n; cbn; [reflexivity|].
  by rewrite IH.
Qed.

Lemma enumerate_handles (cells : list (nat * NameDict)) :
  map (fun c : nat * (nat * NameDict) => c.2.1) (enumerate cells)
  = map fst cells.
Proof.
  rewrite <- (enumerate_snd cells) at 2. by rewrite map_map.
Qed.

Lemma drawable_getitem (s : Slice) (tc : TraceConfig) :
  drawable s tc = true ->
  exists x y, ds_getitem s (Some (x_source tc)) = Ok x
              /\ ds_getitem s (Some (y_source tc)) = Ok y.
Proof.
  unfold drawable. intros Hd.
  apply andb_true_iff in Hd as [_ Hd]. cbn [forallb] in Hd.
  apply andb_true_iff in Hd as [Hx Hy].
  apply andb_true_iff in Hy as [Hy _].
  destruct (ds_contains_getitem s _ Hx) as [x Hgx].
  destruct (ds_contains_getitem s _ Hy) as [y Hgy].
  by exists x, y.
Qed.

Lemma drawn_raw_lines_length (i : nat) (raw : Slice) (tcs : list TraceConfig) :
  length (drawn_raw_lines i raw tcs) = length (filter (drawable raw) tcs).
Proof.
  unfold drawn_raw_lines.
  induction tcs as [|tc rest IH]; [reflexivity|].
  cbn [flat_map]. rewrite length_app, IH, filter_cons.
  destruct (drawable raw tc) eqn:Hd.
  - destruct (drawable_getitem raw tc Hd) as (x & y & -> & ->).
    rewrite decide_True by exact I. reflexivity.
  - rewrite decide_False by (cbn; tauto). reflexivity.
Qed.

Lemma drawn_fit_lines_length (i : nat) (s : Slice) (tcs : list TraceConfig) :
  ds_bool s = true ->
  length (drawn_fit_lines i (Some s) tcs) = length (filter (drawable s) tcs).
Proof.
  intros Hb. unfold drawn_fit_lines. rewrite Hb.
  induction tcs as [|tc rest IH]; [reflexivity|].
  cbn [flat_map]. rewrite length_app, IH, filter_cons.
  destruct (drawable s tc) eqn:Hd.
  - destruct (drawable_getitem s tc Hd) as (x & y & -> & ->).
    rewrite decide_True by exact I. reflexivity.
  - rewrite decide_False by (cbn; tauto). reflexivity.
Qed.

Lemma enumerate_lookup {A : Type} (xs : list A) (i : nat) (x : A) :
  xs !! i = Some x -> (i, x) ∈ enumerate xs.
Proof.
  unfold enumerate.
  assert (H : forall n, xs !! i = Some x ->
                (n + i, x)%nat ∈ combine (seq n (length xs)) xs).
  { revert i. induction xs as [|y rest IH]; intros i n Hi; [done|].
    destruct i as [|i]; cbn in *.
    - injection Hi as ->. rewrite Nat.add_0_r. apply list_elem_of_here.
    - apply list_elem_of_further.
      replace (n + S i)%nat with (S n + i)%nat by lia. by apply IH. }
  apply (H 0%nat).
Qed.

Lemma elem_of_enumerate {A : Type} (xs : list A) (x : A) :
  x ∈ xs -> exists i, (i, x) ∈ enumerate xs.
Proof.
  intros Hx. apply list_elem_of_lookup in Hx as [i Hi].
  exists i. by apply enumerate_lookup.
Qed.

Lemma enumerate_elem_of {A : Type} (xs : list A) (c : nat * A) :
  c ∈ enumerate xs -> c.2 ∈ xs.
Proof.
  intros Hc. rewrite <- (enumerate_snd xs).
  apply list_elem_of_fmap. by exists c.
Qed.

Lemma drawn_raw_lines_static (i : nat) (raw : Slice) (tcs : list TraceConfig) :
  drawn_raw_lines i raw (map static_part tcs) = drawn_raw_lines i raw tcs.
Proof.
  unfold drawn_raw_lines.
  induction tcs as [|tc rest IH]; [reflexivity|].
  cbn [map flat_map]. by rewrite IH.
Qed.

Lemma drawn_fit_lines_static (i : nat) (fit : option Slice)
    (tcs : list TraceConfig) :
  drawn_fit_lines i fit (map static_part tcs) = drawn_fit_lines i fit tcs.
Proof.
  unfold drawn_fit_lines. destruct fit as [s|]; [|reflexivity].
  destruct (ds_bool s); [|reflexivity].
  induction tcs as [|tc rest IH]; [reflexivity|].
  cbn [map flat_map]. by rewrite IH.
Qed.

Lemma mpl_cell_body_static (config : PlotConfig) (ds_raw : Dataset)
    (ds_fit : option Dataset) (cell : nat * (nat * NameDict))
    (fig : MplFigure) :
  mpl_cell_body (static_config config) ds_raw ds_fit cell fig
  = mpl_cell_body config ds_raw ds_fit cell fig.
Proof.
  destruct cell as [i [ax nd]]. unfold mpl_cell_body.
  destruct (first_value nd) as [q|e]; [rewrite !bind_Ok | reflexivity].
  destruct (ds_sel ds_raw q) as [raw|e]; [rewrite !bind_Ok | reflexivity].
  destruct (match ds_fit with
            | Some ds => ds_sel ds q ≫= λ s, Ok (Some s)
            | None => Ok None
            end) as [fit|e]; [rewrite !bind_Ok | reflexivity].
  cbn [static_config traces fit_traces layout].
  rewrite !mpl_raw_loop_exact, !bind_Ok, drawn_raw_lines_static.
  destruct fit as [s|]; [|reflexivity].
  destruct (ds_bool s) eqn:Hb; [|reflexivity].
  rewrite !mpl_fit_loop_exact by exact Hb.
  by rewrite drawn_fit_lines_static.
Qed.

(** ** Series and the traces they are drawn for *)

Lemma drawable_same_fields (s s' : Slice) (tc : TraceConfig) :
  (forall k, ds_contains s k = ds_contains s' k) ->
  drawable s tc = drawable s' tc.
Proof. intros H. unfold drawable. cbn [forallb]. by rewrite !H. Qed.

Lemma elem_of_drawn_raw_lines (i : nat) (raw : Slice)
    (tcs : list TraceConfig) (l : Line2D) :
  l ∈ drawn_raw_lines i raw tcs <->
  exists tc x y,
    tc ∈ tcs /\ drawable raw tc = true
    /\ ds_getitem raw (Some (x_source tc)) = Ok x
    /\ ds_getitem raw (Some (y_source tc)) = Ok y
    /\ l = raw_line i x y tc.
Proof.
  unfold drawn_raw_lines. rewrite list_elem_of_In, in_flat_map. split.
  - intros (tc & Htc & Hl). apply list_elem_of_In in Htc.
    destruct (drawable raw tc) eqn:Hd; [|destruct Hl].
    destruct (ds_getitem raw (Some (x_source tc))) as [x|] eqn:Hx;
      [|destruct Hl].
    destruct (ds_getitem raw (Some (y_source tc))) as [y|] eqn:Hy;
      [|destruct Hl].
    destruct Hl as [<- | []]. by exists tc, x, y.
  - intros (tc & x & y & Htc & Hd & Hx & Hy & ->).
    exists tc. split; [by apply list_elem_of_In|].
    rewrite Hd, Hx, Hy. by left.
Qed.

Lemma elem_of_drawn_fit_lines (i : nat) (fit : option Slice)
    (tcs : list TraceConfig) (l : Line2D) :
  l ∈ drawn_fit_lines i fit tcs <->
  exists s tc x y,
    fit = Some s /\ ds_bool s = true
    /\ tc ∈ tcs /\ drawable s tc = true
    /\ ds_getitem s (Some (x_source tc)) = Ok x
    /\ ds_getitem s (Some (y_source tc)) = Ok y
    /\ l = fit_line i x y tc.
Proof.
  unfold drawn_fit_lines. split.
  - destruct fit as [s|]; [|intros H; by apply elem_of_nil in H].
    destruct (ds_bool s) eqn:Hb; [|intros H; by apply elem_of_nil in H].
    rewrite list_elem_of_In, in_flat_map.
    intros (tc & Htc & Hl). apply list_elem_of_In in Htc.
    destruct (drawable s tc) eqn:Hd; [|destruct Hl].
    destruct (ds_getitem s (Some (x_source tc))) as [x|] eqn:Hx;
      [|destruct Hl].
    destruct (ds_getitem s (Some (y_source tc))) as [y|] eqn:Hy;
      [|destruct Hl].
    destruct Hl as [<- | []]. by exists s, tc, x, y.
  - intros (s & tc & x & y & -> & Hb & Htc & Hd & Hx & Hy & ->).
    rewrite Hb, list_elem_of_In, in_flat_map.
    exists tc. split; [by apply list_elem_of_In|].
    rewrite Hd, Hx, Hy. by left.
Qed.

(** The series added on a panel are those drawn for the traces of the
    configuration, and the other way round. *)
Lemma drawn_lines_series (ds_raw : Dataset) (ds_fit : option Dataset)
    (config : PlotConfig) (i : nat) (nd : NameDict) (q : string)
    (raw : Slice) (fit : option Slice) (l : Line2D) :
  first_value nd = Ok q ->
  ds_sel ds_raw q = Ok raw ->
  sel_fit ds_fit q = Ok fit ->
  l ∈ drawn_raw_lines i raw (traces config)
      ++ drawn_fit_lines i fit (fit_traces config)
  <-> exists tc, series_of_trace ds_raw ds_fit config i nd tc l.
Proof.
  intros Hq Hraw Hfit. rewrite elem_of_app. split.
  - intros [Hl | Hl].
    + apply elem_of_drawn_raw_lines in Hl
        as (tc & x & y & Htc & Hd & Hx & Hy & ->).
      exists tc. left. split; [exact Htc|]. by exists q, raw, x, y.
    + apply elem_of_drawn_fit_lines in Hl
        as (s & tc & x & y & -> & Hb & Htc & Hd & Hx & Hy & ->).
      exists tc. right. split; [exact Htc|]. by exists q, s, x, y.
  - intros (tc & [[Htc Hs] | [Htc Hs]]).
    + destruct Hs as (q' & raw' & x & y & Hq' & Hraw' & Hd & Hx & Hy & ->).
      rewrite Hq in Hq'. injection Hq' as <-.
      rewrite Hraw in Hraw'. injection Hraw' as <-.
      left. apply elem_of_drawn_raw_lines. by exists tc, x, y.
    + destruct Hs as (q' & s & x & y & Hq' & Hfit' & Hb & Hd & Hx & Hy & ->).
      rewrite Hq in Hq'. injection Hq' as <-.
      rewrite Hfit in Hfit'. injection Hfit' as ->.
      right. apply elem_of_drawn_fit_lines. by exists s, tc, x, y.
Qed.

Lemma series_of_trace_label (ds_raw : Dataset) (ds_fit : option Dataset)
    (config : PlotConfig) (i : nat) (nd : NameDict) (tc : TraceConfig)
    (l : Line2D) :
  series_of_trace ds_raw ds_fit config i nd tc l ->
  labelled_on_first_axes i tc l.
Proof.
  assert (Hlabel : line_label l = label_of i tc ->
                   labelled_on_first_axes i tc l).
  { intros Hl. unfold labelled_on_first_axes. rewrite Hl. unfold label_of.
    destruct (Nat.eqb_spec i 0) as [->|Hne]; intuition congruence. }
  intros [[_ Hs] | [_ Hs]]; apply Hlabel.
  - by destruct Hs as (q & raw & x & y & _ & _ & _ & _ & _ & ->).
  - by destruct Hs as (q & s & x & y & _ & _ & _ & _ & _ & _ & ->).
Qed.

Lemma series_of_fit_trace_style (ds_fit : option Dataset) (i : nat)
    (nd : NameDict) (tc : TraceConfig) (l : Line2D) :
  series_of_fit_trace ds_fit i nd tc l -> styled_as_fit_trace tc l.
Proof.
  intros (q & s & x & y & _ & _ & _ & _ & _ & _ & ->).
  unfold styled_as_fit_trace. cbn.
  rewrite linestyle_of_spec. unfold dict_get.
  split; [reflexivity|].
  repeat split; try (intros ->; reflexivity).
  - intros v Hv Hnot. rewrite Hv. unfold spec_linestyle.
    destruct v as [d|n]; [|reflexivity].
    repeat (case_decide;
            [subst d; exfalso; apply Hnot; set_solver|]).
    reflexivity.
  - intros c ->. reflexivity.
Qed.

(** A trace drawn on one panel is drawn on every panel whose qubit can be
    selected, when the slices of each dataset share their fields. *)
Lemma series_of_trace_on_other_panel (ds_raw : Dataset)
    (ds_fit : option Dataset) (config : PlotConfig) (i i0 : nat)
    (nd nd0 : NameDict) (tc : TraceConfig) (l : Line2D)
    (q0 : string) (raw0 : Slice) (fit0 : option Slice) :
  same_fields ds_raw ->
  (forall ds, ds_fit = Some ds -> same_fields ds) ->
  series_of_trace ds_raw ds_fit config i nd tc l ->
  first_value nd0 = Ok q0 ->
  ds_sel ds_raw q0 = Ok raw0 ->
  sel_fit ds_fit q0 = Ok fit0 ->
  exists l0, series_of_trace ds_raw ds_fit config i0 nd0 tc l0.
Proof.
  intros Hsame_raw Hsame_fit Hs Hq0 Hraw0 Hfit0.
  destruct Hs as [[Htc Hs] | [Htc Hs]].
  - destruct Hs as (q & raw & x & y & Hq & Hraw & Hd & _).
    apply ds_sel_Ok in Hraw. pose proof Hraw0 as Hraw0'.
    apply ds_sel_Ok in Hraw0'.
    destruct (Hsame_raw q q0 raw raw0 Hraw Hraw0') as [_ Hfields].
    rewrite (drawable_same_fields raw raw0 tc Hfields) in Hd.
    destruct (drawable_getitem raw0 tc Hd) as (x0 & y0 & Hx0 & Hy0).
    exists (raw_line i0 x0 y0 tc). left. split; [exact Htc|].
    by exists q0, raw0, x0, y0.
  - destruct Hs as (q & s & x & y & Hq & Hfit & Hb & Hd & _).
    apply sel_fit_Some in Hfit as (ds & -> & Hs).
    cbn in Hfit0. destruct (ds_sel ds q0) as [s0|] eqn:Hs0;
      cbn in Hfit0; [|discriminate].
    injection Hfit0 as <-.
    apply ds_sel_Ok in Hs. pose proof Hs0 as Hs0'. apply ds_sel_Ok in Hs0'.
    destruct (Hsame_fit ds eq_refl q q0 s s0 Hs Hs0') as [Hbool Hfields].
    rewrite (drawable_same_fields s s0 tc Hfields) in Hd.
    rewrite Hbool in Hb.
    destruct (drawable_getitem s0 tc Hd) as (x0 & y0 & Hx0 & Hy0).
    exists (fit_line i0 x0 y0 tc). right. split; [exact Htc|].
    exists q0, s0, x0, y0. repeat split; try assumption.
    cbn. by rewrite Hs0.
Qed.

Lemma mpl_cell_body_lines (config : PlotConfig) (ds_raw : Dataset)
    (ds_fit : option Dataset) (i ax : nat) (nd : NameDict)
    (fig fig' : MplFigure) :
  mpl_cell_body config ds_raw ds_fit (i, (ax, nd)) fig = Ok fig' ->
  exists q raw fit,
    first_value nd = Ok q /\ ds_sel ds_raw q = Ok raw
    /\ sel_fit ds_fit q = Ok fit
    /\ ax_lines (axes_at fig' ax)
       = ax_lines (axes_at fig ax)
         ++ drawn_raw_lines i raw (traces config)
         ++ drawn_fit_lines i fit (fit_traces config)
    /\ forall ax', ax' <> ax -> axes_at fig' ax' = axes_at fig ax'.
Proof.
  intros H.
  destruct (mpl_cell_body_ok_inv _ _ _ _ _ _ _ _ H)
    as (q & raw & fit & Hq & Hraw & Hfit).
  destruct (mpl_cell_body_run config ds_raw ds_fit i ax nd fig q raw fit
              Hq Hraw Hfit) as (f1 & Hrun & Hat & Hne & _).
  rewrite Hrun in H. injection H as <-.
  exists q, raw, fit. repeat split; try assumption.
  - unfold axes_at at 1. by rewrite Hat.
  - intros ax' Hax'. unfold axes_at. by rewrite Hne.
Qed.

Lemma mpl_cell_loop_lines (config : PlotConfig) (ds_raw : Dataset)
    (ds_fit : option Dataset) (cells : list (nat * (nat * NameDict))) :
  forall fig fig',
    for_each cells (mpl_cell_body config ds_raw ds_fit) fig = Ok fig' ->
    (forall ax l, l ∈ ax_lines (axes_at fig ax) ->
                  l ∈ ax_lines (axes_at fig' ax))
    /\ (forall i ax nd, (i, (ax, nd)) ∈ cells ->
          exists q raw fit,
            first_value nd = Ok q /\ ds_sel ds_raw q = Ok raw
            /\ sel_fit ds_fit q = Ok fit
            /\ forall l,
                 l ∈ drawn_raw_lines i raw (traces config)
                     ++ drawn_fit_lines i fit (fit_traces config) ->
                 l ∈ ax_lines (axes_at fig' ax))
    /\ (forall ax l, l ∈ ax_lines (axes_at fig' ax) ->
          l ∈ ax_lines (axes_at fig ax)
          \/ exists i nd q raw fit,
               (i, (ax, nd)) ∈ cells
               /\ first_value nd = Ok q /\ ds_sel ds_raw q = Ok raw
               /\ sel_fit ds_fit q = Ok fit
               /\ l ∈ drawn_raw_lines i raw (traces config)
                      ++ drawn_fit_lines i fit (fit_traces config)).
Proof.
  induction cells as [|[i [ax nd]] rest IH]; intros fig fig' H;
    cbn [for_each] in H.
  - injection H as <-. split; [done|]. split.
    + intros i ax nd Hc. by apply elem_of_nil in Hc.
    + intros ax l Hl. by left.
  - bind_inv H.
    destruct (mpl_cell_body_lines _ _ _ _ _ _ _ _ Ha)
      as (q & raw & fit & Hq & Hraw & Hfit & Hat & Hne).
    destruct (IH a fig' H) as (Hgrow & Hin & Hout).
    assert (Hstep : forall ax' l, l ∈ ax_lines (axes_at fig ax') ->
                                  l ∈ ax_lines (axes_at a ax')).
    { intros ax' l Hl. destruct (decide (ax' = ax)) as [->|Hax'].
      - rewrite Hat. apply elem_of_app. by left.
      - by rewrite Hne. }
    split; [|split].
    + intros ax' l Hl. by apply Hgrow, Hstep.
    + intros i' ax' nd' Hc. apply elem_of_cons in Hc as [[= -> -> ->] | Hc].
      * exists q, raw, fit. repeat split; try assumption.
        intros l Hl. apply Hgrow. rewrite Hat. apply elem_of_app. by right.
      * by apply Hin.
    + intros ax' l Hl. destruct (Hout ax' l Hl) as [Hl' | Hl'].
      * destruct (decide (ax' = ax)) as [->|Hax'].
        -- rewrite Hat in Hl'. apply elem_of_app in Hl' as [Hl' | Hl'];
             [by left|].
           right. exists i, nd, q, raw, fit.
           repeat split; try assumption. apply list_elem_of_here.
        -- left. by rewrite Hne in Hl'.
      * destruct Hl' as (i' & nd' & q' & raw' & fit' & Hc & Hrest).
        right. exists i', nd', q', raw', fit'.
        split; [by apply list_elem_of_further | exact Hrest].
Qed.

Lemma enumerate_first {A : Type} (xs : list A) (c : nat * A) :
  c ∈ enumerate xs -> exists x0, xs !! 0%nat = Some x0.
Proof.
  destruct xs as [|x0 rest]; [intros H; by apply elem_of_nil in H|].
  intros _. by exists x0.
Qed.

(** ** Fit traces and the truth value of the fit slice, series by series *)


Lemma existsb_named_static (tcs : list TraceConfig) :
  existsb (fun t => str_truthy (name t)) (map static_part tcs)
  = existsb (fun t => str_truthy (name t)) tcs.
Proof.
  induction tcs as [|tc rest IH]; [reflexivity|].
  cbn [map existsb]. by rewrite IH.
Qed.

Section StaticBuilder.

Variable QubitGrid : Dataset -> list string -> result MplGrid.
Variable grid_iter : MplGrid -> list (nat * NameDict).

Local Abbreviation matplotlib_figure :=
  (create_matplotlib_figure QubitGrid grid_iter).

(** The pieces of a successful run. *)
Lemma matplotlib_figure_run
    (ds_raw : Dataset) (qubits : list AnyTransmon) (config : PlotConfig)
    (rest : list PlotConfig) (ds_fit : option Dataset)
    (grid : MplGrid) (fig : MplFigure) :
  QubitGrid ds_raw (map grid_location qubits) = Ok grid ->
  matplotlib_figure ds_raw qubits (config :: rest) ds_fit = Ok fig ->
  exists fig0,
    for_each (enumerate (grid_iter grid))
      (mpl_cell_body config ds_raw ds_fit)
      (fig_suptitle (grid_fig grid) (title (layout config))) = Ok fig0
    /\ fig = fig_tight_layout
               (if existsb (fun t => str_truthy (name t))
                           (traces config ++ fit_traces config)
                then fig_legend_call fig0 else fig0)
               ["0"; "0.03"; "1"; "0.95"].
Proof.
  intros Hgrid Hfig. unfold create_matplotlib_figure in Hfig.
  rewrite Hgrid, bind_Ok in Hfig. bind_inv Hfig.
  injection Hfig as <-. by exists a.
Qed.

(** The axes of the figure returned are those the cell loop left. *)
Lemma matplotlib_figure_axes
    (ds_raw : Dataset) (qubits : list AnyTransmon) (config : PlotConfig)
    (rest : list PlotConfig) (ds_fit : option Dataset)
    (grid : MplGrid) (fig : MplFigure) :
  QubitGrid ds_raw (map grid_location qubits) = Ok grid ->
  matplotlib_figure ds_raw qubits (config :: rest) ds_fit = Ok fig ->
  (forall ax, ax ∉ map fst (grid_iter grid) ->
     mpl_axes fig !! ax = mpl_axes (grid_fig grid) !! ax)
  /\ (NoDup (map fst (grid_iter grid)) ->
      forall i ax nd, grid_iter grid !! i = Some (ax, nd) ->
        exists q raw fit,
          first_value nd = Ok q /\ ds_sel ds_raw q = Ok raw
          /\ sel_fit ds_fit q = Ok fit
          /\ mpl_axes fig !! ax
             = Some (drawn_axes (axes_at (grid_fig grid) ax) i q config
                       raw fit)).
Proof.
  intros Hgrid Hfig.
  destruct (matplotlib_figure_run _ _ _ _ _ _ _ Hgrid Hfig)
    as (fig0 & Hloop & ->).
  apply mpl_cell_loop_exact in Hloop as (_ & _ & _ & Hother & Hcells).
  rewrite enumerate_handles in Hother, Hcells.
  assert (Haxes : mpl_axes
                    (fig_tight_layout
                       (if existsb (fun t => str_truthy (name t))
                                   (traces config ++ fit_traces config)
                        then fig_legend_call fig0 else fig0)
                       ["0"; "0.03"; "1"; "0.95"]) = mpl_axes fig0).
  { by destruct (existsb _ _). }
  rewrite Haxes. split.
  - intros ax Hax. by rewrite Hother.
  - intros Hnodup i ax nd Hi.
    apply enumerate_lookup in Hi.
    destruct (Hcells Hnodup (i, (ax, nd)) Hi)
      as (q & raw & fit & Hq & Hraw & Hfit & Hlook).
    exists q, raw, fit. repeat split; assumption.
Qed.

(** What the figure holds on each axes: what the grid's figure had there,
    and the series of the traces drawn on the panels of that axes. *)
Lemma matplotlib_figure_series
    (ds_raw : Dataset) (qubits : list AnyTransmon) (config : PlotConfig)
    (rest : list PlotConfig) (ds_fit : option Dataset)
    (grid : MplGrid) (fig : MplFigure) :
  QubitGrid ds_raw (map grid_location qubits) = Ok grid ->
  matplotlib_figure ds_raw qubits (config :: rest) ds_fit = Ok fig ->
  (forall i ax nd, (i, (ax, nd)) ∈ enumerate (grid_iter grid) ->
     exists q raw fit,
       first_value nd = Ok q /\ ds_sel ds_raw q = Ok raw
       /\ sel_fit ds_fit q = Ok fit)
  /\ (forall i ax nd tc l,
        (i, (ax, nd)) ∈ enumerate (grid_iter grid) ->
        series_of_trace ds_raw ds_fit config i nd tc l ->
        l ∈ ax_lines (axes_at fig ax))
  /\ (forall ax l, l ∈ ax_lines (axes_at fig ax) ->
        l ∈ ax_lines (axes_at (grid_fig grid) ax)
        \/ exists i nd tc,
             (i, (ax, nd)) ∈ enumerate (grid_iter grid)
             /\ series_of_trace ds_raw ds_fit config i nd tc l).
Proof.
  intros Hgrid Hfig.
  destruct (matplotlib_figure_run _ _ _ _ _ _ _ Hgrid Hfig)
    as (fig0 & Hloop & ->).
  apply mpl_cell_loop_lines in Hloop as (_ & Hin & Hout).
  assert (Hat : forall ax,
            axes_at (fig_tight_layout
                       (if existsb (fun t => str_truthy (name t))
                                   (traces config ++ fit_traces config)
                        then fig_legend_call fig0 else fig0)
                       ["0"; "0.03"; "1"; "0.95"]) ax
            = axes_at fig0 ax).
  { intros ax. unfold axes_at. by destruct (existsb _ _). }
  split; [|split].
  - intros i ax nd Hc.
    destruct (Hin i ax nd Hc) as (q & raw & fit & Hq & Hraw & Hfit & _).
    by exists q, raw, fit.
  - intros i ax nd tc l Hc Hs. rewrite Hat.
    destruct (Hin i ax nd Hc) as (q & raw & fit & Hq & Hraw & Hfit & Hl).
    apply Hl. apply (drawn_lines_series ds_raw ds_fit config i nd q raw fit l
                       Hq Hraw Hfit). by exists tc.
  - intros ax l Hl. rewrite Hat in Hl.
    destruct (Hout ax l Hl)
      as [Hl' | (i & nd & q & raw & fit & Hc & Hq & Hraw & Hfit & Hl')].
    + by left.
    + right. exists i, nd.
      apply (drawn_lines_series ds_raw ds_fit config i nd q raw fit l
               Hq Hraw Hfit) in Hl' as [tc Hs].
      by exists tc.
Qed.

(** The labels of the series of the static figure. *)
Lemma matplotlib_legend_labels
    (ds_raw : Dataset) (qubits : list AnyTransmon) (config : PlotConfig)
    (rest : list PlotConfig) (ds_fit : option Dataset)
    (grid : MplGrid) (fig : MplFigure) :
  QubitGrid ds_raw (map grid_location qubits) = Ok grid ->
  matplotlib_figure ds_raw qubits (config :: rest) ds_fit = Ok fig ->
  (forall ax l, l ∈ ax_lines (axes_at fig ax) ->
     l ∈ ax_lines (axes_at (grid_fig grid) ax)
     \/ exists i nd tc,
          (i, (ax, nd)) ∈ enumerate (grid_iter grid)
          /\ series_of_trace ds_raw ds_fit config i nd tc l
          /\ labelled_on_first_axes i tc l)
  /\ (forall i ax nd tc l,
        (i, (ax, nd)) ∈ enumerate (grid_iter grid) ->
        series_of_trace ds_raw ds_fit config i nd tc l ->
        l ∈ ax_lines (axes_at fig ax) /\ labelled_on_first_axes i tc l)
  /\ (same_fields ds_raw ->
      (forall ds, ds_fit = Some ds -> same_fields ds) ->
      forall i ax nd tc l,
        (i, (ax, nd)) ∈ enumerate (grid_iter grid) ->
        series_of_trace ds_raw ds_fit config i nd tc l ->
        exists ax0 nd0 l0,
          grid_iter grid !! 0%nat = Some (ax0, nd0)
          /\ series_of_trace ds_raw ds_fit config 0 nd0 tc l0
          /\ l0 ∈ ax_lines (axes_at fig ax0)
          /\ line_label l0 = name tc).
Proof.
  intros Hgrid Hfig.
  destruct (matplotlib_figure_series _ _ _ _ _ _ _ Hgrid Hfig)
    as (Hsel & Hin & Hout).
  split; [|split].
  - intros ax l Hl.
    destruct (Hout ax l Hl) as [Hl' | (i & nd & tc & Hc & Hs)]; [by left|].
    right. exists i, nd, tc. split; [exact Hc|]. split; [exact Hs|].
    by apply (series_of_trace_label ds_raw ds_fit config i nd).
  - intros i ax nd tc l Hc Hs. split; [by apply (Hin i ax nd tc)|].
    by apply (series_of_trace_label ds_raw ds_fit config i nd).
  - intros Hsame_raw Hsame_fit i ax nd tc l Hc Hs.
    destruct (enumerate_first _ _ Hc) as [[ax0 nd0] H0].
    pose proof (enumerate_lookup _ _ _ H0) as Hc0.
    destruct (Hsel 0%nat ax0 nd0 Hc0) as (q0 & raw0 & fit0 & Hq0 & Hraw0 & Hfit0).
    destruct (series_of_trace_on_other_panel ds_raw ds_fit config i 0%nat
                nd nd0 tc l q0 raw0 fit0 Hsame_raw Hsame_fit Hs Hq0 Hraw0
                Hfit0) as [l0 Hs0].
    exists ax0, nd0, l0. split; [exact H0|]. split; [exact Hs0|].
    split; [by apply (Hin 0%nat ax0 nd0 tc)|].
    destruct (series_of_trace_label _ _ _ _ _ _ _ Hs0) as (Hfirst & _).
    by apply Hfirst.
Qed.

(** ** Style of the fit series *)

(** C7: every fit trace the static builder draws has its series on the
    axes of its panel with the linestyle the fixed table gives for the
    [dash] entry of its own style (solid [-], dot [:], dash [--],
    longdash [-.], dashdot [-.]), the linestyle [--] when [dash] is
    missing or holds anything else, and the colour of the [color] entry of
    its style, red when there is none.  Conversely every series of the
    figure is one the grid's figure had, the series of a raw trace, or the
    series of a fit trace styled in this way. *)
Theorem fit_trace_linestyle_and_color
    (ds_raw : Dataset) (qubits : list AnyTransmon) (config : PlotConfig)
    (rest : list PlotConfig) (ds_fit : option Dataset)
    (grid : MplGrid) (fig : MplFigure) :
  QubitGrid ds_raw (map grid_location qubits) = Ok grid ->
  matplotlib_figure ds_raw qubits (config :: rest) ds_fit = Ok fig ->
  (forall i ax nd tc l,
     (i, (ax, nd)) ∈ enumerate (grid_iter grid) ->
     tc ∈ fit_traces config ->
     series_of_fit_trace ds_fit i nd tc l ->
     l ∈ ax_lines (axes_at fig ax) /\ styled_as_fit_trace tc l)
  /\ (forall ax l, l ∈ ax_lines (axes_at fig ax) ->
        l ∈ ax_lines (axes_at (grid_fig grid) ax)
        \/ (exists i nd tc,
              (i, (ax, nd)) ∈ enumerate (grid_iter grid)
              /\ tc ∈ traces config
              /\ series_of_raw_trace ds_raw i nd tc l)
        \/ (exists i nd tc,
              (i, (ax, nd)) ∈ enumerate (grid_iter grid)
              /\ tc ∈ fit_traces config
              /\ series_of_fit_trace ds_fit i nd tc l
              /\ styled_as_fit_trace tc l)).
Proof.
  intros Hgrid Hfig.
  destruct (matplotlib_figure_series _ _ _ _ _ _ _ Hgrid Hfig)
    as (_ & Hin & Hout).
  split.
  - intros i ax nd tc l Hc Htc Hs. split.
    + apply (Hin i ax nd tc l Hc). by right.
    + by apply (series_of_fit_trace_style ds_fit i nd).
  - intros ax l Hl.
    destruct (Hout ax l Hl)
      as [Hl' | (i & nd & tc & Hc & [[Htc Hs] | [Htc Hs]])].
    + by left.
    + right; left. by exists i, nd, tc.
    + right; right. exists i, nd, tc. repeat split; try assumption.
      all: by apply (series_of_fit_trace_style ds_fit i nd tc l Hs).
Qed.

(** X11: the static builder returns a figure only if the name mapping of
    every yielded panel is non-empty and its qubit can be selected in the
    raw dataset and, when a fit dataset is given, in the fit dataset,
    whether or not the configuration has fit traces. *)
Theorem matplotlib_figure_needs_selectable_qubits
    (ds_raw : Dataset) (qubits : list AnyTransmon) (config : PlotConfig)
    (rest : list PlotConfig) (ds_fit : option Dataset)
    (grid : MplGrid) (fig : MplFigure) :
  QubitGrid ds_raw (map grid_location qubits) = Ok grid ->
  matplotlib_figure ds_raw qubits (config :: rest) ds_fit = Ok fig ->
  forall p, p ∈ grid_iter grid -> selectable ds_raw ds_fit p.2.
Proof.
  intros Hgrid Hfig [ax nd] Hp.
  destruct (matplotlib_figure_run _ _ _ _ _ _ _ Hgrid Hfig)
    as (fig0 & Hloop & _).
  destruct (elem_of_enumerate _ _ Hp) as [i Hi].
  destruct (for_each_all_ok _ _ _ _ Hloop _ Hi) as (f1 & f2 & Hbody).
  apply selectable_iff. by apply mpl_cell_body_ok_inv in Hbody.
Qed.

(** X12: the figure the static builder returns has the title of the
    layout configuration as its overall title and the layout rectangle
    [0, 0.03, 1, 0.95]; it has a shared legend as soon as one trace of the
    raw or of the fit list has a non-empty name, drawn or not, and
    otherwise keeps the legend state of the grid's figure. *)
Theorem matplotlib_figure_wide_settings
    (ds_raw : Dataset) (qubits : list AnyTransmon) (config : PlotConfig)
    (rest : list PlotConfig) (ds_fit : option Dataset)
    (grid : MplGrid) (fig : MplFigure) :
  QubitGrid ds_raw (map grid_location qubits) = Ok grid ->
  matplotlib_figure ds_raw qubits (config :: rest) ds_fit = Ok fig ->
  mpl_suptitle fig = Some (title (layout config))
  /\ mpl_tight_layout_rect fig = Some ["0"; "0.03"; "1"; "0.95"]
  /\ ((exists tc, tc ∈ traces config ++ fit_traces config /\ name tc <> "") ->
      mpl_legend fig = true)
  /\ ((forall tc, tc ∈ traces config ++ fit_traces config -> name tc = "") ->
      mpl_legend fig = mpl_legend (grid_fig grid)).
Proof.
  intros Hgrid Hfig.
  destruct (matplotlib_figure_run _ _ _ _ _ _ _ Hgrid Hfig)
    as (fig0 & Hloop & ->).
  apply mpl_cell_loop_exact in Hloop as (Hs & Hl & _).
  cbn in Hs, Hl.
  split; [by destruct (existsb _ _); cbn; rewrite Hs|].
  split; [reflexivity|]. split.
  - intros (tc & Htc & Hname).
    assert (Hex : existsb (fun t => str_truthy (name t))
                    (traces config ++ fit_traces config) = true).
    { apply existsb_exists. exists tc. split; [by apply list_elem_of_In|].
      unfold str_truthy. by apply bool_decide_eq_true. }
    by rewrite Hex.
  - intros Hnames.
    assert (Hex : existsb (fun t => str_truthy (name t))
                    (traces config ++ fit_traces config) = false).
    { apply not_true_iff_false. intros Hex.
      apply existsb_exists in Hex as (tc & Htc & Htruthy).
      apply list_elem_of_In in Htc. unfold str_truthy in Htruthy.
      apply bool_decide_eq_true in Htruthy. by apply Htruthy, Hnames. }
    rewrite Hex. cbn. exact Hl.
Qed.

(** X13: when the yielded axes are pairwise distinct, the axes of the
    [i]-th yielded panel hold, after what the grid's figure had on them,
    the series of the visible raw traces whose x and y sources are in the
    raw slice of the panel's qubit, in the order of the raw list, followed
    by the series of the visible fit traces whose sources are in the fit
    slice, when there is a fit slice with a data variable. *)
Theorem matplotlib_series_of_yielded_axes
    (ds_raw : Dataset) (qubits : list AnyTransmon) (config : PlotConfig)
    (rest : list PlotConfig) (ds_fit : option Dataset)
    (grid : MplGrid) (fig : MplFigure) (i ax : nat) (nd : NameDict) :
  QubitGrid ds_raw (map grid_location qubits) = Ok grid ->
  matplotlib_figure ds_raw qubits (config :: rest) ds_fit = Ok fig ->
  NoDup (map fst (grid_iter grid)) ->
  grid_iter grid !! i = Some (ax, nd) ->
  exists q raw fit a,
    first_value nd = Ok q /\ ds_sel ds_raw q = Ok raw
    /\ sel_fit ds_fit q = Ok fit
    /\ mpl_axes fig !! ax = Some a
    /\ ax_lines a
       = ax_lines (axes_at (grid_fig grid) ax)
         ++ drawn_raw_lines i raw (traces config)
         ++ drawn_fit_lines i fit (fit_traces config).
Proof.
  intros Hgrid Hfig Hnodup Hi.
  destruct (matplotlib_figure_axes _ _ _ _ _ _ _ Hgrid Hfig) as [_ Hcells].
  destruct (Hcells Hnodup i ax nd Hi)
    as (q & raw & fit & Hq & Hraw & Hfit & Hlook).
  exists q, raw, fit. eexists. repeat split; try eassumption. reflexivity.
Qed.

(** X14: under the same condition, the number of series the builder adds
    to the axes of a yielded panel is the number of visible raw traces with
    both sources in the raw slice plus, when the fit slice has a data
    variable, the number of visible fit traces with both sources in the fit
    slice. *)
Theorem matplotlib_series_count
    (ds_raw : Dataset) (qubits : list AnyTransmon) (config : PlotConfig)
    (rest : list PlotConfig) (ds_fit : option Dataset)
    (grid : MplGrid) (fig : MplFigure) (i ax : nat) (nd : NameDict) :
  QubitGrid ds_raw (map grid_location qubits) = Ok grid ->
  matplotlib_figure ds_raw qubits (config :: rest) ds_fit = Ok fig ->
  NoDup (map fst (grid_iter grid)) ->
  grid_iter grid !! i = Some (ax, nd) ->
  exists q raw fit a,
    first_value nd = Ok q /\ ds_sel ds_raw q = Ok raw
    /\ sel_fit ds_fit q = Ok fit
    /\ mpl_axes fig !! ax = Some a
    /\ length (ax_lines a)
       = (length (ax_lines (axes_at (grid_fig grid) ax))
          + length (filter (drawable raw) (traces config))
          + match fit with
            | Some s =>
                if ds_bool s
                then length (filter (drawable s) (fit_traces config))
                else 0
            | None => 0
            end)%nat.
Proof.
  intros Hgrid Hfig Hnodup Hi.
  destruct (matplotlib_figure_axes _ _ _ _ _ _ _ Hgrid Hfig) as [_ Hcells].
  destruct (Hcells Hnodup i ax nd Hi)
    as (q & raw & fit & Hq & Hraw & Hfit & Hlook).
  exists q, raw, fit. eexists. repeat split; try eassumption.
  cbn. rewrite !length_app, drawn_raw_lines_length.
  destruct fit as [s|]; [|cbn; lia].
  destruct (ds_bool s) eqn:Hb.
  - rewrite drawn_fit_lines_length by exact Hb. lia.
  - unfold drawn_fit_lines. rewrite Hb. cbn. lia.
Qed.

(** X15: under the same condition, the axes of every yielded panel carry
    the x and y axis titles of the layout configuration and the title
    ["Qubit <id>"] of the panel's qubit. *)
Theorem matplotlib_labels_of_yielded_axes
    (ds_raw : Dataset) (qubits : list AnyTransmon) (config : PlotConfig)
    (rest : list PlotConfig) (ds_fit : option Dataset)
    (grid : MplGrid) (fig : MplFigure) (i ax : nat) (nd : NameDict) :
  QubitGrid ds_raw (map grid_location qubits) = Ok grid ->
  matplotlib_figure ds_raw qubits (config :: rest) ds_fit = Ok fig ->
  NoDup (map fst (grid_iter grid)) ->
  grid_iter grid !! i = Some (ax, nd) ->
  exists q a,
    first_value nd = Ok q
    /\ mpl_axes fig !! ax = Some a
    /\ ax_xlabel a = Some (x_axis_title (layout config))
    /\ ax_ylabel a = Some (y_axis_title (layout config))
    /\ ax_title a = Some ("Qubit " +:+ q).
Proof.
  intros Hgrid Hfig Hnodup Hi.
  destruct (matplotlib_figure_axes _ _ _ _ _ _ _ Hgrid Hfig) as [_ Hcells].
  destruct (Hcells Hnodup i ax nd Hi)
    as (q & raw & fit & Hq & Hraw & Hfit & Hlook).
  exists q. eexists. repeat split; try eassumption; reflexivity.
Qed.

(** X16: the axes of the grid's figure that the iteration helper does not
    yield are left as the grid provider made them. *)
Theorem matplotlib_axes_not_yielded_untouched
    (ds_raw : Dataset) (qubits : list AnyTransmon) (config : PlotConfig)
    (rest : list PlotConfig) (ds_fit : option Dataset)
    (grid : MplGrid) (fig : MplFigure) (ax : nat) :
  QubitGrid ds_raw (map grid_location qubits) = Ok grid ->
  matplotlib_figure ds_raw qubits (config :: rest) ds_fit = Ok fig ->
  ax ∉ map fst (grid_iter grid) ->
  mpl_axes fig !! ax = mpl_axes (grid_fig grid) !! ax.
Proof.
  intros Hgrid Hfig Hax.
  destruct (matplotlib_figure_axes _ _ _ _ _ _ _ Hgrid Hfig) as [Hother _].
  by apply Hother.
Qed.

(** X17: the static builder reads of a trace only its x and y sources,
    its name, its style and its visibility: with the plot type, the
    [z_source], the mode, the hover template and the custom data sources of
    every trace replaced, it returns the same result.  A heatmap trace is
    thus drawn as a series over its x and y sources. *)
Theorem matplotlib_ignores_interactive_fields
    (ds_raw : Dataset) (qubits : list AnyTransmon) (config : PlotConfig)
    (rest : list PlotConfig) (ds_fit : option Dataset) :
  matplotlib_figure ds_raw qubits (static_config config :: rest) ds_fit
  = matplotlib_figure ds_raw qubits (config :: rest) ds_fit.
Proof.
  unfold create_matplotlib_figure.
  destruct (QubitGrid ds_raw (map grid_location qubits)) as [grid|e];
    [rewrite !bind_Ok | reflexivity].
  rewrite (for_each_ext _ (mpl_cell_body (static_config config) ds_raw ds_fit)
                          (mpl_cell_body config ds_raw ds_fit))
    by (intros; apply mpl_cell_body_static).
  cbn [static_config traces fit_traces layout].
  by rewrite <- map_app, existsb_named_static.
Qed.

End StaticBuilder.

Section BothBuilders.

Variable PlotlyQubitGrid : Dataset -> list string -> result PlotlyGrid.
Variable plotly_grid_iter : PlotlyGrid -> list (Z * NameDict).
Variable QubitGrid : Dataset -> list string -> result MplGrid.
Variable grid_iter : MplGrid -> list (nat * NameDict).

(** ** Legend entries *)

(** C6: a trace drawn in several panels has its legend entry on the panel
    of index 0 only.

    Interactive builder.  Every primitive of the figure is the one built
    for a configured trace in a yielded cell, its legend group is the name
    of that trace and its legend visibility is true iff the cell index
    is 0.  Every trace drawn in a cell has its primitive in the figure, so
    the primitive of the cell of index 0 carries the entry and those of the
    other cells do not.  When the slices of each dataset share their
    fields, a trace drawn in any cell is drawn in a yielded cell of
    index 0, with the entry.

    Static builder.  Every series the builder drew is the one drawn for a
    configured trace on a yielded panel, from that trace's own sources,
    and its label is the name of that trace on the panel of enumeration
    index 0 and the empty string on the others.  Every trace drawn on a
    panel has its series on the axes of the panel.  When the slices of
    each dataset share their fields, a trace drawn on any panel is drawn on
    the first panel, labelled with its name. *)
Theorem legend_entry_only_on_first_panel
    (ds_raw : Dataset) (qubits : list AnyTransmon) (config : PlotConfig)
    (rest : list PlotConfig) (ds_fit : option Dataset) :
  (forall grid fig,
     PlotlyQubitGrid ds_raw (map grid_location qubits) = Ok grid ->
     create_plotly_figure PlotlyQubitGrid plotly_grid_iter ds_raw qubits
       (config :: rest) ds_fit = Ok fig ->
     (forall e, e ∈ fig_data fig ->
        exists c tc,
          c ∈ plotly_grid_iter grid
          /\ tc ∈ traces config ++ fit_traces config
          /\ primitive_of_trace ds_raw ds_fit config c tc e.1.1
          /\ (e.1.2, e.2) = cell_position grid c.1
          /\ tp_legendgroup (trace_props_of e.1.1) = name tc
          /\ (tp_showlegend (trace_props_of e.1.1) = true <-> c.1 = 0))
     /\ (forall c tc t,
           c ∈ plotly_grid_iter grid ->
           tc ∈ traces config ++ fit_traces config ->
           primitive_of_trace ds_raw ds_fit config c tc t ->
           (t, (cell_position grid c.1).1, (cell_position grid c.1).2)
             ∈ fig_data fig
           /\ tp_legendgroup (trace_props_of t) = name tc
           /\ (tp_showlegend (trace_props_of t) = true <-> c.1 = 0))
     /\ (same_fields ds_raw ->
         (forall ds, ds_fit = Some ds -> same_fields ds) ->
         forall c c0 tc t,
           c ∈ plotly_grid_iter grid ->
           c0 ∈ plotly_grid_iter grid -> c0.1 = 0 ->
           tc ∈ traces config ++ fit_traces config ->
           primitive_of_trace ds_raw ds_fit config c tc t ->
           exists t0,
             primitive_of_trace ds_raw ds_fit config c0 tc t0
             /\ (t0, (cell_position grid c0.1).1, (cell_position grid c0.1).2)
                  ∈ fig_data fig
             /\ tp_showlegend (trace_props_of t0) = true
             /\ tp_legendgroup (trace_props_of t0) = name tc))
  /\
  (forall grid fig,
     QubitGrid ds_raw (map grid_location qubits) = Ok grid ->
     create_matplotlib_figure QubitGrid grid_iter ds_raw qubits
       (config :: rest) ds_fit = Ok fig ->
     (forall ax l, l ∈ ax_lines (axes_at fig ax) ->
        l ∈ ax_lines (axes_at (grid_fig grid) ax)
        \/ exists i nd tc,
             (i, (ax, nd)) ∈ enumerate (grid_iter grid)
             /\ series_of_trace ds_raw ds_fit config i nd tc l
             /\ labelled_on_first_axes i tc l)
     /\ (forall i ax nd tc l,
           (i, (ax, nd)) ∈ enumerate (grid_iter grid) ->
           series_of_trace ds_raw ds_fit config i nd tc l ->
           l ∈ ax_lines (axes_at fig ax) /\ labelled_on_first_axes i tc l)
     /\ (same_fields ds_raw ->
         (forall ds, ds_fit = Some ds -> same_fields ds) ->
         forall i ax nd tc l,
           (i, (ax, nd)) ∈ enumerate (grid_iter grid) ->
           series_of_trace ds_raw ds_fit config i nd tc l ->
           exists ax0 nd0 l0,
             grid_iter grid !! 0%nat = Some (ax0, nd0)
             /\ series_of_trace ds_raw ds_fit config 0 nd0 tc l0
             /\ l0 ∈ ax_lines (axes_at fig ax0)
             /\ line_label l0 = name tc)).
Proof.
  split.
  - intros grid fig Hgrid Hfig.
    exact (plotly_legend_entries PlotlyQubitGrid plotly_grid_iter
             ds_raw qubits config rest ds_fit grid fig Hgrid Hfig).
  - intros grid fig Hgrid Hfig.
    exact (matplotlib_legend_labels QubitGrid grid_iter
             ds_raw qubits config rest ds_fit grid fig Hgrid Hfig).
Qed.

End BothBuilders.

(** * The builders on the example chip *)

(** ** The figures the properties speak about exist *)

Lemma plotly_figure_height_and_width_witness :
  ex_PlotlyQubitGrid ex_ds_raw (map grid_location ex_qubits) = Ok ex_plotly_grid
  /\ ex_plotly_figure = Ok ex_go_fig
  /\ fig_height ex_go_fig = Some 700
  /\ fig_width ex_go_fig = Some 1050.
Proof.
  assert (Hg : ex_PlotlyQubitGrid ex_ds_raw (map grid_location ex_qubits)
               = Ok ex_plotly_grid) by reflexivity.
  assert (Hf : ex_plotly_figure = Ok ex_go_fig) by (vm_compute; reflexivity).
  split; [exact Hg|]. split; [exact Hf|].
  destruct (plotly_figure_height_and_width
              ex_PlotlyQubitGrid ex_plotly_grid_iter ex_ds_raw ex_qubits
              ex_config_raw_fit [] (Some ex_ds_fit) ex_plotly_grid ex_go_fig
              Hg Hf) as (_ & _ & H).
  apply H; reflexivity.
Defined.

(** ** Where the builders part from the specification *)

(** C3: a [z_source] should be asked for of heatmap traces only.  The
    interactive builder asks for it of every trace that sets one: a visible
    scatter trace whose [x_source] and [y_source] are in the raw slice and
    whose [z_source] names a field the slice does not have is dropped from
    every panel, where the same trace without the [z_source] gives one
    primitive per panel and where the static builder draws the trace on
    each of its six axes. *)
Theorem scatter_with_absent_z_source_not_drawn :
  visible ex_trace_with_z = true
  /\ plot_type ex_trace_with_z = scatter
  /\ ds_contains ex_raw_slice (x_source ex_trace_with_z) = true
  /\ ds_contains ex_raw_slice (y_source ex_trace_with_z) = true
  /\ z_source ex_trace_with_z = Some "z"
  /\ ds_contains ex_raw_slice "z" = false
  /\ ~ (exists t, build_trace 0 (ex_config [ex_trace_with_z] []) ex_raw_slice
                    None ex_trace_with_z = Ok (Some t))
  /\ fig_data <$> create_plotly_figure ex_PlotlyQubitGrid ex_plotly_grid_iter
                    ex_ds_raw ex_qubits [ex_config [ex_trace_with_z] []] None
     = Ok []
  /\ (length <$>
        (fig_data <$> create_plotly_figure ex_PlotlyQubitGrid
                        ex_plotly_grid_iter ex_ds_raw ex_qubits
                        [ex_config [ex_trace] []] None))
     = Ok 6%nat
  /\ (length <$>
        (all_lines <$> create_matplotlib_figure ex_QubitGrid ex_grid_iter
                         ex_ds_raw ex_qubits [ex_config [ex_trace_with_z] []]
                         None))
     = Ok 6%nat.
Proof.
  repeat split; try (vm_compute; reflexivity).
  intros [t Ht]. vm_compute in Ht. discriminate.
Qed.

(** C1: a raw trace that equals a trace of the fit list field for field is
    taken for a fit trace.  With raw [x = [1, 2]] and fit [x = [10, 20]],
    the raw list holds the trace, yet each of the twelve primitives of the
    figure (two per panel) carries the fit values and none the raw ones. *)
Theorem raw_trace_equal_to_fit_trace_reads_fit_data :
  ex_trace ∈ traces ex_config_same
  /\ ds_getitem ex_raw_slice (Some (x_source ex_trace)) = Ok (arr1 [1; 2])
  /\ ds_getitem ex_fit_slice (Some (x_source ex_trace)) = Ok (arr1 [10; 20])
  /\ build_trace 0 ex_config_same ex_raw_slice (Some ex_fit_slice) ex_trace
     = Ok (Some (Scatter (arr1 [10; 20]) (arr1 [30; 40])
                   (Some "lines+markers") ∅
                   {| tp_name := "T"; tp_hovertemplate := None;
                      tp_customdata := None; tp_legendgroup := "T";
                      tp_showlegend := true |}))
  /\ (map (fun e => trace_x e.1.1) <$>
        (fig_data <$> create_plotly_figure ex_PlotlyQubitGrid
                        ex_plotly_grid_iter ex_ds_raw ex_qubits
                        [ex_config_same] (Some ex_ds_fit)))
     = Ok (replicate 12 (arr1 [10; 20])).
Proof.
  split; [left|].
  repeat split; vm_compute; reflexivity.
Qed.

(** C2: a visible trace whose [x_source] and [y_source] are in the slice
    and whose [custom_data_sources] name a field the slice does not have is
    not skipped: the lookup raises [KeyError] and no figure is returned. *)
Theorem missing_custom_data_source_raises :
  visible ex_trace_with_custom = true
  /\ ds_contains ex_raw_slice (x_source ex_trace_with_custom) = true
  /\ ds_contains ex_raw_slice (y_source ex_trace_with_custom) = true
  /\ custom_data_sources ex_trace_with_custom = ["detuning"]
  /\ ds_contains ex_raw_slice "detuning" = false
  /\ build_trace 0 (ex_config [ex_trace_with_custom] []) ex_raw_slice None
       ex_trace_with_custom = Raise KeyError
  /\ create_plotly_figure ex_PlotlyQubitGrid ex_plotly_grid_iter
       ex_ds_raw ex_qubits [ex_config [ex_trace_with_custom] []] None
     = Raise KeyError.
Proof.
  repeat split; vm_compute; reflexivity.
Qed.

(** C4: without a fit dataset, a raw trace that equals a trace of the fit
    list is skipped with the fit traces by the interactive builder: the
    figure has no primitive, where the same call without the fit list has
    one per panel, and where the static builder draws the raw trace on each
    of its six axes. *)
Theorem no_fit_dataset_drops_equal_raw_trace :
  ex_trace ∈ traces ex_config_same
  /\ fig_data <$> create_plotly_figure ex_PlotlyQubitGrid ex_plotly_grid_iter
                    ex_ds_raw ex_qubits [ex_config_same] None
     = Ok []
  /\ (length <$>
        (fig_data <$> create_plotly_figure ex_PlotlyQubitGrid
                        ex_plotly_grid_iter ex_ds_raw ex_qubits
                        [ex_config [ex_trace] []] None))
     = Ok 6%nat
  /\ (length <$>
        (all_lines <$> create_matplotlib_figure ex_QubitGrid ex_grid_iter
                         ex_ds_raw ex_qubits [ex_config_same] None))
     = Ok 6%nat.
Proof.
  split; [left|].
  repeat split; vm_compute; reflexivity.
Qed.

(** ** Further behaviour, on the example chip *)

(** Splits a membership in a list given by its elements into one case per
    element. *)
Ltac list_cases H :=
  repeat (apply elem_of_cons in H as [H|H]; [subst|]);
  try (apply elem_of_nil in H; contradiction).

Lemma ex_plotly_figure_ok : ex_plotly_figure = Ok ex_go_fig.
Proof. vm_compute. reflexivity. Defined.

Lemma ex_matplotlib_figure_ok : ex_matplotlib_figure = Ok ex_mpl_fig.
Proof. vm_compute. reflexivity. Defined.

Lemma ex_scatter0_in_figure : (ex_scatter0, 1, 1) ∈ fig_data ex_go_fig.
Proof. vm_compute. left. Defined.

Lemma ex_handles_distinct : NoDup (map fst (ex_grid_iter ex_mpl_grid)).
Proof. apply (bool_decide_unpack _). vm_compute. exact I. Defined.

Lemma ex_selectable (q : string) :
  q ∈ ex_qubit_ids ->
  selectable ex_ds_raw (Some ex_ds_fit) [("qubit", q)].
Proof.
  intros Hq. exists q. split; [reflexivity|].
  unfold ex_qubit_ids in Hq. list_cases Hq;
    (split; [vm_compute; eexists; reflexivity|]);
    intros ds [= <-]; vm_compute; eexists; reflexivity.
Defined.

Lemma plotly_figure_grid_titles_and_layout_witness :
  exists titles,
    fig_grid ex_go_fig
    = Some {| sg_rows := n_rows ex_plotly_grid;
              sg_cols := n_cols ex_plotly_grid;
              sg_subplot_titles := titles;
              sg_horizontal_spacing := "0.1";
              sg_vertical_spacing := "0.2" |}
    /\ Forall2 (fun nd t => exists q, first_value nd = Ok q
                                      /\ t = "Qubit " +:+ q)
               (name_dicts ex_plotly_grid) titles
    /\ fig_title_text ex_go_fig = Some (title (layout ex_config_raw_fit))
    /\ fig_legend ex_go_fig = Some (legend (layout ex_config_raw_fit)).
Proof.
  exact (plotly_figure_grid_titles_and_layout
           ex_PlotlyQubitGrid ex_plotly_grid_iter ex_ds_raw ex_qubits
           ex_config_raw_fit [] (Some ex_ds_fit) ex_plotly_grid ex_go_fig
           eq_refl ex_plotly_figure_ok).
Defined.

Lemma plotly_figure_primitives_in_order_witness :
  fig_data ex_go_fig
  = flat_map (cell_entries ex_plotly_grid ex_config_raw_fit ex_ds_raw
                (Some ex_ds_fit))
             (ex_plotly_grid_iter ex_plotly_grid)
  /\ (length (fig_data ex_go_fig)
      <= length (ex_plotly_grid_iter ex_plotly_grid)
         * (length (traces ex_config_raw_fit)
            + length (fit_traces ex_config_raw_fit)))%nat.
Proof.
  exact (plotly_figure_primitives_in_order
           ex_PlotlyQubitGrid ex_plotly_grid_iter ex_ds_raw ex_qubits
           ex_config_raw_fit [] (Some ex_ds_fit) ex_plotly_grid ex_go_fig
           eq_refl ex_plotly_figure_ok).
Defined.

Lemma plotly_primitives_within_grid_witness :
  1 <= 1 <= n_rows ex_plotly_grid /\ 1 <= 1 <= n_cols ex_plotly_grid
  /\ exists c, c ∈ ex_plotly_grid_iter ex_plotly_grid
               /\ (1 - 1) * n_cols ex_plotly_grid + (1 - 1) = c.1.
Proof.
  assert (Hcols : 0 < n_cols ex_plotly_grid) by reflexivity.
  assert (Hrange : forall c, c ∈ ex_plotly_grid_iter ex_plotly_grid ->
                     0 <= c.1 < n_rows ex_plotly_grid * n_cols ex_plotly_grid).
  { intros c Hc. vm_compute in Hc. list_cases Hc; cbn; lia. }
  destruct (plotly_primitives_within_grid
              ex_PlotlyQubitGrid ex_plotly_grid_iter ex_ds_raw ex_qubits
              ex_config_raw_fit [] (Some ex_ds_fit) ex_plotly_grid ex_go_fig
              eq_refl ex_plotly_figure_ok Hcols Hrange) as [Hin _].
  exact (Hin (ex_scatter0, 1, 1) ex_scatter0_in_figure).
Defined.

Lemma plotly_figure_needs_selectable_qubits_witness :
  n_cols ex_plotly_grid <> 0
  /\ selectable ex_ds_raw (Some ex_ds_fit) [("qubit", "q0")].
Proof.
  destruct (plotly_figure_needs_selectable_qubits
              ex_PlotlyQubitGrid ex_plotly_grid_iter ex_ds_raw ex_qubits
              ex_config_raw_fit [] (Some ex_ds_fit) ex_plotly_grid ex_go_fig
              eq_refl ex_plotly_figure_ok) as [_ Hcells].
  apply (Hcells (0, [("qubit", "q0")])). vm_compute. left.
Defined.

Lemma plotly_primitive_data_source_witness :
  exists c tc q src,
    c ∈ ex_plotly_grid_iter ex_plotly_grid
    /\ tc ∈ traces ex_config_raw_fit ++ fit_traces ex_config_raw_fit
    /\ first_value c.2 = Ok q
    /\ (1, 1) = cell_position ex_plotly_grid c.1
    /\ (tc ∉ fit_traces ex_config_raw_fit -> ds_sel ex_ds_raw q = Ok src)
    /\ (tc ∈ fit_traces ex_config_raw_fit ->
        exists ds, Some ex_ds_fit = Some ds /\ ds_sel ds q = Ok src)
    /\ ds_getitem src (Some (x_source tc)) = Ok (trace_x ex_scatter0)
    /\ ds_getitem src (Some (y_source tc)) = Ok (trace_y ex_scatter0)
    /\ (forall z, trace_z ex_scatter0 = Some z ->
          ds_getitem src (z_source tc) = Ok z).
Proof.
  exact (plotly_primitive_data_source
           ex_PlotlyQubitGrid ex_plotly_grid_iter ex_ds_raw ex_qubits
           ex_config_raw_fit [] (Some ex_ds_fit) ex_plotly_grid ex_go_fig
           (ex_scatter0, 1, 1) eq_refl ex_plotly_figure_ok
           ex_scatter0_in_figure).
Defined.

Lemma heatmap_style_repeating_keyword_raises_witness :
  ds_contains ex_raw_slice "x" = true
  /\ ds_contains ex_raw_slice "y" = true
  /\ is_Some (style ex_heatmap_named_style !! "name")
  /\ build_trace 0 (ex_config [ex_heatmap_named_style] []) ex_raw_slice None
       ex_heatmap_named_style = Raise TypeError.
Proof.
  assert (Hx : ds_contains ex_raw_slice "x" = true) by (vm_compute; reflexivity).
  assert (Hy : ds_contains ex_raw_slice "y" = true) by (vm_compute; reflexivity).
  assert (Hs : is_Some (style ex_heatmap_named_style !! "name"))
    by (vm_compute; eexists; reflexivity).
  split; [exact Hx|]. split; [exact Hy|]. split; [exact Hs|].
  apply (heatmap_style_repeating_keyword_raises
           0 (ex_config [ex_heatmap_named_style] []) ex_raw_slice None
           ex_heatmap_named_style ex_raw_slice "y" "name");
    try reflexivity; try assumption.
  unfold heatmap_bound_kwargs. do 3 right. left.
Defined.


Lemma plotly_primitive_follows_trace_config_witness :
  exists tc,
    tc ∈ traces ex_config_raw_fit ++ fit_traces ex_config_raw_fit
    /\ visible tc = true
    /\ is_heatmap ex_scatter0 = bool_decide (plot_type tc = heatmap)
    /\ tp_name (trace_props_of ex_scatter0) = name tc
    /\ tp_hovertemplate (trace_props_of ex_scatter0) = hover_template tc
    /\ (tp_customdata (trace_props_of ex_scatter0) = None
        <-> custom_data_sources tc = [])
    /\ match ex_scatter0 with
       | Heatmap _ _ _ _ st => st = style tc
       | Scatter _ _ m ln _ => m = mode tc /\ ln = style tc
       end.
Proof.
  destruct (plotly_primitive_follows_trace_config
              ex_PlotlyQubitGrid ex_plotly_grid_iter ex_ds_raw ex_qubits
              ex_config_raw_fit [] (Some ex_ds_fit) ex_plotly_grid ex_go_fig
              eq_refl ex_plotly_figure_ok) as [Hall _].
  exact (Hall (ex_scatter0, 1, 1) ex_scatter0_in_figure).
Defined.

Lemma matplotlib_figure_wide_settings_witness :
  mpl_suptitle ex_mpl_fig = Some "Resonator spectroscopy"
  /\ mpl_tight_layout_rect ex_mpl_fig = Some ["0"; "0.03"; "1"; "0.95"]
  /\ mpl_legend ex_mpl_fig = true.
Proof.
  destruct (matplotlib_figure_wide_settings
              ex_QubitGrid ex_grid_iter ex_ds_raw ex_qubits ex_config_raw_fit
              [] (Some ex_ds_fit) ex_mpl_grid ex_mpl_fig eq_refl
              ex_matplotlib_figure_ok) as (Ht & Hr & Hl & _).
  split; [exact Ht|]. split; [exact Hr|].
  apply Hl. exists ex_trace. split; [left | discriminate].
Defined.

Lemma matplotlib_series_of_yielded_axes_witness :
  exists q raw fit a,
    first_value [("qubit", "q0")] = Ok q /\ ds_sel ex_ds_raw q = Ok raw
    /\ sel_fit (Some ex_ds_fit) q = Ok fit
    /\ mpl_axes ex_mpl_fig !! 0%nat = Some a
    /\ ax_lines a
       = ax_lines (axes_at (grid_fig ex_mpl_grid) 0)
         ++ drawn_raw_lines 0 raw (traces ex_config_raw_fit)
         ++ drawn_fit_lines 0 fit (fit_traces ex_config_raw_fit).
Proof.
  exact (matplotlib_series_of_yielded_axes
           ex_QubitGrid ex_grid_iter ex_ds_raw ex_qubits ex_config_raw_fit []
           (Some ex_ds_fit) ex_mpl_grid ex_mpl_fig 0%nat 0%nat
           [("qubit", "q0")] eq_refl ex_matplotlib_figure_ok
           ex_handles_distinct eq_refl).
Defined.

Lemma matplotlib_series_count_witness :
  exists q raw fit a,
    first_value [("qubit", "q0")] = Ok q /\ ds_sel ex_ds_raw q = Ok raw
    /\ sel_fit (Some ex_ds_fit) q = Ok fit
    /\ mpl_axes ex_mpl_fig !! 0%nat = Some a
    /\ length (ax_lines a)
       = (length (ax_lines (axes_at (grid_fig ex_mpl_grid) 0))
          + length (filter (drawable raw) (traces ex_config_raw_fit))
          + match fit with
            | Some s =>
                if ds_bool s
                then length (filter (drawable s)
                               (fit_traces ex_config_raw_fit))
                else 0
            | None => 0
            end)%nat.
Proof.
  exact (matplotlib_series_count
           ex_QubitGrid ex_grid_iter ex_ds_raw ex_qubits ex_config_raw_fit []
           (Some ex_ds_fit) ex_mpl_grid ex_mpl_fig 0%nat 0%nat
           [("qubit", "q0")] eq_refl ex_matplotlib_figure_ok
           ex_handles_distinct eq_refl).
Defined.

Lemma matplotlib_labels_of_yielded_axes_witness :
  exists q a,
    first_value [("qubit", "q0")] = Ok q
    /\ mpl_axes ex_mpl_fig !! 0%nat = Some a
    /\ ax_xlabel a = Some (x_axis_title (layout ex_config_raw_fit))
    /\ ax_ylabel a = Some (y_axis_title (layout ex_config_raw_fit))
    /\ ax_title a = Some ("Qubit " +:+ q).
Proof.
  exact (matplotlib_labels_of_yielded_axes
           ex_QubitGrid ex_grid_iter ex_ds_raw ex_qubits ex_config_raw_fit []
           (Some ex_ds_fit) ex_mpl_grid ex_mpl_fig 0%nat 0%nat
           [("qubit", "q0")] eq_refl ex_matplotlib_figure_ok
           ex_handles_distinct eq_refl).
Defined.

Lemma matplotlib_figure_falsy_fit_dataset_witness :
  create_matplotlib_figure ex_QubitGrid ex_grid_iter ex_ds_raw ex_qubits
    [ex_config_raw_fit] (Some ex_ds_fit_coords_only)
  = create_matplotlib_figure ex_QubitGrid ex_grid_iter ex_ds_raw ex_qubits
      [ex_config_raw_fit] None.
Proof.
  apply (matplotlib_figure_falsy_fit_dataset
           ex_QubitGrid ex_grid_iter ex_ds_raw ex_ds_fit_coords_only
           ex_qubits [ex_config_raw_fit]).
  intros grid ax nd [= <-] Hin. vm_compute in Hin.
  list_cases Hin; injection Hin as -> ->;
    (eexists; exists ex_coords_only_slice;
     split; [reflexivity|]; split; [vm_compute; reflexivity | reflexivity]).
Defined.

Lemma plotly_figure_without_fit_dataset_witness :
  create_plotly_figure ex_PlotlyQubitGrid ex_plotly_grid_iter ex_ds_raw
    ex_qubits [ex_config_raw_fit] None
  = create_plotly_figure ex_PlotlyQubitGrid ex_plotly_grid_iter ex_ds_raw
      ex_qubits [raw_only ex_config_raw_fit] None.
Proof.
  apply (plotly_figure_without_fit_dataset
           ex_PlotlyQubitGrid ex_plotly_grid_iter ex_ds_raw ex_qubits
           ex_config_raw_fit []).
  intros tc Htc. cbn in Htc. list_cases Htc.
  apply (bool_decide_unpack _). vm_compute. exact I.
Defined.

(** ** Legend entries, styles and skipped fit traces on the example chip *)

(** Every slice of an example dataset is the one slice it was made of. *)
Lemma ex_dataset_same_fields (s : Slice) : same_fields (ex_dataset s).
Proof.
  assert (Hall : forall q s', qubit_slices (ex_dataset s) !! q = Some s' ->
                   s' = s).
  { intros q s' H. unfold ex_dataset, qubit_slices in H.
    apply elem_of_list_to_map_2 in H.
    apply list_elem_of_fmap in H as (q' & Heq & _). by injection Heq. }
  intros q q' s1 s2 H1 H2.
  apply Hall in H1. apply Hall in H2. subst. by split.
Defined.

Lemma ex_primitive_of_trace (i : Z) (q : string) (t : GoTrace) :
  ds_sel ex_ds_raw q = Ok ex_raw_slice ->
  sel_fit (Some ex_ds_fit) q = Ok (Some ex_fit_slice) ->
  build_trace i ex_config_raw_fit ex_raw_slice (Some ex_fit_slice) ex_trace
  = Ok (Some t) ->
  primitive_of_trace ex_ds_raw (Some ex_ds_fit) ex_config_raw_fit
    (i, [("qubit", q)]) ex_trace t.
Proof.
  intros Hraw Hfit Ht. exists q, ex_raw_slice, (Some ex_fit_slice).
  repeat split; assumption.
Defined.

Lemma ex_series_of_raw_trace (i : nat) (q : string) :
  ds_sel ex_ds_raw q = Ok ex_raw_slice ->
  series_of_trace ex_ds_raw (Some ex_ds_fit) ex_config_raw_fit i
    [("qubit", q)] ex_trace (raw_line i (arr1 [1; 2]) (arr1 [3; 4]) ex_trace).
Proof.
  intros Hraw. left. split; [cbn; left|].
  exists q, ex_raw_slice, (arr1 [1; 2]), (arr1 [3; 4]).
  repeat split; try assumption; vm_compute; reflexivity.
Defined.

Lemma legend_entry_only_on_first_panel_witness :
  (* interactive builder: the primitive of cell 0 carries the entry *)
  ((ex_scatter0, (cell_position ex_plotly_grid 0).1,
     (cell_position ex_plotly_grid 0).2) ∈ fig_data ex_go_fig
   /\ tp_legendgroup (trace_props_of ex_scatter0) = name ex_trace
   /\ (tp_showlegend (trace_props_of ex_scatter0) = true <-> 0 = 0))
  (* the primitive of cell 4 does not *)
  /\ ((ex_scatter4, (cell_position ex_plotly_grid 4).1,
        (cell_position ex_plotly_grid 4).2) ∈ fig_data ex_go_fig
      /\ tp_legendgroup (trace_props_of ex_scatter4) = name ex_trace
      /\ (tp_showlegend (trace_props_of ex_scatter4) = true <-> 4 = 0))
  (* the trace drawn in cell 4 has its entry in cell 0 *)
  /\ (exists t0,
        primitive_of_trace ex_ds_raw (Some ex_ds_fit) ex_config_raw_fit
          (0, [("qubit", "q0")]) ex_trace t0
        /\ (t0, (cell_position ex_plotly_grid 0).1,
             (cell_position ex_plotly_grid 0).2) ∈ fig_data ex_go_fig
        /\ tp_showlegend (trace_props_of t0) = true
        /\ tp_legendgroup (trace_props_of t0) = name ex_trace)
  (* static builder: the series of the first panel is labelled *)
  /\ (ex_raw_line0 ∈ ax_lines (axes_at ex_mpl_fig 0)
      /\ labelled_on_first_axes 0 ex_trace ex_raw_line0)
  (* the series of the fourth panel is not *)
  /\ (ex_raw_line3 ∈ ax_lines (axes_at ex_mpl_fig 3)
      /\ labelled_on_first_axes 3 ex_trace ex_raw_line3)
  (* the trace drawn on the fourth panel is labelled on the first *)
  /\ (exists ax0 nd0 l0,
        ex_grid_iter ex_mpl_grid !! 0%nat = Some (ax0, nd0)
        /\ series_of_trace ex_ds_raw (Some ex_ds_fit) ex_config_raw_fit 0
             nd0 ex_trace l0
        /\ l0 ∈ ax_lines (axes_at ex_mpl_fig ax0)
        /\ line_label l0 = name ex_trace).
Proof.
  destruct (legend_entry_only_on_first_panel
              ex_PlotlyQubitGrid ex_plotly_grid_iter ex_QubitGrid ex_grid_iter
              ex_ds_raw ex_qubits ex_config_raw_fit [] (Some ex_ds_fit))
    as [Hplotly Hmpl].
  destruct (Hplotly ex_plotly_grid ex_go_fig eq_refl ex_plotly_figure_ok)
    as (_ & Hdrawn & Hfirst).
  destruct (Hmpl ex_mpl_grid ex_mpl_fig eq_refl ex_matplotlib_figure_ok)
    as (_ & Hseries & Hlabel).
  assert (Hfit_same : forall ds, Some ex_ds_fit = Some ds -> same_fields ds).
  { intros ds [= <-]. apply ex_dataset_same_fields. }
  assert (Hin : forall (c : Z * NameDict),
            bool_decide (c ∈ ex_plotly_grid_iter ex_plotly_grid) = true ->
            c ∈ ex_plotly_grid_iter ex_plotly_grid).
  { intros c H. by apply bool_decide_eq_true in H. }
  assert (Htc : ex_trace ∈ traces ex_config_raw_fit
                           ++ fit_traces ex_config_raw_fit) by (cbn; left).
  assert (Hp0 : primitive_of_trace ex_ds_raw (Some ex_ds_fit)
                  ex_config_raw_fit (0, [("qubit", "q0")]) ex_trace
                  ex_scatter0).
  { apply ex_primitive_of_trace; vm_compute; reflexivity. }
  assert (Hp4 : primitive_of_trace ex_ds_raw (Some ex_ds_fit)
                  ex_config_raw_fit (4, [("qubit", "q4")]) ex_trace
                  ex_scatter4).
  { apply ex_primitive_of_trace; vm_compute; reflexivity. }
  assert (Hc0 : (0, [("qubit", "q0")]) ∈ ex_plotly_grid_iter ex_plotly_grid)
    by (apply Hin; vm_compute; reflexivity).
  assert (Hc4 : (4, [("qubit", "q4")]) ∈ ex_plotly_grid_iter ex_plotly_grid)
    by (apply Hin; vm_compute; reflexivity).
  assert (He0 : (0%nat, (0%nat, [("qubit", "q0")]))
                  ∈ enumerate (ex_grid_iter ex_mpl_grid))
    by (apply (bool_decide_unpack _); vm_compute; exact I).
  assert (He3 : (3%nat, (3%nat, [("qubit", "q3")]))
                  ∈ enumerate (ex_grid_iter ex_mpl_grid))
    by (apply (bool_decide_unpack _); vm_compute; exact I).
  assert (Hs0 : series_of_trace ex_ds_raw (Some ex_ds_fit) ex_config_raw_fit
                  0 [("qubit", "q0")] ex_trace ex_raw_line0).
  { apply ex_series_of_raw_trace. vm_compute. reflexivity. }
  assert (Hs3 : series_of_trace ex_ds_raw (Some ex_ds_fit) ex_config_raw_fit
                  3 [("qubit", "q3")] ex_trace ex_raw_line3).
  { apply ex_series_of_raw_trace. vm_compute. reflexivity. }
  split; [exact (Hdrawn _ _ _ Hc0 Htc Hp0)|].
  split; [exact (Hdrawn _ _ _ Hc4 Htc Hp4)|].
  split.
  { exact (Hfirst (ex_dataset_same_fields _) Hfit_same _ _ _ _
             Hc4 Hc0 eq_refl Htc Hp4). }
  split; [exact (Hseries _ _ _ _ _ He0 Hs0)|].
  split; [exact (Hseries _ _ _ _ _ He3 Hs3)|].
  exact (Hlabel (ex_dataset_same_fields _) Hfit_same _ _ _ _ _ He3 Hs3).
Defined.

Lemma fit_trace_linestyle_and_color_witness :
  ex_fit_line_dot3 ∈ ax_lines (axes_at ex_mpl_fig_dot 3)
  /\ styled_as_fit_trace ex_fit_trace_dot ex_fit_line_dot3
  /\ line_linestyle ex_fit_line_dot3 = ":"
  /\ line_color ex_fit_line_dot3 = Some (SStr "green").
Proof.
  assert (Hfig : create_matplotlib_figure ex_QubitGrid ex_grid_iter ex_ds_raw
                   ex_qubits [ex_config_dot] (Some ex_ds_fit)
                 = Ok ex_mpl_fig_dot) by (vm_compute; reflexivity).
  destruct (fit_trace_linestyle_and_color
              ex_QubitGrid ex_grid_iter ex_ds_raw ex_qubits ex_config_dot []
              (Some ex_ds_fit) ex_mpl_grid ex_mpl_fig_dot eq_refl Hfig)
    as [Hdrawn _].
  assert (He3 : (3%nat, (3%nat, [("qubit", "q3")]))
                  ∈ enumerate (ex_grid_iter ex_mpl_grid))
    by (apply (bool_decide_unpack _); vm_compute; exact I).
  assert (Htc : ex_fit_trace_dot ∈ fit_traces ex_config_dot) by (cbn; left).
  assert (Hs : series_of_fit_trace (Some ex_ds_fit) 3 [("qubit", "q3")]
                 ex_fit_trace_dot ex_fit_line_dot3).
  { exists "q3", ex_fit_slice, (arr1 [10; 20]), (arr1 [30; 40]).
    repeat split; vm_compute; reflexivity. }
  destruct (Hdrawn _ _ _ _ _ He3 Htc Hs) as [Hl Hstyle].
  split; [exact Hl|]. split; [exact Hstyle|].
  split; vm_compute; reflexivity.
Defined.


Lemma plotly_figure_axis_titles_witness :
  (1 <= 1 <= n_rows ex_plotly_grid /\ 1 <= 1 <= n_cols ex_plotly_grid
   /\ fig_xaxis_titles ex_go_fig !! (1, 1)
      = Some (x_axis_title (layout ex_config_raw_fit))
   /\ fig_yaxis_titles ex_go_fig !! (1, 1)
      = Some (y_axis_title (layout ex_config_raw_fit)))
  /\ fig_xaxis_titles ex_go_fig !! (3, 1) = None
  /\ fig_yaxis_titles ex_go_fig !! (3, 1) = None.
Proof.
  assert (Hcols : 0 < n_cols ex_plotly_grid) by reflexivity.
  assert (Hrange : forall c, c ∈ ex_plotly_grid_iter ex_plotly_grid ->
                     0 <= c.1 < n_rows ex_plotly_grid * n_cols ex_plotly_grid).
  { intros c Hc. vm_compute in Hc. list_cases Hc; cbn; lia. }
  pose proof (plotly_figure_axis_titles
                ex_PlotlyQubitGrid ex_plotly_grid_iter ex_ds_raw ex_qubits
                ex_config_raw_fit [] (Some ex_ds_fit) ex_plotly_grid ex_go_fig
                eq_refl ex_plotly_figure_ok Hcols Hrange) as H.
  split.
  - apply (H (1, 1)). apply (bool_decide_unpack _). vm_compute. exact I.
  - apply (H (3, 1)). apply (bool_decide_unpack _). vm_compute. exact I.
Defined.

Lemma matplotlib_figure_needs_selectable_qubits_witness :
  selectable ex_ds_raw (Some ex_ds_fit) [("qubit", "q2")].
Proof.
  apply (matplotlib_figure_needs_selectable_qubits
           ex_QubitGrid ex_grid_iter ex_ds_raw ex_qubits ex_config_raw_fit []
           (Some ex_ds_fit) ex_mpl_grid ex_mpl_fig eq_refl
           ex_matplotlib_figure_ok (2%nat, [("qubit", "q2")])).
  apply (bool_decide_unpack _). vm_compute. exact I.
Defined.

Lemma matplotlib_axes_not_yielded_untouched_witness :
  (6%nat ∉ map fst (ex_grid_iter ex_mpl_grid_spare))
  /\ mpl_axes (grid_fig ex_mpl_grid_spare) !! 6%nat = Some ex_spare_axes
  /\ mpl_axes ex_mpl_fig_spare !! 6%nat = Some ex_spare_axes.
Proof.
  assert (Hax : 6%nat ∉ map fst (ex_grid_iter ex_mpl_grid_spare))
    by (apply (bool_decide_unpack _); vm_compute; exact I).
  assert (Hgrid : mpl_axes (grid_fig ex_mpl_grid_spare) !! 6%nat
                  = Some ex_spare_axes) by (vm_compute; reflexivity).
  assert (Hfig : create_matplotlib_figure ex_QubitGrid_spare ex_grid_iter
                   ex_ds_raw ex_qubits [ex_config_raw_fit] (Some ex_ds_fit)
                 = Ok ex_mpl_fig_spare) by (vm_compute; reflexivity).
  split; [exact Hax|]. split; [exact Hgrid|].
  rewrite <- Hgrid.
  exact (matplotlib_axes_not_yielded_untouched
           ex_QubitGrid_spare ex_grid_iter ex_ds_raw ex_qubits
           ex_config_raw_fit [] (Some ex_ds_fit) ex_mpl_grid_spare
           ex_mpl_fig_spare 6%nat eq_refl Hfig Hax).
Defined.
